(** * EFM32 / EZR32 / EFR32 target driver of the Black Magic Debug probe

    A shallow embedding of [src/target/efm32.c]: the device catalog and its
    first-match scan, device identification ([efm32_probe]), the page-erase
    loop ([efm32_flash_erase]), the stub-based write ([efm32_flash_write]),
    the mass erase command ([efm32_cmd_erase_all]) and the unique-number
    read ([efm32_read_eui]).

    The driver talks to the attached device only through the functions of
    the debug link ([target_mem_read32], [target_mem_write32],
    [target_check_error], [cortexm_run_stub], ...).  Those functions are not
    part of the file; they are taken as an interface ([DebugLink]) and every
    call the driver makes is recorded, with its arguments and its answer, in
    an event list.  The two busy-poll loops have no iteration bound in C, so
    the functions that contain them take a fuel argument and report the
    events issued so far when the fuel runs out. *)

From Stdlib Require Import ZArith List String Ascii Bool Lia Sorted.
From Stdlib Require Import DecimalString.
Import ListNotations.
Local Open Scope Z_scope.

(* ------------------------------------------------------------------------ *)
(** ** Machine integers *)
(* ------------------------------------------------------------------------ *)

(** Reduction of a mathematical integer to an unsigned C type of [w] bits. *)
Definition wrap (w x : Z) : Z := x mod 2 ^ w.

Definition wrap8 (x : Z) : Z := wrap 8 x.
Definition wrap16 (x : Z) : Z := wrap 16 x.
Definition wrap32 (x : Z) : Z := wrap 32 x.
Definition wrap64 (x : Z) : Z := wrap 64 x.

(** Value printed by [%d] for a 32-bit argument: the two's complement
    reading of its bits. *)
Definition as_int (x : Z) : Z :=
  let u := wrap32 x in if u <? 2 ^ 31 then u else u - 2 ^ 32.

(* ------------------------------------------------------------------------ *)
(** ** Register map (the [#define]s of the file, with [DRACO] defined) *)
(* ------------------------------------------------------------------------ *)

Definition SRAM_BASE : Z := 0x20000000.

Definition EFM32_MSC : Z := 0x400e0000.
Definition EFM32_MSC_LOCK : Z := EFM32_MSC + 0x040.
Definition EFM32_MSC_CMD : Z := EFM32_MSC + 0x074.
Definition EFM32_MSC_WRITECTRL : Z := EFM32_MSC + 0x008.
Definition EFM32_MSC_WRITECMD : Z := EFM32_MSC + 0x00c.
Definition EFM32_MSC_ADDRB : Z := EFM32_MSC + 0x010.
Definition EFM32_MSC_WDATA : Z := EFM32_MSC + 0x018.
Definition EFM32_MSC_STATUS : Z := EFM32_MSC + 0x01c.
Definition EFM32_MSC_MASSLOCK : Z := EFM32_MSC + 0x054.

Definition EFM32_MSC_LOCK_LOCKKEY : Z := 0x1b71.
Definition EFM32_MSC_MASSLOCK_LOCKKEY : Z := 0x631a.

Definition EFM32_MSC_WRITECMD_LADDRIM : Z := Z.shiftl 1 0.
Definition EFM32_MSC_WRITECMD_ERASEPAGE : Z := Z.shiftl 1 1.
Definition EFM32_MSC_WRITECMD_WRITEEND : Z := Z.shiftl 1 2.
Definition EFM32_MSC_WRITECMD_WRITEONCE : Z := Z.shiftl 1 3.
Definition EFM32_MSC_WRITECMD_WRITETRIG : Z := Z.shiftl 1 4.
Definition EFM32_MSC_WRITECMD_ERASEABORT : Z := Z.shiftl 1 5.
Definition EFM32_MSC_WRITECMD_ERASEMAIN0 : Z := Z.shiftl 1 8.

Definition EFM32_MSC_STATUS_BUSY : Z := Z.shiftl 1 0.
Definition EFM32_MSC_STATUS_LOCKED : Z := Z.shiftl 1 1.
Definition EFM32_MSC_STATUS_INVADDR : Z := Z.shiftl 1 2.
Definition EFM32_MSC_STATUS_WDATAREADY : Z := Z.shiftl 1 3.

Definition EFM32_INFO : Z := 0x0fe00000.
Definition EFM32_USER_DATA : Z := EFM32_INFO + 0x0000.
Definition EFM32_LOCK_BITS : Z := EFM32_INFO + 0x4000.
Definition EFM32_DI : Z := EFM32_INFO + 0x8000.

Definition EFM32_DI_RADIO_OPN : Z := EFM32_DI + 0x1AE.
Definition EFM32_DI_EUI64_0 : Z := EFM32_DI + 0x1F0.
Definition EFM32_DI_EUI64_1 : Z := EFM32_DI + 0x1F4.
Definition EFM32_DI_MEM_INFO_FLASH : Z := EFM32_DI + 0x1F8.
Definition EFM32_DI_MEM_INFO_RAM : Z := EFM32_DI + 0x1FA.
Definition EFM32_DI_PART_NUMBER : Z := EFM32_DI + 0x1FC.
Definition EFM32_DI_PART_FAMILY : Z := EFM32_DI + 0x1FE.

(* ------------------------------------------------------------------------ *)
(** ** The device catalog *)
(* ------------------------------------------------------------------------ *)

(** [efm32_device_t] *)
Record efm32_device_t : Type := mk_device {
  family : Z;            (* uint16_t: family for device matching *)
  name : string;         (* friendly device family name *)
  flash_page_size : Z;   (* uint32_t *)
  msc_offset : Z;        (* uint32_t: offset for MSC *)
  has_radio : bool       (* the device has an attached radio *)
}.

Local Open Scope string_scope.

Definition efm32_devices : list efm32_device_t := [
  (* Second gen devices micro + Radio *)
  mk_device 16 "EFR32MG1P" 2048 0x400e0000 true;
  mk_device 17 "EFR32MG1B" 2048 0x400e0000 true;
  mk_device 18 "EFR32MG1V" 2048 0x400e0000 true;
  mk_device 19 "EFR32BG1P" 2048 0x400e0000 true;
  mk_device 20 "EFR32BG1B" 2048 0x400e0000 true;
  mk_device 21 "EFR32BG1V" 2048 0x400e0000 true;
  mk_device 25 "EFR32FG1P" 2048 0x400e0000 true;
  mk_device 26 "EFR32FG1B" 2048 0x400e0000 true;
  mk_device 27 "EFR32FG1V" 2048 0x400e0000 true;
  mk_device 28 "EFR32MG12P" 2048 0x400e0000 true;
  mk_device 28 "EFR32MG2P" 2048 0x400e0000 true;
  mk_device 29 "EFR32MG12B" 2048 0x400e0000 true;
  mk_device 30 "EFR32MG12V" 2048 0x400e0000 true;
  mk_device 31 "EFR32BG12P" 2048 0x400e0000 true;
  mk_device 32 "EFR32BG12B" 2048 0x400e0000 true;
  mk_device 33 "EFR32BG12V" 2048 0x400e0000 true;
  mk_device 37 "EFR32FG12P" 2048 0x400e0000 true;
  mk_device 38 "EFR32FG12B" 2048 0x400e0000 true;
  mk_device 39 "EFR32FG12V" 2048 0x400e0000 true;
  mk_device 40 "EFR32MG13P" 2048 0x400e0000 true;
  mk_device 41 "EFR32MG13B" 2048 0x400e0000 true;
  mk_device 42 "EFR32MG13V" 2048 0x400e0000 true;
  mk_device 43 "EFR32BG13P" 2048 0x400e0000 true;
  mk_device 44 "EFR32BG13B" 2048 0x400e0000 true;
  mk_device 45 "EFR32BG13V" 2048 0x400e0000 true;
  mk_device 49 "EFR32FG13P" 2048 0x400e0000 true;
  mk_device 50 "EFR32FG13B" 2048 0x400e0000 true;
  mk_device 51 "EFR32FG13V" 2048 0x400e0000 true;
  (* Second gen micros *)
  mk_device 81 "EFM32PG1B" 2048 0x400e0000 false;
  mk_device 83 "EFM32JG1B" 2048 0x400e0000 false;
  (* First gen micros *)
  mk_device 71 "EFM32G" 512 0x400c0000 false;
  mk_device 72 "EFM32GG" 2048 0x400c0000 false;
  mk_device 73 "EFM32TG" 512 0x400c0000 false;
  mk_device 74 "EFM32LG" 2048 0x400c0000 false;
  mk_device 75 "EFM32WG" 2048 0x400c0000 false;
  mk_device 76 "EFM32ZG" 1024 0x400c0000 false;
  mk_device 77 "EFM32HG" 1024 0x400c0000 false;
  (* First (1.5) gen micro + radios *)
  mk_device 120 "EFR32WG" 2048 0x400c0000 true;
  mk_device 121 "EFR32LG" 2048 0x400c0000 true
].

Local Close Scope string_scope.

(** The scan of [efm32_probe] (the [for] loop over [efm32_devices] that
    stops at the first entry whose family equals [part_family]); [None] is
    the [device == NULL] that follows it. *)
Fixpoint efm32_device_lookup (devices : list efm32_device_t) (part_family : Z)
  : option efm32_device_t :=
  match devices with
  | [] => None
  | d :: rest =>
      if family d =? part_family then Some d
      else efm32_device_lookup rest part_family
  end.

(** Families the table lists under its two "First gen" headings. *)
Definition first_gen_families : list Z := [71; 72; 73; 74; 75; 76; 77; 120; 121].

Definition is_first_gen (d : efm32_device_t) : bool :=
  existsb (Z.eqb (family d)) first_gen_families.

(* ------------------------------------------------------------------------ *)
(** ** What the driver hands to, and receives from, the rest of the probe *)
(* ------------------------------------------------------------------------ *)

(** Addresses of functions stored in structures. *)
Inductive fn_ptr : Type :=
| Fn_efm32_flash_erase
| Fn_efm32_flash_write
| Fn_target_flash_write_buffered
| Fn_target_flash_done_buffered
| Fn_efm32_cmd_erase_all
| Fn_efm32_cmd_serial.

(** [struct target_flash], the fields [efm32_add_flash] fills in (the
    structure comes from [calloc], every other field is zero). *)
Record target_flash : Type := mk_flash {
  f_start : Z;          (* start *)
  f_length : Z;         (* length *)
  f_blocksize : Z;      (* blocksize *)
  f_erase : fn_ptr;     (* erase *)
  f_write : fn_ptr;     (* write *)
  f_done : fn_ptr;      (* done *)
  f_write_buf : fn_ptr; (* write_buf *)
  f_buf_size : Z        (* buf_size *)
}.

(** [struct command_s] *)
Record command_s : Type := mk_command {
  cmd : string;
  handler : fn_ptr;
  help : string
}.

Definition efm32_cmd_list : list command_s := [
  mk_command "erase_mass" Fn_efm32_cmd_erase_all "Erase entire flash memory";
  mk_command "serial" Fn_efm32_cmd_serial "Prints unique number"
].

(** A host buffer handed to [target_mem_write]. *)
Inductive buffer : Type :=
| BufHalfwords (halfwords : list Z)   (* a [uint16_t] array *)
| BufBytes (bytes : list Z).          (* the caller's [src] *)

(** One call to a function the file does not define, with its arguments
    and, where it has one, its answer. *)
Inductive event : Type :=
| MemRead8 (addr value : Z)
| MemRead16 (addr value : Z)
| MemRead32 (addr value : Z)
| MemWrite32 (addr value : Z)
| MemWrite (dest : Z) (src : buffer) (len : Z)
| CheckError (fault : bool)
| RunStub (loadaddr r0 r1 r2 r3 : Z) (result : Z)
| AddRam (start len : Z)
| AddFlash (f : target_flash)
| AddCommands (cmds : list command_s) (group : string)
| TcPrintf (text : string)
| DebugMsg (text : string).

(** The debug link and the device behind it.  A read answers with a value
    and may change the device (a status register changes as time passes);
    a write only changes it. *)
Class DebugLink (L : Type) : Type := {
  link_read8 : L -> Z -> Z * L;
  link_read16 : L -> Z -> Z * L;
  link_read32 : L -> Z -> Z * L;
  link_write32 : L -> Z -> Z -> L;
  link_write : L -> Z -> buffer -> Z -> L;
  link_check_error : L -> bool * L;
  link_run_stub : L -> Z -> Z -> Z -> Z -> Z -> Z * L
}.

(** Where [t->driver] points. *)
Inductive char_ptr : Type :=
| Ptr_null
| Ptr_variant_string.

(** The fields of [target] the driver reads or assigns. *)
Record target : Type := mk_target {
  idcode : Z;           (* cortexm_ap(t)->dp->idcode *)
  target_options : Z;
  driver : char_ptr
}.

(** Outcome of running a driver function: it returned [a], or the fuel of
    a busy-poll ran out first.  Both carry the events issued and the state
    reached. *)
Inductive outcome (S A : Type) : Type :=
| Ret (a : A) (evs : list event) (s : S)
| OutOfFuel (evs : list event) (s : S).
Arguments Ret {S A} a evs s.
Arguments OutOfFuel {S A} evs s.

Definition events {S A : Type} (o : outcome S A) : list event :=
  match o with
  | Ret _ evs _ => evs
  | OutOfFuel evs _ => evs
  end.

Definition final {S A : Type} (o : outcome S A) : S :=
  match o with
  | Ret _ _ s => s
  | OutOfFuel _ s => s
  end.

Definition M (S A : Type) : Type := S -> outcome S A.

Definition ret {S A : Type} (a : A) : M S A := fun s => Ret a [] s.

Definition bind {S A B : Type} (m : M S A) (k : A -> M S B) : M S B :=
  fun s =>
    match m s with
    | Ret a e1 s1 =>
        match k a s1 with
        | Ret b e2 s2 => Ret b (e1 ++ e2) s2
        | OutOfFuel e2 s2 => OutOfFuel (e1 ++ e2) s2
        end
    | OutOfFuel e1 s1 => OutOfFuel e1 s1
    end.

Definition out_of_fuel {S A : Type} : M S A := fun s => OutOfFuel [] s.

Declare Scope drv_scope.
Delimit Scope drv_scope with drv.
Notation "x <- m ;; k" := (bind m (fun x => k))
  (at level 61, m at next level, right associativity) : drv_scope.
Notation "m ;; k" := (bind m (fun _ => k))
  (at level 61, right associativity) : drv_scope.

(* ------------------------------------------------------------------------ *)
(** ** Text formatting used by the [printf]-style calls *)
(* ------------------------------------------------------------------------ *)

Definition nl : string := String (ascii_of_nat 10) EmptyString.

(** [%d] *)
Definition fmt_d (x : Z) : string := NilZero.string_of_int (Z.to_int x).

Definition hex_digit (d : Z) : ascii :=
  if d <? 10 then ascii_of_nat (48 + Z.to_nat d)
  else ascii_of_nat (87 + Z.to_nat d).

(** The [n] low hexadecimal digits of [x], most significant first. *)
Fixpoint fmt_hex (n : nat) (x : Z) : string :=
  match n with
  | O => EmptyString
  | S n' => (fmt_hex n' (x / 16) ++ String (hex_digit (x mod 16)) EmptyString)%string
  end.

(** [%016llx] of a 64-bit value: sixteen digits, zero padded. *)
Definition fmt_016llx (x : Z) : string := fmt_hex 16 (wrap64 x).

(* ------------------------------------------------------------------------ *)
(** ** The driver *)
(* ------------------------------------------------------------------------ *)

(** Modelled from the spec: the [ALIGN] macro comes from [general.h], which
    is not among the sources.  The payload goes to the address "immediately
    following the stub, aligned to a 4-byte boundary": [ALIGN x n] is the
    least multiple of [n] that is not below [x]. *)
Definition ALIGN (x n : Z) : Z := (x + n - 1) / n * n.

Section Driver.

Context {L : Type} {DL : DebugLink L}.

(** Width of [size_t] on the machine that runs the driver. *)
Variable size_bits : Z.
(** [cortexm.h], not among the sources. *)
Variable CORTEXM_TOPT_INHIBIT_SRST : Z.
(** The halfwords of [flashstub/efm32.stub], not among the sources. *)
Variable efm32_flash_write_stub : list Z.

Definition size_wrap (x : Z) : Z := wrap size_bits x.

(** [sizeof(efm32_flash_write_stub)] *)
Definition sizeof_stub : Z := 2 * Z.of_nat (List.length efm32_flash_write_stub).

(** The macro is expanded where a [target_addr] is expected: 32 bits of
    the sum arrive. *)
Definition STUB_BUFFER_BASE : Z := wrap32 (ALIGN (SRAM_BASE + sizeof_stub) 4).

(** Everything a driver function can read or change: the link with the
    device behind it, the [target] structure and the global buffer
    [variant_string]. *)
Record state : Type := mk_state {
  lnk : L;
  tgt : target;
  variant_string : string
}.

Definition set_lnk (s : state) (l : L) : state :=
  mk_state l (tgt s) (variant_string s).

Definition Drv : Type -> Type := M state.
Local Open Scope drv_scope.

(** *** Calls into the probe framework *)

Definition target_mem_read8 (addr : Z) : Drv Z := fun s =>
  let '(v, l) := link_read8 (lnk s) addr in
  Ret (wrap8 v) [MemRead8 addr (wrap8 v)] (set_lnk s l).

Definition target_mem_read16 (addr : Z) : Drv Z := fun s =>
  let '(v, l) := link_read16 (lnk s) addr in
  Ret (wrap16 v) [MemRead16 addr (wrap16 v)] (set_lnk s l).

Definition target_mem_read32 (addr : Z) : Drv Z := fun s =>
  let '(v, l) := link_read32 (lnk s) addr in
  Ret (wrap32 v) [MemRead32 addr (wrap32 v)] (set_lnk s l).

Definition target_mem_write32 (addr value : Z) : Drv unit := fun s =>
  Ret tt [MemWrite32 addr value] (set_lnk s (link_write32 (lnk s) addr value)).

Definition target_mem_write (dest : Z) (src : buffer) (len : Z) : Drv unit :=
  fun s =>
    Ret tt [MemWrite dest src len] (set_lnk s (link_write (lnk s) dest src len)).

Definition target_check_error : Drv bool := fun s =>
  let '(e, l) := link_check_error (lnk s) in
  Ret e [CheckError e] (set_lnk s l).

Definition cortexm_run_stub (loadaddr r0 r1 r2 r3 : Z) : Drv Z := fun s =>
  let '(r, l) := link_run_stub (lnk s) loadaddr r0 r1 r2 r3 in
  Ret r [RunStub loadaddr r0 r1 r2 r3 r] (set_lnk s l).

Definition target_add_ram (start len : Z) : Drv unit := fun s =>
  Ret tt [AddRam start len] s.

Definition target_add_flash (f : target_flash) : Drv unit := fun s =>
  Ret tt [AddFlash f] s.

Definition target_add_commands (cmds : list command_s) (group : string)
  : Drv unit := fun s => Ret tt [AddCommands cmds group] s.

Definition tc_printf (text : string) : Drv unit := fun s =>
  Ret tt [TcPrintf text] s.

Definition DEBUG (text : string) : Drv unit := fun s =>
  Ret tt [DebugMsg text] s.

(** *** Helper functions *)

Definition efm32_read_eui : Drv Z :=
  hi <- target_mem_read32 EFM32_DI_EUI64_1 ;;
  let eui := wrap64 (Z.shiftl hi 32) in
  lo <- target_mem_read32 EFM32_DI_EUI64_0 ;;
  ret (Z.lor eui (wrap64 (Z.shiftl lo 0))).

Definition efm32_read_flash_size : Drv Z :=
  target_mem_read16 EFM32_DI_MEM_INFO_FLASH.

Definition efm32_read_ram_size : Drv Z :=
  target_mem_read16 EFM32_DI_MEM_INFO_RAM.

Definition efm32_read_part_number : Drv Z :=
  target_mem_read16 EFM32_DI_PART_NUMBER.

Definition efm32_read_part_family : Drv Z :=
  target_mem_read8 EFM32_DI_PART_FAMILY.

Definition efm32_read_radio_part_number : Drv Z :=
  target_mem_read16 EFM32_DI_RADIO_OPN.

Definition efm32_add_flash (addr length page_size : Z) : Drv unit :=
  target_add_flash
    (mk_flash addr length page_size
              Fn_efm32_flash_erase
              Fn_target_flash_write_buffered
              Fn_target_flash_done_buffered
              Fn_efm32_flash_write
              page_size).

(** *** Identification *)

(** [sprintf(variant_string, ...)]: the global buffer receives [text].  It
    has room for 40 characters; the longest text the catalog can produce,
    a name of ten characters with a radio number of five digits, has 25. *)
Definition sprintf_variant_string (text : string) : Drv unit := fun s =>
  Ret tt [] (mk_state (lnk s) (tgt s) text).

(** [t->target_options |= CORTEXM_TOPT_INHIBIT_SRST; t->driver = variant_string;] *)
Definition setup_target : Drv unit := fun s =>
  Ret tt []
      (mk_state (lnk s)
                (mk_target (idcode (tgt s))
                           (Z.lor (target_options (tgt s))
                                  CORTEXM_TOPT_INHIBIT_SRST)
                           Ptr_variant_string)
                (variant_string s)).

(** [efm32_probe] from "Read the part number and family" to its end: the
    part both accepted identification codes continue with. *)
Definition efm32_probe_device : Drv bool :=
  (* Read the part number and family *)
  part_number <- efm32_read_part_number ;;
  part_family <- efm32_read_part_family ;;
  DEBUG ("efm32_probe - part_number: " ++ fmt_d part_number
         ++ " part_family: " ++ fmt_d part_family ++ nl)%string ;;
  match efm32_device_lookup efm32_devices part_family with
  | None => ret false
  | Some device =>
      let flash_page_size := flash_page_size device in
      (if negb (has_radio device) then
         sprintf_variant_string (name device)
       else
         radio_number <- efm32_read_radio_part_number ;;
         sprintf_variant_string
           (name device ++ " (radio: " ++ fmt_d radio_number ++ ")")%string) ;;
      (* Read memory sizes, convert to bytes *)
      fs <- efm32_read_flash_size ;;
      let flash_size := wrap32 (fs * 0x400) in
      rs <- efm32_read_ram_size ;;
      let ram_size := wrap32 (rs * 0x400) in
      (* Setup Target *)
      setup_target ;;
      tc_printf ("flash size " ++ fmt_d (as_int flash_size)
                 ++ " page size " ++ fmt_d (as_int flash_page_size) ++ nl)%string ;;
      target_add_ram SRAM_BASE ram_size ;;
      efm32_add_flash 0x00000000 flash_size flash_page_size ;;
      target_add_commands efm32_cmd_list "EFM32" ;;
      ret true
  end.

Definition efm32_probe : Drv bool := fun s =>
  (* Read the IDCODE register from the SW-DP *)
  let ap_idcode := idcode (tgt s) in
  (* Check the idcode is silabs. See AN0062 Section 2.2 *)
  if ap_idcode =? 0x2BA01477 then
    (* Cortex M3, Cortex M4 *)
    efm32_probe_device s
  else if ap_idcode =? 0x0BC11477 then
    (* Cortex M0+ *)
    efm32_probe_device s
  else
    ret false s.

(** *** Erase *)

Definition msc_busy (status : Z) : bool :=
  negb (Z.land status EFM32_MSC_STATUS_BUSY =? 0).

(** The loop "Poll MSC Busy", which [efm32_flash_erase] and
    [efm32_cmd_erase_all] both contain:
    [while (read32(STATUS) & BUSY) if (target_check_error(t)) return ...].
    The answer [true] is the [return] from inside the loop. *)
Fixpoint msc_poll_busy (fuel : nat) : Drv bool :=
  match fuel with
  | O => out_of_fuel
  | S fuel' =>
      status <- target_mem_read32 EFM32_MSC_STATUS ;;
      if msc_busy status then
        fault <- target_check_error ;;
        if fault then ret true else msc_poll_busy fuel'
      else ret false
  end.

(** The [while (len)] loop of [efm32_flash_erase].  Besides the value
    the function returns it reports the locals [addr] and [len] as they
    are at the [return].  One unit of fuel pays for one round; the poll of
    a round gets the fuel that is left.  [addr] is a [target_addr] (32
    bits), [len] and [f->blocksize] are [size_t]. *)
Fixpoint efm32_flash_erase_loop (fuel : nat) (f : target_flash) (addr len : Z)
  : Drv (Z * (Z * Z)) :=
  if len =? 0 then ret (0, (addr, len))
  else
    match fuel with
    | O => out_of_fuel
    | S fuel' =>
        (* Write address of first word in row to erase it *)
        target_mem_write32 EFM32_MSC_ADDRB addr ;;
        target_mem_write32 EFM32_MSC_WRITECMD EFM32_MSC_WRITECMD_LADDRIM ;;
        (* Issue the erase command *)
        target_mem_write32 EFM32_MSC_WRITECMD EFM32_MSC_WRITECMD_ERASEPAGE ;;
        (* Poll MSC Busy *)
        fault <- msc_poll_busy fuel' ;;
        if fault then ret (-1, (addr, len))
        else
          efm32_flash_erase_loop fuel' f
            (wrap32 (addr + f_blocksize f))
            (size_wrap (len - f_blocksize f))
    end.

(** [efm32_flash_erase] with the locals [addr] and [len] reported next to
    the return value. *)
Definition efm32_flash_erase_job (fuel : nat) (f : target_flash) (addr len : Z)
  : Drv (Z * (Z * Z)) :=
  (* Set WREN bit to enabel MSC write and erase functionality *)
  target_mem_write32 EFM32_MSC_WRITECTRL 1 ;;
  efm32_flash_erase_loop fuel f addr len.

Definition efm32_flash_erase (fuel : nat) (f : target_flash) (addr len : Z)
  : Drv Z :=
  r <- efm32_flash_erase_job fuel f addr len ;;
  ret (fst r).

(** *** Write *)

Definition efm32_flash_write (f : target_flash) (dest : Z) (src : list Z)
           (len : Z) : Drv Z :=
  (* Write flashloader *)
  target_mem_write SRAM_BASE (BufHalfwords efm32_flash_write_stub) sizeof_stub ;;
  (* Write Buffer *)
  target_mem_write STUB_BUFFER_BASE (BufBytes src) len ;;
  (* Run flashloader: the arguments of [cortexm_run_stub] are 32-bit words,
     the [size_t] value [len] is converted to one *)
  cortexm_run_stub SRAM_BASE dest STUB_BUFFER_BASE (wrap32 len) 0.
  (* the [return 0;] that follows in the source is never reached *)

(** *** Commands *)

Definition efm32_cmd_erase_all (fuel : nat) : Drv bool :=
  (* Set WREN bit to enabel MSC write and erase functionality *)
  target_mem_write32 EFM32_MSC_WRITECTRL 1 ;;
  (* Unlock mass erase *)
  target_mem_write32 EFM32_MSC_MASSLOCK EFM32_MSC_MASSLOCK_LOCKKEY ;;
  (* Erase operation *)
  target_mem_write32 EFM32_MSC_WRITECMD EFM32_MSC_WRITECMD_ERASEMAIN0 ;;
  (* Poll MSC Busy *)
  fault <- msc_poll_busy fuel ;;
  if fault then ret false
  else
    (* Relock mass erase *)
    target_mem_write32 EFM32_MSC_MASSLOCK 0 ;;
    tc_printf ("Erase successful!" ++ nl)%string ;;
    ret true.

Definition efm32_cmd_serial : Drv bool :=
  (* Read the extended unique identifier *)
  eui <- efm32_read_eui ;;
  (* 64 bits of unique number *)
  tc_printf ("Unique Number: 0x" ++ fmt_016llx eui ++ nl)%string ;;
  ret true.

End Driver.

Arguments state L : clear implicits.
Arguments mk_state {L} lnk tgt variant_string.
Arguments lnk {L} s.
Arguments tgt {L} s.
Arguments variant_string {L} s.

(* ------------------------------------------------------------------------ *)
(** ** Vocabulary for statements about event lists *)
(* ------------------------------------------------------------------------ *)

(** The three writes that erase the page at [addr]: the address latch
    ([ADDRB], then [LADDRIM]) and the page-erase command. *)
Definition page_cmds (addr : Z) : list event :=
  [ MemWrite32 EFM32_MSC_ADDRB addr;
    MemWrite32 EFM32_MSC_WRITECMD EFM32_MSC_WRITECMD_LADDRIM;
    MemWrite32 EFM32_MSC_WRITECMD EFM32_MSC_WRITECMD_ERASEPAGE ].

(** Polls that found the controller busy and the link sound; [vs] are the
    status words read. *)
Definition busy_polls (vs : list Z) : list event :=
  flat_map (fun v => [MemRead32 EFM32_MSC_STATUS v; CheckError false]) vs.

(** An event of a busy-poll that goes on: a read of the status register or
    a link check without fault. *)
Definition is_poll_event (e : event) : bool :=
  match e with
  | MemRead32 a _ => a =? EFM32_MSC_STATUS
  | CheckError false => true
  | _ => false
  end.

(** Events that change the device: memory writes and the run of a stub. *)
Definition is_target_write (e : event) : bool :=
  match e with
  | MemWrite32 _ _ | MemWrite _ _ _ | RunStub _ _ _ _ _ _ => true
  | _ => false
  end.

(** Events that read device memory. *)
Definition is_target_read (e : event) : bool :=
  match e with
  | MemRead8 _ _ | MemRead16 _ _ | MemRead32 _ _ => true
  | _ => false
  end.

Definition is_fault (e : event) : bool :=
  match e with
  | CheckError true => true
  | _ => false
  end.

(** The register writes among the events, in order. *)
Definition mem_writes (evs : list event) : list event :=
  filter (fun e => match e with MemWrite32 _ _ => true | _ => false end) evs.

(** The addresses written to [ADDRB], in order. *)
Fixpoint latched (evs : list event) : list Z :=
  match evs with
  | [] => []
  | MemWrite32 a v :: rest =>
      if a =? EFM32_MSC_ADDRB then v :: latched rest else latched rest
  | _ :: rest => latched rest
  end.

(** The page-erase commands among the events. *)
Definition page_erases (evs : list event) : list event :=
  filter (fun e => match e with
                   | MemWrite32 a v =>
                       (a =? EFM32_MSC_WRITECMD) && (v =? EFM32_MSC_WRITECMD_ERASEPAGE)
                   | _ => false
                   end) evs.

(** The device address a register access goes to. *)
Definition event_addr (e : event) : option Z :=
  match e with
  | MemRead8 a _ | MemRead16 a _ | MemRead32 a _ | MemWrite32 a _ => Some a
  | MemWrite a _ _ => Some a
  | _ => None
  end.

(** The values of [addr] and [len] after [n] rounds of the erase loop. *)
Fixpoint addr_after (bs : Z) (n : nat) (addr : Z) : Z :=
  match n with
  | O => addr
  | S n' => addr_after bs n' (wrap32 (addr + bs))
  end.

Fixpoint len_after (size_bits bs : Z) (n : nat) (len : Z) : Z :=
  match n with
  | O => len
  | S n' => len_after size_bits bs n' (wrap size_bits (len - bs))
  end.

(** The events of rounds that ran to the end of their poll, given the
    events of each poll. *)
Fixpoint pages (bs addr : Z) (polls : list (list event)) : list event :=
  match polls with
  | [] => []
  | p :: rest => page_cmds addr ++ p ++ pages bs (wrap32 (addr + bs)) rest
  end.

(** The first three register writes of [efm32_cmd_erase_all]. *)
Definition erase_all_cmds : list event :=
  [ MemWrite32 EFM32_MSC_WRITECTRL 1;
    MemWrite32 EFM32_MSC_MASSLOCK EFM32_MSC_MASSLOCK_LOCKKEY;
    MemWrite32 EFM32_MSC_WRITECMD EFM32_MSC_WRITECMD_ERASEMAIN0 ].

(** The registers of the controller the erase functions touch. *)
Definition msc_registers : list Z :=
  [ EFM32_MSC_WRITECTRL; EFM32_MSC_WRITECMD; EFM32_MSC_ADDRB;
    EFM32_MSC_STATUS; EFM32_MSC_MASSLOCK ].

(** Calls that register something with the target session. *)
Definition is_registration (e : event) : bool :=
  match e with
  | AddRam _ _ | AddFlash _ | AddCommands _ _ => true
  | _ => false
  end.

(** What one run of identification yields: its answer, the calls it made
    and, when the device was identified, the display string it composed. *)
Definition identification {L : Type} (o : outcome (state L) bool)
  : option bool * list event * option string :=
  match o with
  | Ret true evs s => (Some true, evs, Some (variant_string s))
  | Ret false evs _ => (Some false, evs, None)
  | OutOfFuel evs _ => (None, evs, None)
  end.

(* ------------------------------------------------------------------------ *)
(** ** A simulated device *)
(* ------------------------------------------------------------------------ *)

(** A device whose information registers hold [sim_regs], that stays busy
    for [sim_erase_time] polls after an erase command, and whose link
    reports a fault at the check numbered [sim_fault_in] (never, if
    [None]). *)
Record sim : Type := mk_sim {
  sim_regs : Z -> Z;
  sim_busy : nat;
  sim_erase_time : nat;
  sim_fault_in : option nat;
  sim_stub_result : Z
}.

Definition sim_read (s : sim) (addr : Z) : Z * sim := (sim_regs s addr, s).

Definition sim_read32 (s : sim) (addr : Z) : Z * sim :=
  if addr =? EFM32_MSC_STATUS then
    match sim_busy s with
    | O => (0, s)
    | S n => (1, mk_sim (sim_regs s) n (sim_erase_time s) (sim_fault_in s)
                        (sim_stub_result s))
    end
  else (sim_regs s addr, s).

Definition sim_write32 (s : sim) (addr value : Z) : sim :=
  if (addr =? EFM32_MSC_WRITECMD)
     && ((value =? EFM32_MSC_WRITECMD_ERASEPAGE)
         || (value =? EFM32_MSC_WRITECMD_ERASEMAIN0))
  then mk_sim (sim_regs s) (sim_erase_time s) (sim_erase_time s)
              (sim_fault_in s) (sim_stub_result s)
  else s.

Definition sim_check_error (s : sim) : bool * sim :=
  match sim_fault_in s with
  | None => (false, s)
  | Some O => (true, mk_sim (sim_regs s) (sim_busy s) (sim_erase_time s) None
                            (sim_stub_result s))
  | Some (S n) => (false, mk_sim (sim_regs s) (sim_busy s) (sim_erase_time s)
                                 (Some n) (sim_stub_result s))
  end.

#[export] Instance sim_link : DebugLink sim := {
  link_read8 := sim_read;
  link_read16 := sim_read;
  link_read32 := sim_read32;
  link_write32 := sim_write32;
  link_write := fun s _ _ _ => s;
  link_check_error := sim_check_error;
  link_run_stub := fun s _ _ _ _ _ => (sim_stub_result s, s)
}.

(** Information registers of an EFM32GG (family 72) with 1024 KiB of flash
    and 128 KiB of RAM, and unique number 0x123456789ABCDEF0. *)
Definition gg_regs (addr : Z) : Z :=
  if addr =? EFM32_DI_PART_FAMILY then 72
  else if addr =? EFM32_DI_PART_NUMBER then 990
  else if addr =? EFM32_DI_MEM_INFO_FLASH then 1024
  else if addr =? EFM32_DI_MEM_INFO_RAM then 128
  else if addr =? EFM32_DI_EUI64_1 then 0x12345678
  else if addr =? EFM32_DI_EUI64_0 then 0x9ABCDEF0
  else 0.

(** A sound device: two busy polls after each erase command, no fault. *)
Definition gg_sim : sim := mk_sim gg_regs 0 2 None 0.

(** The same device on a link that reports a fault at its fourth check. *)
Definition gg_sim_faulty : sim := mk_sim gg_regs 0 2 (Some 3%nat) 0.

Definition gg_target : target := mk_target 0x2BA01477 0 Ptr_null.

Definition gg_state (l : sim) : state sim := mk_state l gg_target EmptyString.

Definition gg_flash : target_flash :=
  mk_flash 0 0x100000 2048 Fn_efm32_flash_erase Fn_target_flash_write_buffered
           Fn_target_flash_done_buffered Fn_efm32_flash_write 2048.

(** The state in which the poll of a page starts: the three writes of
    [page_cmds] have reached the device. *)
Definition erase_page_start {L : Type} {DL : DebugLink L} (s : state L) (addr : Z)
  : state L :=
  set_lnk s
    (link_write32
       (link_write32
          (link_write32 (lnk s) EFM32_MSC_ADDRB addr)
          EFM32_MSC_WRITECMD EFM32_MSC_WRITECMD_LADDRIM)
       EFM32_MSC_WRITECMD EFM32_MSC_WRITECMD_ERASEPAGE).

(** The state in which the poll of the mass erase starts: the three writes
    of [erase_all_cmds] have reached the device. *)
Definition erase_all_start {L : Type} {DL : DebugLink L} (s : state L) : state L :=
  set_lnk s
    (link_write32
       (link_write32
          (link_write32 (lnk s) EFM32_MSC_WRITECTRL 1)
          EFM32_MSC_MASSLOCK EFM32_MSC_MASSLOCK_LOCKKEY)
       EFM32_MSC_WRITECMD EFM32_MSC_WRITECMD_ERASEMAIN0).

(** A device that finishes what it is told and a link that does not fail,
    as long as the device is in a state of [Inv]: register writes and
    status reads keep it there, and a status read that answers busy is
    followed by a link check that reports no fault and leaves the device
    closer, by the measure [left], to the end of its operation. *)
Definition sound_device {L : Type} {DL : DebugLink L}
           (Inv : L -> Prop) (left : L -> nat) : Prop :=
  (forall l a v, Inv l -> Inv (link_write32 l a v)) /\
  (forall l, Inv l ->
     let v := wrap32 (fst (link_read32 l EFM32_MSC_STATUS)) in
     let l1 := snd (link_read32 l EFM32_MSC_STATUS) in
     Inv l1 /\
     (msc_busy v = true ->
      fst (link_check_error l1) = false /\
      Inv (snd (link_check_error l1)) /\
      (left (snd (link_check_error l1)) < left l)%nat)).

(** Every family of the catalog other than the one at index 9 and 10
    occurs once: a decidable check over all pairs of entries. *)
Definition unique_apart_from (fam : Z) (devices : list efm32_device_t) : bool :=
  forallb (fun i =>
    forallb (fun j =>
      match nth_error devices i, nth_error devices j with
      | Some d1, Some d2 =>
          negb (family d1 =? family d2) || (family d1 =? fam) || Nat.eqb i j
      | _, _ => true
      end) (seq 0 (List.length devices))) (seq 0 (List.length devices)).

(** The events of rounds whose poll saw the controller idle: for each
    round the status words that answered busy and the one that answered
    idle. *)
Fixpoint polled_pages (bs addr : Z) (polls : list (list Z * Z)) : list event :=
  match polls with
  | [] => []
  | (vs, v) :: rest =>
      page_cmds addr ++ busy_polls vs ++ [MemRead32 EFM32_MSC_STATUS v]
        ++ polled_pages bs (wrap32 (addr + bs)) rest
  end.

(** The calls [efm32_flash_erase] can make. *)
Definition is_erase_event (e : event) : bool :=
  match e with
  | MemWrite32 a v =>
      ((a =? EFM32_MSC_WRITECTRL) && (v =? 1))
      || (a =? EFM32_MSC_ADDRB)
      || ((a =? EFM32_MSC_WRITECMD)
          && ((v =? EFM32_MSC_WRITECMD_LADDRIM)
              || (v =? EFM32_MSC_WRITECMD_ERASEPAGE)))
  | MemRead32 a _ => a =? EFM32_MSC_STATUS
  | CheckError _ => true
  | _ => false
  end.

(** Value of a hexadecimal digit as [%x] writes it. *)
Definition hex_val (c : ascii) : Z :=
  let n := Z.of_nat (nat_of_ascii c) in
  if n <? 58 then n - 48 else n - 87.

(** The number a string of hexadecimal digits denotes, [acc] being the
    number denoted by the digits already read. *)
Fixpoint hex_value_from (acc : Z) (digits : string) : Z :=
  match digits with
  | EmptyString => acc
  | String c rest => hex_value_from (16 * acc + hex_val c) rest
  end.

Definition hex_value (digits : string) : Z := hex_value_from 0 digits.

(** Information registers of an EFM32GG whose flash size register is odd:
    1023 KiB. *)
Definition gg_odd_regs (addr : Z) : Z :=
  if addr =? EFM32_DI_MEM_INFO_FLASH then 1023 else gg_regs addr.

(** Information registers of an EFR32MG1P (family 16, with radio). *)
Definition mg_regs (addr : Z) : Z :=
  if addr =? EFM32_DI_PART_FAMILY then 16
  else if addr =? EFM32_DI_RADIO_OPN then 4460
  else gg_regs addr.

(* ------------------------------------------------------------------------ *)
(** ** Proof steps used more than once *)
(* ------------------------------------------------------------------------ *)

(** Unfold identification down to the calls of the link, then name the
    answer of each read and split on the catalog scan and the radio flag. *)
Ltac probe_unfold :=
  unfold efm32_probe, efm32_probe_device, efm32_read_part_number,
    efm32_read_part_family, efm32_read_radio_part_number,
    efm32_read_flash_size, efm32_read_ram_size, efm32_add_flash, bind, ret,
    target_mem_read16, target_mem_read8, DEBUG, tc_printf, target_add_ram,
    target_add_flash, target_add_commands, sprintf_variant_string,
    setup_target in *.

Ltac probe_reads :=
  repeat (cbn [lnk tgt variant_string set_lnk app fst snd negb] in *;
          match goal with
          | |- context [link_read16 ?l ?a] =>
              let v := fresh "v" in let l' := fresh "l" in
              destruct (link_read16 l a) as [v l'] eqn:?
          | |- context [link_read8 ?l ?a] =>
              let v := fresh "v" in let l' := fresh "l" in
              destruct (link_read8 l a) as [v l'] eqn:?
          | |- context [efm32_device_lookup ?d ?f] =>
              let dev := fresh "dev" in
              destruct (efm32_device_lookup d f) as [dev|] eqn:?
          | |- context [has_radio ?d] => destruct (has_radio d) eqn:?
          | H : context [match link_read16 ?l ?a with _ => _ end] |- _ =>
              let v := fresh "v" in let l' := fresh "l" in
              destruct (link_read16 l a) as [v l'] eqn:?
          | H : context [match link_read8 ?l ?a with _ => _ end] |- _ =>
              let v := fresh "v" in let l' := fresh "l" in
              destruct (link_read8 l a) as [v l'] eqn:?
          | H : context [match efm32_device_lookup ?d ?f with _ => _ end] |- _ =>
              let dev := fresh "dev" in
              destruct (efm32_device_lookup d f) as [dev|] eqn:?
          | H : context [if negb (has_radio ?d) then _ else _] |- _ =>
              destruct (has_radio d) eqn:?
          end);
  cbn [lnk tgt variant_string set_lnk app fst snd negb] in *.

(** Membership in [msc_registers], and the same for each event of an
    explicit list. *)
Ltac in_msc := cbn [In msc_registers]; auto 10.

Ltac msc_each :=
  repeat (apply Forall_cons;
          [let b := fresh "b" in let Hb := fresh "Hb" in
           intros b Hb; cbn [event_addr] in Hb;
           first [discriminate Hb | injection Hb as <-; in_msc]|]);
  try apply Forall_nil.

(* ------------------------------------------------------------------------ *)
(** ** The catalog and its scan *)
(* ------------------------------------------------------------------------ *)

Lemma efm32_device_lookup_first (devices : list efm32_device_t) (fam : Z)
      (d : efm32_device_t) :
  efm32_device_lookup devices fam = Some d ->
  exists pre post,
    devices = pre ++ d :: post /\ family d = fam /\
    Forall (fun x => family x <> fam) pre.
Proof.
  induction devices as [|x rest IH]; simpl; [discriminate|].
  destruct (family x =? fam) eqn:E.
  - intros [= <-]. exists [], rest. apply Z.eqb_eq in E. auto.
  - intros H. destruct (IH H) as (pre & post & -> & Hf & Hpre).
    exists (x :: pre), post. apply Z.eqb_neq in E. auto.
Qed.

Lemma efm32_device_lookup_none (devices : list efm32_device_t) (fam : Z) :
  efm32_device_lookup devices fam = None <->
  (forall d, In d devices -> family d <> fam).
Proof.
  induction devices as [|x rest IH]; simpl.
  - split; [intros _ d []|reflexivity].
  - destruct (family x =? fam) eqn:E.
    + apply Z.eqb_eq in E. split; [discriminate|].
      intros H. exfalso. apply (H x); auto.
    + apply Z.eqb_neq in E. rewrite IH. split.
      * intros H d [<-|Hd]; auto.
      * intros H d Hd. apply H. auto.
Qed.

Lemma efm32_device_lookup_present (devices : list efm32_device_t)
      (d : efm32_device_t) :
  In d devices ->
  exists d', efm32_device_lookup devices (family d) = Some d' /\
             family d' = family d /\ In d' devices.
Proof.
  intros Hd. destruct (efm32_device_lookup devices (family d)) as [d'|] eqn:E.
  - destruct (efm32_device_lookup_first _ _ _ E) as (pre & post & -> & Hf & _).
    exists d'. repeat split; auto. apply in_or_app. right. left. reflexivity.
  - exfalso. rewrite efm32_device_lookup_none in E. exact (E d Hd eq_refl).
Qed.

(** A device that reports family 28 is named after the first of the two
    entries. *)
Example efm32_probe_family_28 :
  identification
    (efm32_probe 4 (gg_state (mk_sim (fun a => if a =? EFM32_DI_PART_FAMILY
                                               then 28 else 0) 0 2 None 0)))
  = (Some true,
     [ MemRead16 EFM32_DI_PART_NUMBER 0;
       MemRead8 EFM32_DI_PART_FAMILY 28;
       DebugMsg ("efm32_probe - part_number: 0 part_family: 28" ++ nl);
       MemRead16 EFM32_DI_RADIO_OPN 0;
       MemRead16 EFM32_DI_MEM_INFO_FLASH 0;
       MemRead16 EFM32_DI_MEM_INFO_RAM 0;
       TcPrintf ("flash size 0 page size 2048" ++ nl);
       AddRam SRAM_BASE 0;
       AddFlash (mk_flash 0 0 2048
                          Fn_efm32_flash_erase Fn_target_flash_write_buffered
                          Fn_target_flash_done_buffered Fn_efm32_flash_write
                          2048);
       AddCommands efm32_cmd_list "EFM32" ],
     Some "EFR32MG12P (radio: 0)"%string).
Proof. vm_compute. reflexivity. Qed.

(** Apart from family 28 no family occurs at two places of the catalog. *)
Lemma efm32_devices_unique_apart_from_28 :
  unique_apart_from 28 efm32_devices = true.
Proof. vm_compute. reflexivity. Qed.

(** C1, evaluated on the catalog.  Family 28 is listed twice, at index 9
    as "EFR32MG12P" and at index 10 as "EFR32MG2P": the families of the
    catalog are not duplicate-free, two different descriptors carry family
    28, the scan answers with the first of them and can never answer with
    the second. *)
Theorem efm32_devices_family_28_twice :
  nth_error efm32_devices 9 = Some (mk_device 28 "EFR32MG12P" 2048 0x400e0000 true) /\
  nth_error efm32_devices 10 = Some (mk_device 28 "EFR32MG2P" 2048 0x400e0000 true) /\
  ~ NoDup (map family efm32_devices) /\
  efm32_device_lookup efm32_devices 28
    = Some (mk_device 28 "EFR32MG12P" 2048 0x400e0000 true) /\
  (forall fam, efm32_device_lookup efm32_devices fam
               <> Some (mk_device 28 "EFR32MG2P" 2048 0x400e0000 true)).
Proof.
  split; [reflexivity|]. split; [reflexivity|]. split.
  - intros H.
    assert (Hsplit : map family efm32_devices
                     = map family (firstn 9 efm32_devices) ++ 28
                         :: map family (skipn 10 efm32_devices))
      by reflexivity.
    rewrite Hsplit in H. apply NoDup_remove_2 in H. apply H.
    apply in_or_app. right. vm_compute. left. reflexivity.
  - split; [reflexivity|].
    intros fam H.
    destruct (efm32_device_lookup_first _ _ _ H) as (pre & post & _ & Hf & _).
    simpl in Hf. subst fam.
    assert (Hlk : efm32_device_lookup efm32_devices 28
                  = Some (mk_device 28 "EFR32MG12P" 2048 0x400e0000 true))
      by reflexivity.
    rewrite Hlk in H. discriminate H.
Qed.

(* ------------------------------------------------------------------------ *)
(** ** Machine arithmetic *)
(* ------------------------------------------------------------------------ *)

Lemma wrap_range (w x : Z) : 0 <= w -> 0 <= wrap w x < 2 ^ w.
Proof. intros Hw. unfold wrap. apply Z.mod_pos_bound. apply Z.pow_pos_nonneg; lia. Qed.

Lemma wrap_small (w x : Z) : 0 <= x < 2 ^ w -> wrap w x = x.
Proof. intros H. unfold wrap. apply Z.mod_small. exact H. Qed.

Lemma wrap32_range (x : Z) : 0 <= wrap32 x < 2 ^ 32.
Proof. apply wrap_range. lia. Qed.

Lemma wrap16_range (x : Z) : 0 <= wrap16 x < 2 ^ 16.
Proof. apply wrap_range. lia. Qed.

Lemma wrap32_add_l (a b : Z) : wrap32 (wrap32 a + b) = wrap32 (a + b).
Proof. unfold wrap32, wrap. apply Z.add_mod_idemp_l. lia. Qed.

(** Two words side by side: the high one shifted by 32, or-ed with the
    low one, is their sum. *)
Lemma lor_shiftl_32 (hi lo : Z) :
  0 <= hi < 2 ^ 32 -> 0 <= lo < 2 ^ 32 ->
  Z.lor (wrap64 (Z.shiftl hi 32)) (wrap64 (Z.shiftl lo 0)) = hi * 2 ^ 32 + lo.
Proof.
  intros Hhi Hlo.
  rewrite Z.shiftl_0_r, Z.shiftl_mul_pow2 by lia.
  unfold wrap64. rewrite !wrap_small by lia.
  assert (Hland : Z.land (hi * 2 ^ 32) lo = 0).
  { apply Z.bits_inj'. intros n Hn. rewrite Z.land_spec, Z.bits_0.
    destruct (Z.ltb_spec n 32).
    - rewrite Z.mul_pow2_bits_low by lia. reflexivity.
    - rewrite <- (Z.mod_small lo (2 ^ 32)) by lia.
      rewrite Z.mod_pow2_bits_high by lia. apply andb_false_r. }
  rewrite <- Z.lxor_lor by exact Hland.
  symmetry. apply Z.add_nocarry_lxor. exact Hland.
Qed.

(** [ALIGN x 4] is the multiple of four in [x, x + 4). *)
Lemma ALIGN_4 (x : Z) : ALIGN x 4 mod 4 = 0 /\ x <= ALIGN x 4 < x + 4.
Proof.
  unfold ALIGN. split.
  - apply Z.mod_mul. lia.
  - pose proof (Z.div_mod (x + 4 - 1) 4 ltac:(lia)).
    pose proof (Z.mod_pos_bound (x + 4 - 1) 4 ltac:(lia)). lia.
Qed.

(* ------------------------------------------------------------------------ *)
(** ** Unique number *)
(* ------------------------------------------------------------------------ *)

(** C7.  [efm32_read_eui] reads the register [EUI64_1] and then the
    register [EUI64_0], both as 32-bit words, and returns the 64-bit number
    whose high half is the first and whose low half is the second; on a
    device whose registers hold 0x12345678 and 0x9ABCDEF0 the result is
    0x123456789ABCDEF0. *)
Theorem efm32_read_eui_concat :
  (forall (L : Type) (DL : DebugLink L) (s : state L),
      exists hi lo s',
        efm32_read_eui s
        = Ret (hi * 2 ^ 32 + lo)
              [MemRead32 EFM32_DI_EUI64_1 hi; MemRead32 EFM32_DI_EUI64_0 lo] s' /\
        hi = wrap32 (fst (link_read32 (lnk s) EFM32_DI_EUI64_1)) /\
        lo = wrap32 (fst (link_read32 (snd (link_read32 (lnk s) EFM32_DI_EUI64_1))
                                      EFM32_DI_EUI64_0)) /\
        (hi * 2 ^ 32 + lo) mod 2 ^ 32 = lo /\
        (hi * 2 ^ 32 + lo) / 2 ^ 32 = hi /\
        0 <= hi * 2 ^ 32 + lo < 2 ^ 64) /\
  (exists s',
      efm32_read_eui (gg_state gg_sim)
      = Ret 0x123456789ABCDEF0
            [MemRead32 EFM32_DI_EUI64_1 0x12345678;
             MemRead32 EFM32_DI_EUI64_0 0x9ABCDEF0] s').
Proof.
  split.
  - intros L DL s.
    unfold efm32_read_eui, bind, target_mem_read32, ret.
    destruct (link_read32 (lnk s) EFM32_DI_EUI64_1) as [h l1] eqn:E1.
    cbn [lnk set_lnk fst snd app].
    destruct (link_read32 l1 EFM32_DI_EUI64_0) as [l l2] eqn:E2.
    cbn [lnk set_lnk fst snd app].
    pose proof (wrap32_range h) as Hh. pose proof (wrap32_range l) as Hl.
    exists (wrap32 h), (wrap32 l), (set_lnk (set_lnk s l1) l2).
    rewrite lor_shiftl_32 by assumption.
    repeat split; try lia.
    + rewrite Z.add_comm, Z.mod_add by lia. apply Z.mod_small. exact Hl.
    + rewrite Z.add_comm, Z.div_add by lia. rewrite Z.div_small by exact Hl. lia.
  - eexists. vm_compute. reflexivity.
Qed.

(** The [serial] command on the simulated device. *)
Example efm32_cmd_serial_gg :
  efm32_cmd_serial (gg_state gg_sim)
  = Ret true
        [ MemRead32 EFM32_DI_EUI64_1 0x12345678;
          MemRead32 EFM32_DI_EUI64_0 0x9ABCDEF0;
          TcPrintf ("Unique Number: 0x123456789abcdef0" ++ nl) ]
        (gg_state gg_sim).
Proof. vm_compute. reflexivity. Qed.

(* ------------------------------------------------------------------------ *)
(** ** Write through the loader stub *)
(* ------------------------------------------------------------------------ *)

(** C6.  [efm32_flash_write] makes three calls and no other: it writes the
    stub to [SRAM_BASE], writes the payload to [STUB_BUFFER_BASE], runs the
    stub with (entry [SRAM_BASE], destination, [STUB_BUFFER_BASE], payload
    length as a 32-bit word, 0), and returns what the run returned.  The
    word is the payload length itself whenever that is below 2^32, as every
    length on a 32-bit [size_t] is.  [STUB_BUFFER_BASE] is a multiple of
    four and lies at most three bytes behind the end of the stub, provided
    the stub ends inside the 32-bit address space. *)
Theorem efm32_flash_write_runs_stub
        (L : Type) (DL : DebugLink L) (stub : list Z)
        (f : target_flash) (dest : Z) (src : list Z) (len : Z) (s : state L) :
  SRAM_BASE + sizeof_stub stub + 3 < 2 ^ 32 ->
  let base := STUB_BUFFER_BASE stub in
  let l1 := link_write (lnk s) SRAM_BASE (BufHalfwords stub) (sizeof_stub stub) in
  let l2 := link_write l1 base (BufBytes src) len in
  let r := fst (link_run_stub l2 SRAM_BASE dest base (len mod 2 ^ 32) 0) in
  let l3 := snd (link_run_stub l2 SRAM_BASE dest base (len mod 2 ^ 32) 0) in
  efm32_flash_write stub f dest src len s
  = Ret r [ MemWrite SRAM_BASE (BufHalfwords stub) (sizeof_stub stub);
            MemWrite base (BufBytes src) len;
            RunStub SRAM_BASE dest base (len mod 2 ^ 32) 0 r ]
        (mk_state l3 (tgt s) (variant_string s)) /\
  (0 <= len < 2 ^ 32 ->
   efm32_flash_write stub f dest src len s
   = Ret r [ MemWrite SRAM_BASE (BufHalfwords stub) (sizeof_stub stub);
             MemWrite base (BufBytes src) len;
             RunStub SRAM_BASE dest base len 0 r ]
         (mk_state l3 (tgt s) (variant_string s)) /\
   r = fst (link_run_stub l2 SRAM_BASE dest base len 0)) /\
  base mod 4 = 0 /\
  SRAM_BASE + sizeof_stub stub <= base < SRAM_BASE + sizeof_stub stub + 4.
Proof.
  intros Hfit base l1 l2 r l3.
  assert (Hrun : efm32_flash_write stub f dest src len s
                 = Ret r [ MemWrite SRAM_BASE (BufHalfwords stub) (sizeof_stub stub);
                           MemWrite base (BufBytes src) len;
                           RunStub SRAM_BASE dest base (len mod 2 ^ 32) 0 r ]
                       (mk_state l3 (tgt s) (variant_string s))).
  { unfold efm32_flash_write, bind, target_mem_write, cortexm_run_stub.
    cbn [lnk set_lnk app]. fold base l1 l2.
    change (wrap32 len) with (len mod 2 ^ 32).
    subst r l3.
    destruct (link_run_stub l2 SRAM_BASE dest base (len mod 2 ^ 32) 0).
    reflexivity. }
  split; [exact Hrun|]. split.
  - intros Hlen. rewrite Hrun. subst r.
    rewrite (Z.mod_small len (2 ^ 32)) by exact Hlen.
    split; reflexivity.
  - subst base. unfold STUB_BUFFER_BASE.
    destruct (ALIGN_4 (SRAM_BASE + sizeof_stub stub)) as [Hm Hr].
    assert (Hs : 0 <= sizeof_stub stub) by (unfold sizeof_stub; lia).
    unfold wrap32. rewrite wrap_small.
    + split; assumption.
    + unfold SRAM_BASE in *. lia.
Qed.

(** A three-halfword stub and a four-byte payload on the simulated device. *)
Lemma efm32_flash_write_runs_stub_witness :
  (SRAM_BASE + sizeof_stub [1; 2; 3] + 3 < 2 ^ 32) /\
  (0 <= 4 < 2 ^ 32) /\
  efm32_flash_write [1; 2; 3] gg_flash 0x800 [1; 2; 3; 4] 4 (gg_state gg_sim)
  = Ret 0 [ MemWrite 0x20000000 (BufHalfwords [1; 2; 3]) 6;
            MemWrite 0x20000008 (BufBytes [1; 2; 3; 4]) 4;
            RunStub 0x20000000 0x800 0x20000008 4 0 0 ]
        (gg_state gg_sim).
Proof.
  assert (Hfit : SRAM_BASE + sizeof_stub [1; 2; 3] + 3 < 2 ^ 32)
    by (vm_compute; reflexivity).
  assert (Hlen : 0 <= 4 < 2 ^ 32) by lia.
  split; [exact Hfit|]. split; [exact Hlen|].
  exact (proj1 (proj1 (proj2 (efm32_flash_write_runs_stub
                                sim sim_link [1; 2; 3] gg_flash 0x800
                                [1; 2; 3; 4] 4 (gg_state gg_sim) Hfit))
                      Hlen)).
Defined.

(** A length above 2^32, which a 64-bit [size_t] can hold: the stub
    receives its low 32 bits. *)
Example efm32_flash_write_long_length :
  efm32_flash_write [1; 2; 3] gg_flash 0x800 [1; 2; 3; 4] 0x100000004
                    (gg_state gg_sim)
  = Ret 0 [ MemWrite 0x20000000 (BufHalfwords [1; 2; 3]) 6;
            MemWrite 0x20000008 (BufBytes [1; 2; 3; 4]) 0x100000004;
            RunStub 0x20000000 0x800 0x20000008 4 0 0 ]
        (gg_state gg_sim).
Proof. vm_compute. reflexivity. Qed.

(* ------------------------------------------------------------------------ *)
(** ** Identification *)
(* ------------------------------------------------------------------------ *)

(** Identification always returns. *)
Lemma efm32_probe_device_returns (L : Type) (DL : DebugLink L) (inhibit : Z)
      (s : state L) :
  exists b evs s', efm32_probe_device inhibit s = Ret b evs s'.
Proof. probe_unfold. probe_reads; eauto. Qed.

Lemma efm32_probe_returns (L : Type) (DL : DebugLink L) (inhibit : Z)
      (s : state L) :
  exists b evs s', efm32_probe inhibit s = Ret b evs s'.
Proof.
  unfold efm32_probe.
  destruct (idcode (tgt s) =? 0x2BA01477);
    [apply efm32_probe_device_returns|].
  destruct (idcode (tgt s) =? 0x0BC11477);
    [apply efm32_probe_device_returns|].
  unfold ret. eauto.
Qed.

(** Identification only reads the device. *)
Lemma efm32_probe_device_no_write (L : Type) (DL : DebugLink L) (inhibit : Z)
      (s : state L) :
  Forall (fun e => is_target_write e = false /\
                   (forall a, event_addr e = Some a -> is_target_read e = true))
         (events (efm32_probe_device inhibit s)).
Proof.
  probe_unfold. probe_reads; cbn [events];
    repeat (apply Forall_cons;
            [split; [reflexivity
                    |intros a Ha; first [reflexivity|discriminate Ha]]|]);
    apply Forall_nil.
Qed.

(** The answer of identification depends on the device and on the
    identification code alone. *)
Lemma efm32_probe_device_same (L : Type) (DL : DebugLink L) (inhibit : Z)
      (s1 s2 : state L) :
  lnk s1 = lnk s2 ->
  identification (efm32_probe_device inhibit s1)
  = identification (efm32_probe_device inhibit s2) /\
  lnk (final (efm32_probe_device inhibit s1))
  = lnk (final (efm32_probe_device inhibit s2)).
Proof.
  intros Hl. probe_unfold. rewrite Hl. probe_reads; split; reflexivity.
Qed.

(** Where reads leave the device as it is, so does identification. *)
Lemma efm32_probe_device_keeps (L : Type) (DL : DebugLink L) (inhibit : Z)
      (s : state L) :
  (forall l a, snd (link_read8 l a) = l /\ snd (link_read16 l a) = l) ->
  lnk (final (efm32_probe_device inhibit s)) = lnk s /\
  idcode (tgt (final (efm32_probe_device inhibit s))) = idcode (tgt s).
Proof.
  intros Hpure.
  assert (H8 : forall l a v l', link_read8 l a = (v, l') -> l' = l).
  { intros l a v l' E. destruct (Hpure l a) as [H _]. rewrite E in H. exact H. }
  assert (H16 : forall l a v l', link_read16 l a = (v, l') -> l' = l).
  { intros l a v l' E. destruct (Hpure l a) as [_ H]. rewrite E in H. exact H. }
  probe_unfold. probe_reads; cbn [final lnk tgt idcode];
    repeat match goal with
           | E : link_read8 _ _ = _ |- _ => apply H8 in E; subst
           | E : link_read16 _ _ = _ |- _ => apply H16 in E; subst
           end; split; reflexivity.
Qed.

Lemma efm32_probe_device_unmatched (L : Type) (DL : DebugLink L) (inhibit : Z)
      (s : state L) (fam : Z) :
  In (MemRead8 EFM32_DI_PART_FAMILY fam) (events (efm32_probe_device inhibit s)) ->
  (forall d, In d efm32_devices -> family d <> fam) ->
  exists evs s',
    efm32_probe_device inhibit s = Ret false evs s' /\
    filter is_registration evs = [] /\
    tgt s' = tgt s /\ variant_string s' = variant_string s.
Proof.
  intros Hin Hnone. apply efm32_device_lookup_none in Hnone.
  revert Hin. probe_unfold. probe_reads; cbn [events In]; intros Hin.
  1, 2: exfalso;
    repeat (destruct Hin as [Hin|Hin]; try discriminate Hin; try contradiction);
    injection Hin as <-; congruence.
  do 2 eexists. split; [reflexivity|]. repeat split.
Qed.

(** C8.  [efm32_probe] answers [false], without reading the device, when
    the identification code is neither 0x2BA01477 nor 0x0BC11477; and it
    answers [false] when the family byte it read from the device
    information page is the family of no catalog entry.  In both cases it
    registers nothing and leaves the target structure and the display
    string as they were. *)
Theorem efm32_probe_not_applicable (L : Type) (DL : DebugLink L) (inhibit : Z)
        (s : state L) :
  (idcode (tgt s) <> 0x2BA01477 -> idcode (tgt s) <> 0x0BC11477 ->
   efm32_probe inhibit s = Ret false [] s) /\
  (forall fam,
      In (MemRead8 EFM32_DI_PART_FAMILY fam) (events (efm32_probe inhibit s)) ->
      (forall d, In d efm32_devices -> family d <> fam) ->
      exists evs s',
        efm32_probe inhibit s = Ret false evs s' /\
        filter is_registration evs = [] /\
        tgt s' = tgt s /\ variant_string s' = variant_string s).
Proof.
  split.
  - intros H1 H2. unfold efm32_probe.
    apply Z.eqb_neq in H1, H2. rewrite H1, H2. reflexivity.
  - intros fam. unfold efm32_probe.
    destruct (idcode (tgt s) =? 0x2BA01477);
      [apply efm32_probe_device_unmatched|].
    destruct (idcode (tgt s) =? 0x0BC11477);
      [apply efm32_probe_device_unmatched|].
    intros [].
Qed.

(** A device with another identification code, and a whitelisted device
    whose family byte is 99. *)
Lemma efm32_probe_not_applicable_witness :
  efm32_probe 4 (mk_state gg_sim (mk_target 0x4BA00477 0 Ptr_null) EmptyString)
  = Ret false [] (mk_state gg_sim (mk_target 0x4BA00477 0 Ptr_null) EmptyString) /\
  exists evs s',
    efm32_probe 4 (gg_state (mk_sim (fun _ => 99) 0 2 None 0)) = Ret false evs s' /\
    filter is_registration evs = [] /\
    tgt s' = gg_target /\ variant_string s' = EmptyString.
Proof.
  split.
  - apply (efm32_probe_not_applicable sim sim_link 4
             (mk_state gg_sim (mk_target 0x4BA00477 0 Ptr_null) EmptyString));
      vm_compute; discriminate.
  - apply (efm32_probe_not_applicable sim sim_link 4
             (gg_state (mk_sim (fun _ => 99) 0 2 None 0)) ) with (fam := 99).
    + vm_compute. right. left. reflexivity.
    + apply efm32_device_lookup_none. vm_compute. reflexivity.
Defined.

(** C9.  [efm32_probe] always returns, and none of the calls it makes
    writes to the device: every call that carries a device address is a
    read.  Its outcome
    (answer, calls made, display string) is the same for any two runs that
    start from the same device state and identification code, whatever the
    target structure held before; and where reads leave the device as it
    is, a second run right after the first repeats the outcome of the
    first. *)
Theorem efm32_probe_read_only (L : Type) (DL : DebugLink L) (inhibit : Z) :
  (forall s : state L,
      (exists b evs s', efm32_probe inhibit s = Ret b evs s') /\
      Forall (fun e => is_target_write e = false /\
                       (forall a, event_addr e = Some a -> is_target_read e = true))
             (events (efm32_probe inhibit s))) /\
  (forall s1 s2 : state L,
      lnk s1 = lnk s2 -> idcode (tgt s1) = idcode (tgt s2) ->
      identification (efm32_probe inhibit s1)
      = identification (efm32_probe inhibit s2)) /\
  ((forall (l : L) a, snd (link_read8 l a) = l /\ snd (link_read16 l a) = l) ->
   forall s : state L,
     identification (efm32_probe inhibit (final (efm32_probe inhibit s)))
     = identification (efm32_probe inhibit s)).
Proof.
  assert (Hsame : forall s1 s2 : state L,
             lnk s1 = lnk s2 -> idcode (tgt s1) = idcode (tgt s2) ->
             identification (efm32_probe inhibit s1)
             = identification (efm32_probe inhibit s2)).
  { intros s1 s2 Hl Hi. unfold efm32_probe. rewrite Hi.
    destruct (idcode (tgt s2) =? 0x2BA01477);
      [apply efm32_probe_device_same; exact Hl|].
    destruct (idcode (tgt s2) =? 0x0BC11477);
      [apply efm32_probe_device_same; exact Hl|].
    reflexivity. }
  split; [|split].
  - intros s. split; [apply efm32_probe_returns|].
    unfold efm32_probe.
    destruct (idcode (tgt s) =? 0x2BA01477);
      [apply efm32_probe_device_no_write|].
    destruct (idcode (tgt s) =? 0x0BC11477);
      [apply efm32_probe_device_no_write|].
    constructor.
  - exact Hsame.
  - intros Hpure s. apply Hsame; unfold efm32_probe.
    + destruct (idcode (tgt s) =? 0x2BA01477);
        [apply efm32_probe_device_keeps; exact Hpure|].
      destruct (idcode (tgt s) =? 0x0BC11477);
        [apply efm32_probe_device_keeps; exact Hpure|].
      reflexivity.
    + destruct (idcode (tgt s) =? 0x2BA01477);
        [apply efm32_probe_device_keeps; exact Hpure|].
      destruct (idcode (tgt s) =? 0x0BC11477);
        [apply efm32_probe_device_keeps; exact Hpure|].
      reflexivity.
Qed.

(** The simulated EFM32GG, probed twice in a row. *)
Lemma efm32_probe_read_only_witness :
  (forall (l : sim) a, snd (link_read8 l a) = l /\ snd (link_read16 l a) = l) /\
  identification (efm32_probe 4 (final (efm32_probe 4 (gg_state gg_sim))))
  = identification (efm32_probe 4 (gg_state gg_sim)).
Proof.
  assert (Hpure : forall (l : sim) a,
             snd (link_read8 l a) = l /\ snd (link_read16 l a) = l)
    by (intros l a; split; reflexivity).
  split; [exact Hpure|].
  exact (proj2 (proj2 (efm32_probe_read_only sim sim_link 4)) Hpure
               (gg_state gg_sim)).
Defined.

Lemma wrap32_kib (v : Z) : wrap32 (wrap16 v * 1024) = wrap16 v * 1024.
Proof. pose proof (wrap16_range v). apply wrap_small. lia. Qed.

Lemma efm32_probe_device_memory_map (L : Type) (DL : DebugLink L) (inhibit : Z)
      (s : state L) (evs : list event) (s' : state L) :
  efm32_probe_device inhibit s = Ret true evs s' ->
  exists dev fam fs rs,
    In (MemRead8 EFM32_DI_PART_FAMILY fam) evs /\
    efm32_device_lookup efm32_devices fam = Some dev /\
    In (MemRead16 EFM32_DI_MEM_INFO_FLASH fs) evs /\
    In (MemRead16 EFM32_DI_MEM_INFO_RAM rs) evs /\
    filter is_registration evs
    = [ AddRam SRAM_BASE (rs * 1024);
        AddFlash (mk_flash 0 (fs * 1024) (flash_page_size dev)
                           Fn_efm32_flash_erase Fn_target_flash_write_buffered
                           Fn_target_flash_done_buffered Fn_efm32_flash_write
                           (flash_page_size dev));
        AddCommands efm32_cmd_list "EFM32" ] /\
    (has_radio dev = false -> variant_string s' = name dev).
Proof.
  probe_unfold. probe_reads; intros H; try discriminate H;
    injection H as <- <-; rewrite !wrap32_kib;
    match goal with
    | E : efm32_device_lookup _ ?f = Some ?d,
      Efs : link_read16 _ EFM32_DI_MEM_INFO_FLASH = (?fs, _),
      Ers : link_read16 _ EFM32_DI_MEM_INFO_RAM = (?rs, _) |- _ =>
        exists d, f, (wrap16 fs), (wrap16 rs)
    end;
    cbn [In filter is_registration variant_string];
    repeat split; auto 10; congruence.
Qed.

(** C10.  When [efm32_probe] answers [true] it has registered exactly one
    RAM region, at [SRAM_BASE] and of 1024 times the RAM size register,
    then one flash region, at address zero, of 1024 times the flash size
    register, whose block size and buffer size are the page size of the
    catalog entry found for the family byte, then the command list.  For
    family 72 and a flash size register of 1024 the flash region is
    0x100000 bytes long with blocks of 2048 bytes, and the display string
    is the catalog name "EFM32GG". *)
Theorem efm32_probe_memory_map (L : Type) (DL : DebugLink L) (inhibit : Z)
        (s : state L) (evs : list event) (s' : state L) :
  efm32_probe inhibit s = Ret true evs s' ->
  exists dev fam fs rs,
    In (MemRead8 EFM32_DI_PART_FAMILY fam) evs /\
    efm32_device_lookup efm32_devices fam = Some dev /\
    In (MemRead16 EFM32_DI_MEM_INFO_FLASH fs) evs /\
    In (MemRead16 EFM32_DI_MEM_INFO_RAM rs) evs /\
    filter is_registration evs
    = [ AddRam SRAM_BASE (rs * 1024);
        AddFlash (mk_flash 0 (fs * 1024) (flash_page_size dev)
                           Fn_efm32_flash_erase Fn_target_flash_write_buffered
                           Fn_target_flash_done_buffered Fn_efm32_flash_write
                           (flash_page_size dev));
        AddCommands efm32_cmd_list "EFM32" ] /\
    (fam = 72 -> fs = 1024 ->
     fs * 1024 = 0x100000 /\ flash_page_size dev = 2048 /\
     variant_string s' = "EFM32GG"%string).
Proof.
  intros H.
  assert (Hdev : efm32_probe_device inhibit s = Ret true evs s').
  { unfold efm32_probe in H.
    destruct (idcode (tgt s) =? 0x2BA01477); [exact H|].
    destruct (idcode (tgt s) =? 0x0BC11477); [exact H|].
    discriminate H. }
  destruct (efm32_probe_device_memory_map _ _ _ _ _ _ Hdev)
    as (dev & fam & fs & rs & Hfam & Hlk & Hfs & Hrs & Hreg & Hname).
  exists dev, fam, fs, rs. repeat split; try assumption.
  all: subst fam; vm_compute in Hlk; injection Hlk as <-.
  - lia.
  - reflexivity.
  - apply Hname. reflexivity.
Qed.

(** The simulated EFM32GG: family 72, flash size register 1024, RAM size
    register 128. *)
Lemma efm32_probe_memory_map_witness :
  let o := efm32_probe 4 (gg_state gg_sim) in
  o = Ret true (events o) (final o) /\
  exists dev fam fs rs,
    In (MemRead8 EFM32_DI_PART_FAMILY fam) (events o) /\
    efm32_device_lookup efm32_devices fam = Some dev /\
    In (MemRead16 EFM32_DI_MEM_INFO_FLASH fs) (events o) /\
    In (MemRead16 EFM32_DI_MEM_INFO_RAM rs) (events o) /\
    filter is_registration (events o)
    = [ AddRam SRAM_BASE (rs * 1024);
        AddFlash (mk_flash 0 (fs * 1024) (flash_page_size dev)
                           Fn_efm32_flash_erase Fn_target_flash_write_buffered
                           Fn_target_flash_done_buffered Fn_efm32_flash_write
                           (flash_page_size dev));
        AddCommands efm32_cmd_list "EFM32" ] /\
    (fam = 72 -> fs = 1024 ->
     fs * 1024 = 0x100000 /\ flash_page_size dev = 2048 /\
     variant_string (final o) = "EFM32GG"%string).
Proof.
  intros o. split; [vm_compute; reflexivity|].
  apply (efm32_probe_memory_map sim sim_link 4 (gg_state gg_sim)).
  vm_compute. reflexivity.
Defined.

(** What the simulated EFM32GG gets registered. *)
Example efm32_probe_gg :
  identification (efm32_probe 4 (gg_state gg_sim))
  = (Some true,
     [ MemRead16 EFM32_DI_PART_NUMBER 990;
       MemRead8 EFM32_DI_PART_FAMILY 72;
       DebugMsg ("efm32_probe - part_number: 990 part_family: 72" ++ nl);
       MemRead16 EFM32_DI_MEM_INFO_FLASH 1024;
       MemRead16 EFM32_DI_MEM_INFO_RAM 128;
       TcPrintf ("flash size 1048576 page size 2048" ++ nl);
       AddRam 0x20000000 0x20000;
       AddFlash (mk_flash 0 0x100000 2048
                          Fn_efm32_flash_erase Fn_target_flash_write_buffered
                          Fn_target_flash_done_buffered Fn_efm32_flash_write
                          2048);
       AddCommands efm32_cmd_list "EFM32" ],
     Some "EFM32GG"%string).
Proof. vm_compute. reflexivity. Qed.

(* ------------------------------------------------------------------------ *)
(** ** The busy-poll *)
(* ------------------------------------------------------------------------ *)

Section BusyPoll.

Context {L : Type} {DL : DebugLink L}.

(** One round of [msc_poll_busy], spelled out on the answers of the link. *)
Lemma msc_poll_busy_step (fuel : nat) (s : state L) :
  msc_poll_busy (S fuel) s
  = let v := wrap32 (fst (link_read32 (lnk s) EFM32_MSC_STATUS)) in
    let s1 := set_lnk s (snd (link_read32 (lnk s) EFM32_MSC_STATUS)) in
    if msc_busy v then
      let s2 := set_lnk s1 (snd (link_check_error (lnk s1))) in
      if fst (link_check_error (lnk s1)) then
        Ret true [MemRead32 EFM32_MSC_STATUS v; CheckError true] s2
      else
        match msc_poll_busy fuel s2 with
        | Ret b evs s' =>
            Ret b (MemRead32 EFM32_MSC_STATUS v :: CheckError false :: evs) s'
        | OutOfFuel evs s' =>
            OutOfFuel (MemRead32 EFM32_MSC_STATUS v :: CheckError false :: evs) s'
        end
    else Ret false [MemRead32 EFM32_MSC_STATUS v] s1.
Proof.
  cbn [msc_poll_busy]. unfold bind, target_mem_read32, target_check_error, ret.
  destruct (link_read32 (lnk s) EFM32_MSC_STATUS) as [v l1].
  cbn [fst snd lnk set_lnk app].
  destruct (msc_busy (wrap32 v)); [|reflexivity].
  cbv beta. cbn [fst snd lnk set_lnk app].
  destruct (link_check_error l1) as [[|] l2]; cbn [fst snd lnk set_lnk app];
    [reflexivity|].
  destruct (msc_poll_busy fuel _); reflexivity.
Qed.

(** The events of a busy-poll: busy polls without fault, then either a
    poll that finds the controller idle, or a busy poll with a fault, or
    nothing more because the fuel is used up. *)
Lemma msc_poll_busy_spec (fuel : nat) (s : state L) :
  exists vs, Forall (fun v => msc_busy v = true) vs /\
    match msc_poll_busy fuel s with
    | Ret fault evs s' =>
        tgt s' = tgt s /\ variant_string s' = variant_string s /\
        exists v,
          msc_busy v = fault /\
          evs = busy_polls vs ++ MemRead32 EFM32_MSC_STATUS v
                  :: (if fault then [CheckError true] else [])
    | OutOfFuel evs s' => evs = busy_polls vs /\ List.length vs = fuel
    end.
Proof.
  revert s. induction fuel as [|fuel IH]; intros s.
  - exists []. split; [constructor|]. cbn. split; reflexivity.
  - rewrite msc_poll_busy_step. cbv zeta.
    set (v := wrap32 (fst (link_read32 (lnk s) EFM32_MSC_STATUS))).
    set (s1 := set_lnk s (snd (link_read32 (lnk s) EFM32_MSC_STATUS))).
    destruct (msc_busy v) eqn:Hbusy.
    + destruct (fst (link_check_error (lnk s1))) eqn:Herr.
      * exists []. split; [constructor|]. repeat split. exists v. auto.
      * destruct (IH (set_lnk s1 (snd (link_check_error (lnk s1)))))
          as (vs & Hvs & Hrun).
        exists (v :: vs). split; [constructor; assumption|].
        destruct (msc_poll_busy fuel _) as [b evs s'|evs s'].
        -- destruct Hrun as (Ht & Hv & w & Hw & ->).
           repeat split; try assumption. exists w. auto.
        -- destruct Hrun as [-> <-]. split; reflexivity.
    + exists []. split; [constructor|]. repeat split. exists v. auto.
Qed.

(** More fuel does not change a poll that came to an end. *)
Lemma msc_poll_busy_mono (fuel fuel' : nat) (s : state L) b evs s' :
  (fuel <= fuel')%nat ->
  msc_poll_busy fuel s = Ret b evs s' ->
  msc_poll_busy fuel' s = Ret b evs s'.
Proof.
  revert fuel' s b evs s'.
  induction fuel as [|fuel IH]; intros fuel' s b evs s' Hle H;
    [discriminate H|].
  destruct fuel' as [|fuel']; [lia|].
  rewrite msc_poll_busy_step in *. cbv zeta in *.
  destruct (msc_busy _); [|exact H].
  destruct (fst (link_check_error _)); [exact H|].
  destruct (msc_poll_busy fuel _) as [b1 e1 s1|] eqn:E; [|discriminate H].
  rewrite (IH fuel' _ _ _ _ ltac:(lia) E). exact H.
Qed.

Lemma busy_polls_poll_events (vs : list Z) :
  Forall (fun e => is_poll_event e = true) (busy_polls vs).
Proof.
  induction vs as [|v vs IH]; cbn; [constructor|].
  constructor; [apply Z.eqb_refl|]. constructor; [reflexivity|exact IH].
Qed.

(** The same, told by kind of event only. *)
Lemma msc_poll_busy_events (fuel : nat) (s : state L) :
  match msc_poll_busy fuel s with
  | Ret false evs _ => Forall (fun e => is_poll_event e = true) evs
  | Ret true evs _ =>
      exists p, Forall (fun e => is_poll_event e = true) p /\
                evs = p ++ [CheckError true]
  | OutOfFuel evs _ => Forall (fun e => is_poll_event e = true) evs
  end.
Proof.
  destruct (msc_poll_busy_spec fuel s) as (vs & _ & H).
  destruct (msc_poll_busy fuel s) as [[|] evs s'|evs s'].
  - destruct H as (_ & _ & v & _ & ->).
    exists (busy_polls vs ++ [MemRead32 EFM32_MSC_STATUS v]). split.
    + apply Forall_app. split; [apply busy_polls_poll_events|].
      constructor; [apply Z.eqb_refl|constructor].
    + rewrite <- app_assoc. reflexivity.
  - destruct H as (_ & _ & v & _ & ->).
    apply Forall_app. split; [apply busy_polls_poll_events|].
    constructor; [apply Z.eqb_refl|constructor].
  - destruct H as [-> _]. apply busy_polls_poll_events.
Qed.

End BusyPoll.

(* ------------------------------------------------------------------------ *)
(** ** The erase loop *)
(* ------------------------------------------------------------------------ *)

Section EraseLoop.

Context {L : Type} {DL : DebugLink L}.
Variable size_bits : Z.
Variable f : target_flash.

(** One round of the loop, spelled out. *)
Lemma efm32_flash_erase_loop_step (fuel : nat) (addr len : Z) (s : state L) :
  len <> 0 ->
  efm32_flash_erase_loop size_bits (S fuel) f addr len s
  = match msc_poll_busy fuel (erase_page_start s addr) with
    | Ret true evs s' => Ret (-1, (addr, len)) (page_cmds addr ++ evs) s'
    | Ret false evs s' =>
        match efm32_flash_erase_loop size_bits fuel f
                (wrap32 (addr + (f_blocksize f))) (wrap size_bits (len - (f_blocksize f))) s' with
        | Ret r e2 s2 => Ret r (page_cmds addr ++ evs ++ e2) s2
        | OutOfFuel e2 s2 => OutOfFuel (page_cmds addr ++ evs ++ e2) s2
        end
    | OutOfFuel evs s' => OutOfFuel (page_cmds addr ++ evs) s'
    end.
Proof.
  intros Hlen. apply Z.eqb_neq in Hlen.
  cbn [efm32_flash_erase_loop]. rewrite Hlen.
  unfold bind, target_mem_write32, ret, erase_page_start.
  cbn [lnk set_lnk app].
  destruct (msc_poll_busy fuel _) as [[|] evs s'|evs s'];
    rewrite ?app_nil_r; try reflexivity.
  unfold size_wrap.
  destruct (efm32_flash_erase_loop size_bits fuel f _ _ s'); reflexivity.
Qed.

Lemma efm32_flash_erase_loop_done (fuel : nat) (addr : Z) (s : state L) :
  efm32_flash_erase_loop size_bits fuel f addr 0 s = Ret (0, (addr, 0)) [] s.
Proof. destruct fuel; reflexivity. Qed.

(** Every run of the loop, out of fuel or not, consists of rounds whose
    poll came to an end without fault ([polls] holds the events of those
    polls), followed by nothing if the loop left through [while (len)],
    or by a round cut short: by a fault or by the end of the fuel. *)
Lemma efm32_flash_erase_loop_spec (fuel : nat) (addr len : Z) (s : state L) :
  exists polls,
    Forall (Forall (fun e => is_poll_event e = true)) polls /\
    (forall i, (i < List.length polls)%nat ->
               len_after size_bits (f_blocksize f) i len <> 0) /\
    let a := addr_after (f_blocksize f) (List.length polls) addr in
    let l := len_after size_bits (f_blocksize f) (List.length polls) len in
    match efm32_flash_erase_loop size_bits fuel f addr len s with
    | Ret (r, (a', l')) evs _ =>
        a' = a /\ l' = l /\
        ((r = 0 /\ l = 0 /\ evs = pages (f_blocksize f) addr polls) \/
         (r = -1 /\ l <> 0 /\
          exists p, Forall (fun e => is_poll_event e = true) p /\
                    evs = pages (f_blocksize f) addr polls ++ page_cmds a ++ p
                            ++ [CheckError true]))
    | OutOfFuel evs _ =>
        l <> 0 /\
        (evs = pages (f_blocksize f) addr polls \/
         exists p, Forall (fun e => is_poll_event e = true) p /\
                   evs = pages (f_blocksize f) addr polls ++ page_cmds a ++ p)
    end.
Proof.
  revert addr len s. induction fuel as [|fuel IH]; intros addr len s.
  - exists []. split; [constructor|]. split; [intros i Hi; inversion Hi|].
    cbn [List.length addr_after len_after pages efm32_flash_erase_loop].
    destruct (len =? 0) eqn:E.
    + apply Z.eqb_eq in E. subst len. cbn. auto 10.
    + apply Z.eqb_neq in E. cbn. auto.
  - destruct (Z.eq_dec len 0) as [->|Hlen].
    + exists []. split; [constructor|]. split; [intros i Hi; inversion Hi|].
      rewrite efm32_flash_erase_loop_done. cbn. auto 10.
    + rewrite efm32_flash_erase_loop_step by exact Hlen.
      pose proof (msc_poll_busy_events fuel (erase_page_start s addr)) as Hp.
      destruct (msc_poll_busy fuel _) as [[|] evs s'|evs s'].
      * destruct Hp as (p & Hp & ->).
        exists []. split; [constructor|]. split; [intros i Hi; inversion Hi|].
        cbn [List.length addr_after len_after pages app].
        repeat split. right. repeat split; try assumption.
        exists p. split; [exact Hp|reflexivity].
      * destruct (IH (wrap32 (addr + (f_blocksize f))) (wrap size_bits (len - (f_blocksize f))) s')
          as (polls & Hpolls & Hnz & Hrun).
        exists (evs :: polls). split; [constructor; assumption|].
        split.
        { intros [|i] Hi; [exact Hlen|]. cbn [len_after].
          apply Hnz. cbn [List.length] in Hi. lia. }
        cbn [List.length addr_after len_after pages]. cbv zeta in Hrun.
        destruct (efm32_flash_erase_loop size_bits fuel f _ _ s')
          as [[r [a' l']] e2 s2|e2 s2].
        -- destruct Hrun as (Ha & Hl & [(Hr & Hz & ->)|(Hr & Hz & p & Hp' & ->)]).
           ++ repeat split; try assumption. left. repeat split; assumption.
           ++ repeat split; try assumption. right.
              repeat split; try assumption.
              exists p. split; [exact Hp'|].
              rewrite <- !app_assoc. reflexivity.
        -- destruct Hrun as (Hz & [->|(p & Hp' & ->)]).
           ++ split; [exact Hz|]. left. reflexivity.
           ++ split; [exact Hz|]. right. exists p. split; [exact Hp'|].
              rewrite <- !app_assoc. reflexivity.
      * exists []. split; [constructor|]. split; [intros i Hi; inversion Hi|].
        cbn [List.length addr_after len_after pages app].
        split; [exact Hlen|]. right. exists evs. split; [exact Hp|reflexivity].
Qed.

End EraseLoop.

(* ------------------------------------------------------------------------ *)
(** ** Reading event lists *)
(* ------------------------------------------------------------------------ *)

Lemma latched_app (xs ys : list event) :
  latched (xs ++ ys) = latched xs ++ latched ys.
Proof.
  induction xs as [|e xs IH]; [reflexivity|].
  destruct e; cbn [app latched]; try exact IH.
  destruct (addr =? EFM32_MSC_ADDRB); cbn [app]; rewrite IH; reflexivity.
Qed.

Lemma page_erases_app (xs ys : list event) :
  page_erases (xs ++ ys) = page_erases xs ++ page_erases ys.
Proof. apply filter_app. Qed.

Lemma mem_writes_app (xs ys : list event) :
  mem_writes (xs ++ ys) = mem_writes xs ++ mem_writes ys.
Proof. apply filter_app. Qed.

(** The events of a poll that goes on contain no write and no fault. *)
Lemma poll_events_quiet (p : list event) :
  Forall (fun e => is_poll_event e = true) p ->
  mem_writes p = [] /\ latched p = [] /\ page_erases p = [] /\
  Forall (fun e => is_fault e = false) p /\
  Forall (fun e => forall a, event_addr e = Some a -> a = EFM32_MSC_STATUS) p.
Proof.
  induction 1 as [|e p He _ (IH1 & IH2 & IH3 & IH4 & IH5)].
  - repeat split; constructor.
  - destruct e as [| |a v| | |[|]| | | | | |]; try discriminate He;
      cbn [mem_writes page_erases filter latched];
      repeat split; try assumption; constructor; try assumption;
      try reflexivity; cbn [event_addr]; intros b Hb; try discriminate Hb.
    injection Hb as <-. apply Z.eqb_eq. exact He.
Qed.

Lemma page_cmds_quiet (addr : Z) :
  mem_writes (page_cmds addr) = page_cmds addr /\
  latched (page_cmds addr) = [addr] /\
  List.length (page_erases (page_cmds addr)) = 1%nat /\
  Forall (fun e => is_fault e = false) (page_cmds addr).
Proof. repeat split; repeat constructor. Qed.

Lemma addr_seq_S (bs addr : Z) (n : nat) :
  map (fun i => addr_after bs i addr) (seq 0 (S n))
  = addr :: map (fun i => addr_after bs i (wrap32 (addr + bs))) (seq 0 n).
Proof.
  cbn [seq map addr_after]. f_equal.
  rewrite <- seq_shift, map_map. reflexivity.
Qed.

(** What the completed rounds of the loop contain. *)
Lemma pages_content (bs : Z) (polls : list (list event)) (addr : Z) :
  Forall (Forall (fun e => is_poll_event e = true)) polls ->
  let addrs := map (fun i => addr_after bs i addr) (seq 0 (List.length polls)) in
  mem_writes (pages bs addr polls) = flat_map page_cmds addrs /\
  latched (pages bs addr polls) = addrs /\
  List.length (page_erases (pages bs addr polls)) = List.length polls /\
  Forall (fun e => is_fault e = false) (pages bs addr polls).
Proof.
  intros Hpolls. revert addr.
  induction Hpolls as [|p polls Hp _ IH]; intros addr addrs.
  - repeat split; constructor.
  - subst addrs. cbn [List.length]. rewrite addr_seq_S.
    destruct (IH (wrap32 (addr + bs))) as (IH1 & IH2 & IH3 & IH4).
    destruct (poll_events_quiet p Hp) as (Hp1 & Hp2 & Hp3 & Hp4 & _).
    cbn [pages flat_map].
    rewrite !mem_writes_app, !latched_app, !page_erases_app, !length_app.
    rewrite Hp1, Hp2, Hp3, IH1, IH2, IH3.
    repeat split; try reflexivity.
    repeat (apply Forall_app; split); try assumption.
    apply page_cmds_quiet.
Qed.

Lemma addr_after_exact (bs : Z) (n : nat) (addr : Z) :
  0 <= bs -> 0 <= addr -> addr + Z.of_nat n * bs < 2 ^ 32 ->
  addr_after bs n addr = addr + Z.of_nat n * bs.
Proof.
  intros Hbs. revert addr. induction n as [|n IH]; intros addr Ha Hfit.
  - cbn [addr_after]. lia.
  - cbn [addr_after]. unfold wrap32. rewrite wrap_small by nia.
    rewrite IH by nia. nia.
Qed.

Lemma addr_after_wrap (bs : Z) (n : nat) (addr : Z) :
  0 <= addr < 2 ^ 32 ->
  addr_after bs n addr = wrap32 (addr + Z.of_nat n * bs).
Proof.
  revert addr. induction n as [|n IH]; intros addr Ha.
  - cbn [addr_after]. unfold wrap32. rewrite wrap_small; lia.
  - cbn [addr_after]. rewrite IH by apply wrap32_range.
    rewrite wrap32_add_l. f_equal. lia.
Qed.

Lemma len_after_exact (size_bits bs : Z) (i k : nat) :
  0 < bs -> (i <= k)%nat -> Z.of_nat k * bs < 2 ^ size_bits ->
  len_after size_bits bs i (Z.of_nat k * bs) = Z.of_nat (k - i) * bs.
Proof.
  intros Hbs. revert k. induction i as [|i IH]; intros k Hik Hfit.
  - cbn [len_after]. rewrite Nat.sub_0_r. reflexivity.
  - destruct k as [|k]; [lia|]. cbn [len_after].
    replace (Z.of_nat (S k) * bs - bs) with (Z.of_nat k * bs) by lia.
    rewrite wrap_small by nia.
    rewrite IH by (try lia; nia). reflexivity.
Qed.

(** With a length of [k] blocks the loop can only leave through
    [while (len)] after exactly [k] rounds. *)
Lemma erase_rounds_exact (size_bits bs : Z) (k n : nat) :
  0 < bs -> Z.of_nat k * bs < 2 ^ size_bits ->
  (forall i, (i < n)%nat -> len_after size_bits bs i (Z.of_nat k * bs) <> 0) ->
  len_after size_bits bs n (Z.of_nat k * bs) = 0 ->
  n = k.
Proof.
  intros Hbs Hfit Hnz Hz.
  destruct (Nat.lt_trichotomy n k) as [Hlt|[Heq|Hgt]]; [|exact Heq|].
  - rewrite len_after_exact in Hz by (try lia; assumption). nia.
  - exfalso. apply (Hnz k Hgt).
    rewrite len_after_exact by (try lia; assumption).
    rewrite Nat.sub_diag. reflexivity.
Qed.

Lemma page_addrs_sorted (bs addr : Z) (k j : nat) :
  0 < bs ->
  StronglySorted Z.lt (map (fun i => addr + Z.of_nat i * bs) (seq j k)).
Proof.
  intros Hbs. revert j. induction k as [|k IH]; intros j; cbn [seq map].
  - constructor.
  - constructor; [apply IH|].
    apply Forall_forall. intros x Hx. apply in_map_iff in Hx.
    destruct Hx as (i & <- & Hi). apply in_seq in Hi. nia.
Qed.

(* ------------------------------------------------------------------------ *)
(** ** Mass erase *)
(* ------------------------------------------------------------------------ *)

(** [efm32_cmd_erase_all] is three writes, the poll, and what follows the
    poll. *)
Lemma efm32_cmd_erase_all_step (L : Type) (DL : DebugLink L) (fuel : nat)
      (s : state L) :
  efm32_cmd_erase_all fuel s
  = match msc_poll_busy fuel (erase_all_start s) with
    | Ret true evs s' => Ret false (erase_all_cmds ++ evs) s'
    | Ret false evs s' =>
        Ret true
            (erase_all_cmds ++ evs
               ++ [ MemWrite32 EFM32_MSC_MASSLOCK 0;
                    TcPrintf ("Erase successful!" ++ nl) ])
            (set_lnk s' (link_write32 (lnk s') EFM32_MSC_MASSLOCK 0))
    | OutOfFuel evs s' => OutOfFuel (erase_all_cmds ++ evs) s'
    end.
Proof.
  unfold efm32_cmd_erase_all, bind, target_mem_write32, tc_printf, ret,
    erase_all_start.
  cbn [lnk set_lnk app].
  destruct (msc_poll_busy fuel _) as [[|] evs s'|evs s'];
    rewrite ?app_nil_r; reflexivity.
Qed.

(* ------------------------------------------------------------------------ *)
(** ** Erasing on a sound device *)
(* ------------------------------------------------------------------------ *)

Section SoundDevice.

Context {L : Type} {DL : DebugLink L}.
Variable Inv : L -> Prop.
Variable left : L -> nat.
Hypothesis Hsound : sound_device Inv left.

(** The poll ends, idle and without fault, within [left] rounds. *)
Lemma msc_poll_busy_clears (fuel : nat) (s : state L) :
  Inv (lnk s) -> (left (lnk s) < fuel)%nat ->
  exists evs s', msc_poll_busy fuel s = Ret false evs s' /\ Inv (lnk s').
Proof.
  revert s. induction fuel as [|fuel IH]; intros s HI Hlt; [lia|].
  rewrite msc_poll_busy_step. cbv zeta.
  destruct Hsound as [_ Hread]. specialize (Hread (lnk s) HI).
  cbv zeta in Hread. destruct Hread as [HI1 Hbusy].
  destruct (msc_busy _) eqn:E.
  - destruct (Hbusy eq_refl) as (Hno & HI2 & Hless).
    cbn [lnk set_lnk]. rewrite Hno.
    destruct (IH (set_lnk (set_lnk s (snd (link_read32 (lnk s) EFM32_MSC_STATUS)))
                          (snd (link_check_error
                                  (snd (link_read32 (lnk s) EFM32_MSC_STATUS))))))
      as (evs & s' & Hrun & HI').
    + exact HI2.
    + cbn [lnk set_lnk]. lia.
    + cbn [lnk set_lnk] in Hrun. rewrite Hrun. eauto.
  - eauto.
Qed.

Lemma erase_page_start_inv (s : state L) (addr : Z) :
  Inv (lnk s) -> Inv (lnk (erase_page_start s addr)).
Proof.
  intros HI. destruct Hsound as [Hwrite _].
  unfold erase_page_start. cbn [lnk set_lnk]. auto.
Qed.

(** With enough fuel the loop over [k] blocks returns, and no fault is
    among its events. *)
Lemma efm32_flash_erase_loop_returns (size_bits : Z) (f : target_flash)
      (k : nat) (addr : Z) (s : state L) :
  0 < f_blocksize f -> Z.of_nat k * f_blocksize f < 2 ^ size_bits ->
  Inv (lnk s) ->
  exists fuel0, forall fuel, (fuel0 <= fuel)%nat ->
    exists r evs s',
      efm32_flash_erase_loop size_bits fuel f addr
                             (Z.of_nat k * f_blocksize f) s = Ret r evs s' /\
      Forall (fun e => is_fault e = false) evs.
Proof.
  intros Hbs. revert addr s. induction k as [|k IH]; intros addr s Hfit HI.
  - exists 0%nat. intros fuel _. cbn [Z.of_nat Z.mul].
    rewrite efm32_flash_erase_loop_done. eauto.
  - destruct (msc_poll_busy_clears (S (left (lnk (erase_page_start s addr))))
                (erase_page_start s addr))
      as (evs & s4 & Hpoll & HI4);
      [apply erase_page_start_inv; exact HI|lia|].
    destruct (IH (wrap32 (addr + f_blocksize f)) s4) as [fuel0 Hrest];
      [nia|exact HI4|].
    exists (S (Nat.max (S (left (lnk (erase_page_start s addr)))) fuel0)).
    intros [|fuel] Hfuel; [lia|].
    rewrite efm32_flash_erase_loop_step by nia.
    assert (Hle1 : (S (left (lnk (erase_page_start s addr))) <= fuel)%nat) by lia.
    assert (Hle2 : (fuel0 <= fuel)%nat) by lia.
    rewrite (msc_poll_busy_mono _ fuel _ _ _ _ Hle1 Hpoll).
    replace (Z.of_nat (S k) * f_blocksize f - f_blocksize f)
      with (Z.of_nat k * f_blocksize f) by lia.
    rewrite wrap_small by nia.
    destruct (Hrest fuel Hle2) as (r & e2 & s2 & -> & Hq).
    exists r, (page_cmds addr ++ evs ++ e2), s2. split; [reflexivity|].
    pose proof (msc_poll_busy_events
                  (S (left (lnk (erase_page_start s addr))))
                  (erase_page_start s addr)) as Hev.
    rewrite Hpoll in Hev.
    repeat (apply Forall_app; split); try assumption.
    + apply page_cmds_quiet.
    + apply poll_events_quiet. exact Hev.
Qed.

(** With enough fuel the mass erase returns [true]. *)
Lemma efm32_cmd_erase_all_returns (s : state L) :
  Inv (lnk s) ->
  exists fuel0, forall fuel, (fuel0 <= fuel)%nat ->
    exists evs s', efm32_cmd_erase_all fuel s = Ret true evs s'.
Proof.
  intros HI. destruct Hsound as [Hwrite _].
  destruct (msc_poll_busy_clears (S (left (lnk (erase_all_start s))))
              (erase_all_start s))
    as (evs & s4 & Hpoll & _);
    [unfold erase_all_start; cbn [lnk set_lnk]; auto|lia|].
  exists (S (left (lnk (erase_all_start s)))). intros fuel Hfuel.
  rewrite efm32_cmd_erase_all_step.
  rewrite (msc_poll_busy_mono _ fuel _ _ _ _ Hfuel Hpoll).
  eauto.
Qed.

End SoundDevice.

(* ------------------------------------------------------------------------ *)
(** ** Page erase *)
(* ------------------------------------------------------------------------ *)

Lemma efm32_flash_erase_job_step (L : Type) (DL : DebugLink L) (size_bits : Z)
      (fuel : nat) (f : target_flash) (addr len : Z) (s : state L) :
  efm32_flash_erase_job size_bits fuel f addr len s
  = match efm32_flash_erase_loop size_bits fuel f addr len
            (set_lnk s (link_write32 (lnk s) EFM32_MSC_WRITECTRL 1)) with
    | Ret r evs s' => Ret r (MemWrite32 EFM32_MSC_WRITECTRL 1 :: evs) s'
    | OutOfFuel evs s' => OutOfFuel (MemWrite32 EFM32_MSC_WRITECTRL 1 :: evs) s'
    end.
Proof. reflexivity. Qed.

(** [efm32_flash_erase] returns the first component of what the job
    reports and issues the same events. *)
Lemma efm32_flash_erase_of_job (L : Type) (DL : DebugLink L) (size_bits : Z)
      (fuel : nat) (f : target_flash) (addr len : Z) (s : state L) :
  efm32_flash_erase size_bits fuel f addr len s
  = match efm32_flash_erase_job size_bits fuel f addr len s with
    | Ret r evs s' => Ret (fst r) evs s'
    | OutOfFuel evs s' => OutOfFuel evs s'
    end.
Proof.
  unfold efm32_flash_erase, bind, ret.
  destruct (efm32_flash_erase_job size_bits fuel f addr len s);
    rewrite ?app_nil_r; reflexivity.
Qed.

Lemma no_fault_not_in (evs : list event) :
  Forall (fun e => is_fault e = false) evs -> ~ In (CheckError true) evs.
Proof.
  intros H Hin. rewrite Forall_forall in H. specialize (H _ Hin). discriminate H.
Qed.

(** C2.  Take a block size [bs > 0], a start address and a number [k] of
    blocks such that the [k] blocks lie inside the 32-bit address space.
    Every run of the erase over [k * bs] bytes that returns without a fault
    among its events returns 0, with the remaining length at zero and the
    address advanced by [k * bs]; its register writes are the write-enable
    followed by exactly [k] groups of (address latch: [ADDRB] then
    [LADDRIM]; page erase), the latched addresses being
    [addr, addr + bs, ..., addr + (k-1) * bs] in this order, strictly
    increasing.  On a sound device the run returns so, given enough fuel. *)
Theorem efm32_flash_erase_pages (L : Type) (DL : DebugLink L) (size_bits : Z)
        (f : target_flash) (addr : Z) (k : nat) :
  0 < f_blocksize f ->
  0 <= addr < 2 ^ 32 ->
  addr + Z.of_nat k * f_blocksize f <= 2 ^ 32 ->
  Z.of_nat k * f_blocksize f < 2 ^ size_bits ->
  (forall fuel (s : state L) r evs s',
      efm32_flash_erase_job size_bits fuel f addr (Z.of_nat k * f_blocksize f) s
      = Ret r evs s' ->
      Forall (fun e => is_fault e = false) evs ->
      r = (0, (wrap32 (addr + Z.of_nat k * f_blocksize f), 0)) /\
      efm32_flash_erase size_bits fuel f addr (Z.of_nat k * f_blocksize f) s
      = Ret 0 evs s' /\
      mem_writes evs
      = MemWrite32 EFM32_MSC_WRITECTRL 1
          :: flat_map page_cmds
               (map (fun i => addr + Z.of_nat i * f_blocksize f) (seq 0 k)) /\
      latched evs = map (fun i => addr + Z.of_nat i * f_blocksize f) (seq 0 k) /\
      StronglySorted Z.lt (latched evs) /\
      List.length (page_erases evs) = k) /\
  (forall (Inv : L -> Prop) (left : L -> nat) (s : state L),
      sound_device Inv left -> Inv (lnk s) ->
      exists fuel0, forall fuel, (fuel0 <= fuel)%nat ->
        exists evs s',
          efm32_flash_erase size_bits fuel f addr (Z.of_nat k * f_blocksize f) s
          = Ret 0 evs s' /\
          Forall (fun e => is_fault e = false) evs).
Proof.
  intros Hbs Haddr Hend Hfit.
  assert (Hsafe : forall fuel (s : state L) r evs s',
      efm32_flash_erase_job size_bits fuel f addr (Z.of_nat k * f_blocksize f) s
      = Ret r evs s' ->
      Forall (fun e => is_fault e = false) evs ->
      r = (0, (wrap32 (addr + Z.of_nat k * f_blocksize f), 0)) /\
      efm32_flash_erase size_bits fuel f addr (Z.of_nat k * f_blocksize f) s
      = Ret 0 evs s' /\
      mem_writes evs
      = MemWrite32 EFM32_MSC_WRITECTRL 1
          :: flat_map page_cmds
               (map (fun i => addr + Z.of_nat i * f_blocksize f) (seq 0 k)) /\
      latched evs = map (fun i => addr + Z.of_nat i * f_blocksize f) (seq 0 k) /\
      StronglySorted Z.lt (latched evs) /\
      List.length (page_erases evs) = k).
  { intros fuel s r evs s' Hrun Hquiet.
    rewrite efm32_flash_erase_of_job, Hrun.
    rewrite efm32_flash_erase_job_step in Hrun.
    destruct (efm32_flash_erase_loop_spec size_bits f fuel addr
                (Z.of_nat k * f_blocksize f)
                (set_lnk s (link_write32 (lnk s) EFM32_MSC_WRITECTRL 1)))
      as (polls & Hpolls & Hnz & Hspec).
    cbv zeta in Hspec.
    destruct (efm32_flash_erase_loop size_bits fuel f addr _ _)
      as [[r0 [a' l']] e1 s1|]; [|discriminate Hrun].
    injection Hrun as <- <- <-.
    destruct Hspec as (-> & -> & [(-> & Hz & ->)|(_ & _ & p & _ & ->)]).
    2: { exfalso. apply (no_fault_not_in _ Hquiet).
         right. apply in_or_app. right. apply in_or_app. right.
         apply in_or_app. right. left. reflexivity. }
    assert (Hn : List.length polls = k)
      by (apply (erase_rounds_exact size_bits (f_blocksize f)); assumption).
    destruct (pages_content (f_blocksize f) polls addr Hpolls)
      as (Hw & Hl & He & _).
    rewrite Hn in *.
    assert (Haddrs : map (fun i => addr_after (f_blocksize f) i addr) (seq 0 k)
                     = map (fun i => addr + Z.of_nat i * f_blocksize f) (seq 0 k)).
    { apply map_ext_in. intros i Hi. apply in_seq in Hi.
      apply addr_after_exact; nia. }
    rewrite Haddrs in *.
    rewrite Hz, addr_after_wrap by exact Haddr.
    assert (Hlat : latched (MemWrite32 EFM32_MSC_WRITECTRL 1
                              :: pages (f_blocksize f) addr polls)
                   = map (fun i => addr + Z.of_nat i * f_blocksize f) (seq 0 k))
      by exact Hl.
    repeat split.
    - cbn [mem_writes filter]. f_equal. exact Hw.
    - exact Hlat.
    - rewrite Hlat. apply page_addrs_sorted. exact Hbs.
    - exact He. }
  split; [exact Hsafe|].
  intros Inv left s Hsound HI.
  destruct (efm32_flash_erase_loop_returns Inv left Hsound size_bits f k addr
              (set_lnk s (link_write32 (lnk s) EFM32_MSC_WRITECTRL 1)) Hbs Hfit)
    as [fuel0 Hret].
  { destruct Hsound as [Hwrite _]. cbn [lnk set_lnk]. auto. }
  exists fuel0. intros fuel Hfuel.
  destruct (Hret fuel Hfuel) as (r & evs & s' & Hloop & Hquiet).
  assert (Hjob : efm32_flash_erase_job size_bits fuel f addr
                   (Z.of_nat k * f_blocksize f) s
                 = Ret r (MemWrite32 EFM32_MSC_WRITECTRL 1 :: evs) s')
    by (rewrite efm32_flash_erase_job_step, Hloop; reflexivity).
  assert (Hq : Forall (fun e => is_fault e = false)
                      (MemWrite32 EFM32_MSC_WRITECTRL 1 :: evs))
    by (constructor; [reflexivity|exact Hquiet]).
  destruct (Hsafe fuel s r _ s' Hjob Hq) as (_ & Herase & _).
  eauto.
Qed.

(** C3.  If a link check reports a fault while the erase runs, the erase
    has returned -1 and the fault is its last event: nothing was issued
    after it.  At the return [addr] and [len] are what they were when the
    polled page was latched, that is, advanced once for each of the [n]
    pages completed before and not for the page of the fault; the pages
    latched are those [n] and the page of the fault, each erased once. *)
Theorem efm32_flash_erase_link_fault (L : Type) (DL : DebugLink L) (size_bits : Z)
        (fuel : nat) (f : target_flash) (addr len : Z) (s : state L) :
  In (CheckError true)
     (events (efm32_flash_erase_job size_bits fuel f addr len s)) ->
  exists n pre s',
    efm32_flash_erase_job size_bits fuel f addr len s
    = Ret (-1, (addr_after (f_blocksize f) n addr,
                len_after size_bits (f_blocksize f) n len))
          (pre ++ [CheckError true]) s' /\
    efm32_flash_erase size_bits fuel f addr len s
    = Ret (-1) (pre ++ [CheckError true]) s' /\
    Forall (fun e => is_fault e = false) pre /\
    len_after size_bits (f_blocksize f) n len <> 0 /\
    latched pre = map (fun i => addr_after (f_blocksize f) i addr) (seq 0 (S n)) /\
    last (latched pre) 0 = addr_after (f_blocksize f) n addr /\
    List.length (page_erases pre) = S n.
Proof.
  intros Hin. rewrite efm32_flash_erase_of_job.
  rewrite efm32_flash_erase_job_step in *.
  destruct (efm32_flash_erase_loop_spec size_bits f fuel addr len
              (set_lnk s (link_write32 (lnk s) EFM32_MSC_WRITECTRL 1)))
    as (polls & Hpolls & Hnz & Hspec).
  cbv zeta in Hspec.
  destruct (pages_content (f_blocksize f) polls addr Hpolls)
    as (_ & Hl & He & Hq).
  destruct (efm32_flash_erase_loop size_bits fuel f addr len _)
    as [[r [a' l']] e1 s1|e1 s1]; cbn [events] in Hin.
  - destruct Hspec as (-> & -> & [(-> & Hz & ->)|(-> & Hz & p & Hp & ->)]).
    + exfalso. revert Hin. apply no_fault_not_in.
      constructor; [reflexivity|exact Hq].
    + destruct (poll_events_quiet p Hp) as (_ & Hp2 & Hp3 & Hp4 & _).
      exists (List.length polls),
        (MemWrite32 EFM32_MSC_WRITECTRL 1
           :: pages (f_blocksize f) addr polls
           ++ page_cmds (addr_after (f_blocksize f) (List.length polls) addr)
           ++ p), s1.
      assert (Hlat : latched
                (MemWrite32 EFM32_MSC_WRITECTRL 1
                   :: pages (f_blocksize f) addr polls
                   ++ page_cmds (addr_after (f_blocksize f) (List.length polls) addr)
                   ++ p)
              = map (fun i => addr_after (f_blocksize f) i addr)
                    (seq 0 (S (List.length polls)))).
      { change (latched (pages (f_blocksize f) addr polls
                  ++ page_cmds (addr_after (f_blocksize f) (List.length polls) addr)
                  ++ p)
                = map (fun i => addr_after (f_blocksize f) i addr)
                      (seq 0 (S (List.length polls)))).
        rewrite !latched_app, Hl, Hp2, seq_S, map_app. reflexivity. }
      repeat split.
      * cbn [app fst]. rewrite <- !app_assoc. reflexivity.
      * cbn [app fst]. rewrite <- !app_assoc. reflexivity.
      * constructor; [reflexivity|].
        repeat (apply Forall_app; split); try assumption.
        apply page_cmds_quiet.
      * exact Hz.
      * exact Hlat.
      * rewrite Hlat, seq_S, map_app. apply last_last.
      * change (List.length
                  (page_erases
                     (pages (f_blocksize f) addr polls
                        ++ page_cmds
                             (addr_after (f_blocksize f) (List.length polls) addr)
                        ++ p))
                = S (List.length polls)).
        rewrite !page_erases_app, !length_app, He, Hp3.
        cbn [List.length]. destruct (page_cmds_quiet
          (addr_after (f_blocksize f) (List.length polls) addr)) as (_ & _ & -> & _).
        lia.
  - exfalso. revert Hin. apply no_fault_not_in.
    constructor; [reflexivity|].
    destruct Hspec as (_ & [->|(p & Hp & ->)]); [exact Hq|].
    repeat (apply Forall_app; split); try assumption.
    + apply page_cmds_quiet.
    + apply poll_events_quiet. exact Hp.
Qed.

(* ------------------------------------------------------------------------ *)
(** ** The simulated device is sound while its link has no fault pending *)
(* ------------------------------------------------------------------------ *)

Lemma sim_sound : sound_device (fun l : sim => sim_fault_in l = None) sim_busy.
Proof.
  split.
  - intros l a v H. cbn [link_write32 sim_link]. unfold sim_write32.
    destruct (_ && _); exact H.
  - intros l H. cbn [link_read32 link_check_error sim_link].
    unfold sim_read32. rewrite Z.eqb_refl.
    destruct l as [regs [|busy] time fault stub]; cbn in *.
    + split; [exact H|]. intros Hb. discriminate Hb.
    + split; [exact H|]. intros _. unfold sim_check_error. cbn.
      rewrite H. cbn. repeat split. lia.
Qed.

(** Two pages of 2048 bytes from address 0x800 on the simulated device. *)
Lemma efm32_flash_erase_pages_witness :
  (0 < f_blocksize gg_flash) /\ (0 <= 0x800 < 2 ^ 32) /\
  (0x800 + Z.of_nat 2 * f_blocksize gg_flash <= 2 ^ 32) /\
  (Z.of_nat 2 * f_blocksize gg_flash < 2 ^ 32) /\
  mem_writes (events (efm32_flash_erase_job 32 10 gg_flash 0x800 0x1000
                                            (gg_state gg_sim)))
  = MemWrite32 EFM32_MSC_WRITECTRL 1
      :: page_cmds 0x800 ++ page_cmds 0x1000 /\
  exists fuel0, forall fuel, (fuel0 <= fuel)%nat ->
    exists evs s',
      efm32_flash_erase 32 fuel gg_flash 0x800 0x1000 (gg_state gg_sim)
      = Ret 0 evs s' /\
      Forall (fun e => is_fault e = false) evs.
Proof.
  assert (H1 : 0 < f_blocksize gg_flash) by (vm_compute; reflexivity).
  assert (H2 : 0 <= 0x800 < 2 ^ 32) by lia.
  assert (H3 : 0x800 + Z.of_nat 2 * f_blocksize gg_flash <= 2 ^ 32)
    by (vm_compute; discriminate).
  assert (H4 : Z.of_nat 2 * f_blocksize gg_flash < 2 ^ 32)
    by (vm_compute; reflexivity).
  destruct (efm32_flash_erase_pages sim sim_link 32 gg_flash 0x800 2 H1 H2 H3 H4)
    as [Hsafe Hlive].
  repeat (split; [assumption|]). split.
  - set (o := efm32_flash_erase_job 32 10 gg_flash 0x800 0x1000 (gg_state gg_sim)).
    assert (Hrun : o = Ret (fst (0, (0x1800, 0)), snd (0, (0x1800, 0)))
                           (events o) (final o))
      by (vm_compute; reflexivity).
    assert (Hquiet : Forall (fun e => is_fault e = false) (events o))
      by (vm_compute; repeat constructor).
    destruct (Hsafe 10%nat (gg_state gg_sim) _ (events o) (final o) Hrun Hquiet)
      as (_ & _ & Hw & _).
    exact Hw.
  - exact (Hlive (fun l => sim_fault_in l = None) sim_busy (gg_state gg_sim)
                 sim_sound eq_refl).
Defined.

(** Three pages on the link that reports a fault at its fourth check: the
    fault falls into the poll of the second page, at address 0x1000. *)
Lemma efm32_flash_erase_link_fault_witness :
  In (CheckError true)
     (events (efm32_flash_erase_job 32 10 gg_flash 0x800 0x1800
                                    (gg_state gg_sim_faulty))) /\
  exists n pre s',
    efm32_flash_erase_job 32 10 gg_flash 0x800 0x1800 (gg_state gg_sim_faulty)
    = Ret (-1, (addr_after 2048 n 0x800, len_after 32 2048 n 0x1800))
          (pre ++ [CheckError true]) s' /\
    efm32_flash_erase 32 10 gg_flash 0x800 0x1800 (gg_state gg_sim_faulty)
    = Ret (-1) (pre ++ [CheckError true]) s' /\
    Forall (fun e => is_fault e = false) pre /\
    len_after 32 2048 n 0x1800 <> 0 /\
    latched pre = map (fun i => addr_after 2048 i 0x800) (seq 0 (S n)) /\
    last (latched pre) 0 = addr_after 2048 n 0x800 /\
    List.length (page_erases pre) = S n.
Proof.
  assert (Hin : In (CheckError true)
                   (events (efm32_flash_erase_job 32 10 gg_flash 0x800 0x1800
                                                  (gg_state gg_sim_faulty)))).
  { vm_compute. do 15 right. left. reflexivity. }
  split; [exact Hin|].
  exact (efm32_flash_erase_link_fault sim sim_link 32 10 gg_flash 0x800 0x1800
           (gg_state gg_sim_faulty) Hin).
Defined.

(** The run of the witness above. *)
Example efm32_flash_erase_faulty_run :
  efm32_flash_erase_job 32 10 gg_flash 0x800 0x1800 (gg_state gg_sim_faulty)
  = Ret (-1, (0x1000, 0x1000))
        (MemWrite32 EFM32_MSC_WRITECTRL 1
           :: page_cmds 0x800
           ++ busy_polls [1; 1] ++ [MemRead32 EFM32_MSC_STATUS 0]
           ++ page_cmds 0x1000
           ++ busy_polls [1]
           ++ [MemRead32 EFM32_MSC_STATUS 1; CheckError true])
        (gg_state (mk_sim gg_regs 0 2 None 0)).
Proof. vm_compute. reflexivity. Qed.

(* ------------------------------------------------------------------------ *)
(** ** Mass erase: the sequence and the missing re-lock *)
(* ------------------------------------------------------------------------ *)

(** C4.  Whatever the device and the fuel, the events of
    [efm32_cmd_erase_all] start with the write-enable, the unlock of the
    mass erase with the key 0x631a and the command [ERASEMAIN0], followed
    by polls that found the controller busy.  If it returns [true] these
    are followed by a poll that found it idle, the write of zero to the
    unlock register and the confirmation, and by nothing else.  If a link
    check reports a fault it returns [false] right there: the fault is the
    last event, and the zero was never written to the unlock register,
    whose last write is the key.  On a sound device it returns [true],
    given enough fuel. *)
Theorem efm32_cmd_erase_all_sequence (L : Type) (DL : DebugLink L) :
  (forall fuel (s : state L),
      exists vs, Forall (fun v => msc_busy v = true) vs /\
        match efm32_cmd_erase_all fuel s with
        | Ret true evs _ =>
            exists v, msc_busy v = false /\
              evs = erase_all_cmds ++ busy_polls vs
                      ++ [ MemRead32 EFM32_MSC_STATUS v;
                           MemWrite32 EFM32_MSC_MASSLOCK 0;
                           TcPrintf ("Erase successful!" ++ nl) ]
        | Ret false evs _ =>
            exists v, msc_busy v = true /\
              evs = erase_all_cmds ++ busy_polls vs
                      ++ [ MemRead32 EFM32_MSC_STATUS v; CheckError true ] /\
              ~ In (MemWrite32 EFM32_MSC_MASSLOCK 0) evs /\
              filter (fun e => match event_addr e with
                               | Some a => a =? EFM32_MSC_MASSLOCK
                               | None => false
                               end) evs
              = [MemWrite32 EFM32_MSC_MASSLOCK EFM32_MSC_MASSLOCK_LOCKKEY]
        | OutOfFuel evs _ =>
            evs = erase_all_cmds ++ busy_polls vs /\ List.length vs = fuel
        end) /\
  (forall fuel (s : state L),
      In (CheckError true) (events (efm32_cmd_erase_all fuel s)) ->
      exists evs s', efm32_cmd_erase_all fuel s = Ret false evs s') /\
  (forall (Inv : L -> Prop) (left : L -> nat) (s : state L),
      sound_device Inv left -> Inv (lnk s) ->
      exists fuel0, forall fuel, (fuel0 <= fuel)%nat ->
        exists evs s', efm32_cmd_erase_all fuel s = Ret true evs s').
Proof.
  assert (Hshape : forall fuel (s : state L),
      exists vs, Forall (fun v => msc_busy v = true) vs /\
        match efm32_cmd_erase_all fuel s with
        | Ret true evs _ =>
            exists v, msc_busy v = false /\
              evs = erase_all_cmds ++ busy_polls vs
                      ++ [ MemRead32 EFM32_MSC_STATUS v;
                           MemWrite32 EFM32_MSC_MASSLOCK 0;
                           TcPrintf ("Erase successful!" ++ nl) ]
        | Ret false evs _ =>
            exists v, msc_busy v = true /\
              evs = erase_all_cmds ++ busy_polls vs
                      ++ [ MemRead32 EFM32_MSC_STATUS v; CheckError true ] /\
              ~ In (MemWrite32 EFM32_MSC_MASSLOCK 0) evs /\
              filter (fun e => match event_addr e with
                               | Some a => a =? EFM32_MSC_MASSLOCK
                               | None => false
                               end) evs
              = [MemWrite32 EFM32_MSC_MASSLOCK EFM32_MSC_MASSLOCK_LOCKKEY]
        | OutOfFuel evs _ =>
            evs = erase_all_cmds ++ busy_polls vs /\ List.length vs = fuel
        end).
  { intros fuel s. rewrite efm32_cmd_erase_all_step.
    destruct (msc_poll_busy_spec fuel (erase_all_start s)) as (vs & Hvs & Hrun).
    exists vs. split; [exact Hvs|].
    destruct (msc_poll_busy fuel _) as [[|] evs s'|evs s'].
    - destruct Hrun as (_ & _ & v & Hv & ->). exists v.
      split; [exact Hv|]. split; [reflexivity|].
      destruct (poll_events_quiet _ (busy_polls_poll_events vs))
        as (Hw & _ & _ & _ & Ha).
      split.
      + intros Hin. apply in_app_or in Hin. destruct Hin as [Hin|Hin].
        * cbn in Hin. repeat (destruct Hin as [Hin|Hin]; try discriminate Hin).
          exact Hin.
        * apply in_app_or in Hin. destruct Hin as [Hin|Hin].
          -- rewrite Forall_forall in Ha. specialize (Ha _ Hin _ eq_refl).
             discriminate Ha.
          -- cbn in Hin.
             repeat (destruct Hin as [Hin|Hin]; try discriminate Hin).
             exact Hin.
      + rewrite !filter_app.
        replace (filter _ (busy_polls vs)) with (@nil event); [reflexivity|].
        symmetry. clear. induction vs as [|w vs IH]; [reflexivity|].
        cbn. exact IH.
    - destruct Hrun as (_ & _ & v & Hv & ->). exists v.
      split; [exact Hv|]. rewrite <- !app_assoc. reflexivity.
    - destruct Hrun as [-> <-]. split; reflexivity. }
  split; [exact Hshape|]. split.
  - intros fuel s Hin. destruct (Hshape fuel s) as (vs & _ & Hrun).
    destruct (efm32_cmd_erase_all fuel s) as [[|] evs s'|evs s'];
      [|eauto|]; exfalso; cbn [events] in Hin; revert Hin;
      apply no_fault_not_in.
    + destruct Hrun as (v & _ & ->).
      repeat (apply Forall_app; split); repeat constructor.
      apply poll_events_quiet, busy_polls_poll_events.
    + destruct Hrun as (-> & _).
      repeat (apply Forall_app; split); repeat constructor.
      apply poll_events_quiet, busy_polls_poll_events.
  - intros Inv left s Hsound HI.
    exact (efm32_cmd_erase_all_returns Inv left Hsound s HI).
Qed.

(** The mass erase on the simulated device: sound link, then faulty link. *)
Lemma efm32_cmd_erase_all_sequence_witness :
  In (CheckError true)
     (events (efm32_cmd_erase_all
                10 (gg_state (mk_sim gg_regs 0 2 (Some 1%nat) 0)))) /\
  (exists evs s',
      efm32_cmd_erase_all 10 (gg_state (mk_sim gg_regs 0 2 (Some 1%nat) 0))
      = Ret false evs s') /\
  sound_device (fun l : sim => sim_fault_in l = None) sim_busy /\
  exists fuel0, forall fuel, (fuel0 <= fuel)%nat ->
    exists evs s', efm32_cmd_erase_all fuel (gg_state gg_sim) = Ret true evs s'.
Proof.
  destruct (efm32_cmd_erase_all_sequence sim sim_link) as (_ & Hfault & Hlive).
  assert (Hin : In (CheckError true)
                   (events (efm32_cmd_erase_all
                              10 (gg_state (mk_sim gg_regs 0 2 (Some 1%nat) 0))))).
  { vm_compute. do 6 right. left. reflexivity. }
  split; [exact Hin|]. split; [exact (Hfault _ _ Hin)|].
  split; [exact sim_sound|].
  exact (Hlive (fun l => sim_fault_in l = None) sim_busy (gg_state gg_sim)
               sim_sound eq_refl).
Defined.

(** The two runs of the mass erase on the simulated device. *)
Example efm32_cmd_erase_all_sound_run :
  efm32_cmd_erase_all 10 (gg_state gg_sim)
  = Ret true
        (erase_all_cmds ++ busy_polls [1; 1]
           ++ [ MemRead32 EFM32_MSC_STATUS 0;
                MemWrite32 EFM32_MSC_MASSLOCK 0;
                TcPrintf ("Erase successful!" ++ nl) ])
        (gg_state gg_sim).
Proof. vm_compute. reflexivity. Qed.

Example efm32_cmd_erase_all_faulty_run :
  efm32_cmd_erase_all 10 (gg_state (mk_sim gg_regs 0 2 (Some 1%nat) 0))
  = Ret false
        (erase_all_cmds ++ busy_polls [1]
           ++ [ MemRead32 EFM32_MSC_STATUS 1; CheckError true ])
        (gg_state (mk_sim gg_regs 0 2 None 0)).
Proof. vm_compute. reflexivity. Qed.

(* ------------------------------------------------------------------------ *)
(** ** The controller registers used *)
(* ------------------------------------------------------------------------ *)

Lemma page_cmds_msc_only (addr : Z) :
  Forall (fun e => forall a, event_addr e = Some a -> In a msc_registers)
         (page_cmds addr).
Proof. unfold page_cmds. msc_each. Qed.

Lemma poll_events_msc_only (p : list event) :
  Forall (fun e => is_poll_event e = true) p ->
  Forall (fun e => forall a, event_addr e = Some a -> In a msc_registers) p.
Proof.
  intros Hp. destruct (poll_events_quiet p Hp) as (_ & _ & _ & _ & Hq).
  eapply Forall_impl; [|exact Hq].
  intros x Hx b Hb. rewrite (Hx b Hb). in_msc.
Qed.

Lemma pages_msc_only (bs : Z) (polls : list (list event)) (addr : Z) :
  Forall (Forall (fun e => is_poll_event e = true)) polls ->
  Forall (fun e => forall a, event_addr e = Some a -> In a msc_registers)
         (pages bs addr polls).
Proof.
  intros Hpolls. revert addr.
  induction Hpolls as [|p polls Hp _ IH]; intros addr; cbn [pages].
  - constructor.
  - repeat (apply Forall_app; split).
    + apply page_cmds_msc_only.
    + apply poll_events_msc_only. exact Hp.
    + apply IH.
Qed.

(** C5.  Every register that [efm32_flash_erase] and
    [efm32_cmd_erase_all] write or poll is one of [WRITECTRL], [WRITECMD],
    [ADDRB], [STATUS] and [MASSLOCK] at the fixed base 0x400e0000, for any
    flash region, any device behind the link and any fuel.  The catalog
    entries of the first generation record the base 0x400c0000 in
    [msc_offset]; neither function takes that field, and none of the
    registers they use lies at that base. *)
Theorem efm32_msc_registers_fixed (L : Type) (DL : DebugLink L) :
  (forall size_bits fuel f addr len (s : state L) e a,
      In e (events (efm32_flash_erase size_bits fuel f addr len s)) ->
      event_addr e = Some a -> In a msc_registers) /\
  (forall fuel (s : state L) e a,
      In e (events (efm32_cmd_erase_all fuel s)) ->
      event_addr e = Some a -> In a msc_registers) /\
  (forall a, In a msc_registers -> 0x400e0000 <= a < 0x400e0000 + 0x80) /\
  (forall d, In d efm32_devices -> is_first_gen d = true ->
             msc_offset d = 0x400c0000 /\
             forall a, In a msc_registers ->
                       ~ (msc_offset d <= a < msc_offset d + 0x20000)).
Proof.
  split; [|split; [|split]].
  - intros size_bits fuel f addr len s e a Hin Ha.
    rewrite efm32_flash_erase_of_job, efm32_flash_erase_job_step in Hin.
    destruct (efm32_flash_erase_loop_spec size_bits f fuel addr len
                (set_lnk s (link_write32 (lnk s) EFM32_MSC_WRITECTRL 1)))
      as (polls & Hpolls & _ & Hspec).
    cbv zeta in Hspec.
    pose proof (pages_msc_only (f_blocksize f) polls addr Hpolls) as Hpages.
    assert (Hall : Forall (fun e => forall a, event_addr e = Some a ->
                                              In a msc_registers)
                          (events (efm32_flash_erase_loop size_bits fuel f addr len
                                     (set_lnk s (link_write32 (lnk s)
                                                   EFM32_MSC_WRITECTRL 1))))).
    { destruct (efm32_flash_erase_loop size_bits fuel f addr len _)
        as [[r [a' l']] e1 s1|e1 s1]; cbn [events].
      - destruct Hspec as (_ & _ & [(_ & _ & ->)|(_ & _ & p & Hp & ->)]);
          [exact Hpages|].
        repeat (apply Forall_app; split);
          auto using page_cmds_msc_only, poll_events_msc_only.
        msc_each.
      - destruct Hspec as (_ & [->|(p & Hp & ->)]); [exact Hpages|].
        repeat (apply Forall_app; split);
          auto using page_cmds_msc_only, poll_events_msc_only. }
    rewrite Forall_forall in Hall.
    destruct (efm32_flash_erase_loop size_bits fuel f addr len _);
      cbn [events] in *;
      (destruct Hin as [<-|Hin];
       [injection Ha as <-; in_msc|exact (Hall e Hin a Ha)]).
  - intros fuel s e a Hin Ha.
    rewrite efm32_cmd_erase_all_step in Hin.
    pose proof (msc_poll_busy_events fuel (erase_all_start s)) as Hp.
    assert (Hcmds : Forall (fun e => forall a, event_addr e = Some a ->
                                               In a msc_registers)
                           erase_all_cmds)
      by (unfold erase_all_cmds; msc_each).
    assert (Hall : Forall (fun e => forall a, event_addr e = Some a ->
                                              In a msc_registers)
                     (events
                        match msc_poll_busy fuel (erase_all_start s) with
                        | Ret true evs s' => Ret false (erase_all_cmds ++ evs) s'
                        | Ret false evs s' =>
                            Ret true
                                (erase_all_cmds ++ evs
                                   ++ [ MemWrite32 EFM32_MSC_MASSLOCK 0;
                                        TcPrintf ("Erase successful!" ++ nl) ])
                                (set_lnk s' (link_write32 (lnk s')
                                               EFM32_MSC_MASSLOCK 0))
                        | OutOfFuel evs s' => OutOfFuel (erase_all_cmds ++ evs) s'
                        end)).
    { destruct (msc_poll_busy fuel _) as [[|] evs s'|evs s']; cbn [events].
      - destruct Hp as (p & Hp & ->).
        repeat (apply Forall_app; split);
          auto using poll_events_msc_only. msc_each.
      - repeat (apply Forall_app; split);
          auto using poll_events_msc_only. msc_each.
      - repeat (apply Forall_app; split);
          auto using poll_events_msc_only. }
    rewrite Forall_forall in Hall. exact (Hall e Hin a Ha).
  - intros a Ha. cbn [In msc_registers] in Ha.
    repeat (destruct Ha as [<-|Ha]; [vm_compute; split; congruence|]).
    contradiction.
  - intros d Hd Hfirst. unfold efm32_devices in Hd. cbn [In] in Hd.
    repeat (destruct Hd as [<-|Hd]; [try discriminate Hfirst|]);
      try contradiction.
    all: split; [reflexivity|].
    all: intros a Ha; cbn [In msc_registers] in Ha;
      repeat (destruct Ha as [<-|Ha];
              [vm_compute; intros [H1 H2]; congruence|]);
      contradiction.
Qed.

(** The page-erase command of a run on the simulated EFM32GG, a
    first-generation device whose catalog entry records 0x400c0000. *)
Lemma efm32_msc_registers_fixed_witness :
  In (MemWrite32 EFM32_MSC_WRITECMD EFM32_MSC_WRITECMD_ERASEPAGE)
     (events (efm32_flash_erase 32 10 gg_flash 0x800 0x1000 (gg_state gg_sim))) /\
  In EFM32_MSC_WRITECMD msc_registers /\
  0x400e0000 <= EFM32_MSC_WRITECMD < 0x400e0000 + 0x80 /\
  msc_offset (mk_device 72 "EFM32GG" 2048 0x400c0000 false) = 0x400c0000 /\
  ~ (0x400c0000 <= EFM32_MSC_WRITECMD < 0x400c0000 + 0x20000).
Proof.
  destruct (efm32_msc_registers_fixed sim sim_link)
    as (Herase & _ & Hbase & Hfirst).
  assert (Hin : In (MemWrite32 EFM32_MSC_WRITECMD EFM32_MSC_WRITECMD_ERASEPAGE)
                   (events (efm32_flash_erase 32 10 gg_flash 0x800 0x1000
                                              (gg_state gg_sim)))).
  { vm_compute. do 3 right. left. reflexivity. }
  assert (Hreg : In EFM32_MSC_WRITECMD msc_registers)
    by exact (Herase 32 10%nat gg_flash 0x800 0x1000 (gg_state gg_sim) _ _
                     Hin eq_refl).
  assert (Hdev : In (mk_device 72 "EFM32GG" 2048 0x400c0000 false) efm32_devices)
    by (vm_compute; do 31 right; left; reflexivity).
  destruct (Hfirst _ Hdev eq_refl) as [Hoff Hnot].
  split; [exact Hin|]. split; [exact Hreg|]. split; [exact (Hbase _ Hreg)|].
  split; [exact Hoff|]. exact (Hnot _ Hreg).
Defined.

(* ------------------------------------------------------------------------ *)
(** ** Further properties of the page erase *)
(* ------------------------------------------------------------------------ *)

Lemma efm32_flash_erase_events (L : Type) (DL : DebugLink L) (size_bits : Z)
      (fuel : nat) (f : target_flash) (addr len : Z) (s : state L) :
  events (efm32_flash_erase size_bits fuel f addr len s)
  = MemWrite32 EFM32_MSC_WRITECTRL 1
      :: events (efm32_flash_erase_loop size_bits fuel f addr len
                   (set_lnk s (link_write32 (lnk s) EFM32_MSC_WRITECTRL 1))) /\
  final (efm32_flash_erase size_bits fuel f addr len s)
  = final (efm32_flash_erase_loop size_bits fuel f addr len
             (set_lnk s (link_write32 (lnk s) EFM32_MSC_WRITECTRL 1))).
Proof.
  rewrite efm32_flash_erase_of_job, efm32_flash_erase_job_step.
  destruct (efm32_flash_erase_loop size_bits fuel f addr len _);
    split; reflexivity.
Qed.

(** X1.  Whatever the device, the arguments and the fuel, a return of
    [efm32_flash_erase] is 0 or -1: it is 0 exactly when no link check of
    the run reported a fault, and -1 exactly when the last event of the
    run is a link check that reported one, the only one of the run. *)
Theorem efm32_flash_erase_result (L : Type) (DL : DebugLink L) (size_bits : Z)
        (fuel : nat) (f : target_flash) (addr len : Z) (s : state L)
        (r : Z) (evs : list event) (s' : state L) :
  efm32_flash_erase size_bits fuel f addr len s = Ret r evs s' ->
  (r = 0 /\ Forall (fun e => is_fault e = false) evs) \/
  (r = -1 /\ exists pre, evs = pre ++ [CheckError true] /\
                         Forall (fun e => is_fault e = false) pre).
Proof.
  intros Hrun.
  rewrite efm32_flash_erase_of_job, efm32_flash_erase_job_step in Hrun.
  destruct (efm32_flash_erase_loop_spec size_bits f fuel addr len
              (set_lnk s (link_write32 (lnk s) EFM32_MSC_WRITECTRL 1)))
    as (polls & Hpolls & _ & Hspec).
  cbv zeta in Hspec.
  destruct (pages_content (f_blocksize f) polls addr Hpolls) as (_ & _ & _ & Hq).
  destruct (efm32_flash_erase_loop size_bits fuel f addr len _)
    as [[r0 [a' l']] e1 s1|]; [|discriminate Hrun].
  injection Hrun as <- <- <-. cbn [fst].
  destruct Hspec as (_ & _ & [(-> & _ & ->)|(-> & _ & p & Hp & ->)]).
  - left. split; [reflexivity|]. constructor; [reflexivity|exact Hq].
  - right. split; [reflexivity|].
    exists (MemWrite32 EFM32_MSC_WRITECTRL 1
              :: pages (f_blocksize f) addr polls
              ++ page_cmds (addr_after (f_blocksize f) (List.length polls) addr)
              ++ p).
    split; [cbn [app]; rewrite <- !app_assoc; reflexivity|].
    constructor; [reflexivity|].
    repeat (apply Forall_app; split); try assumption.
    + apply page_cmds_quiet.
    + apply poll_events_quiet. exact Hp.
Qed.

(** The sound run and the faulty run on the simulated device. *)
Lemma efm32_flash_erase_result_witness :
  let o := efm32_flash_erase 32 10 gg_flash 0x800 0x1800 (gg_state gg_sim_faulty) in
  o = Ret (-1) (events o) (final o) /\
  ((-1 = 0 /\ Forall (fun e => is_fault e = false) (events o)) \/
   (-1 = -1 /\ exists pre, events o = pre ++ [CheckError true] /\
                           Forall (fun e => is_fault e = false) pre)).
Proof.
  intros o.
  assert (Hrun : o = Ret (-1) (events o) (final o)) by (vm_compute; reflexivity).
  split; [exact Hrun|].
  exact (efm32_flash_erase_result sim sim_link 32 10 gg_flash 0x800 0x1800
           (gg_state gg_sim_faulty) (-1) (events o) (final o) Hrun).
Defined.

Lemma poll_event_erase_event (e : event) :
  is_poll_event e = true -> is_erase_event e = true.
Proof. destruct e as [| |a v| | |[|]| | | | | |]; cbn; congruence. Qed.

Lemma page_cmds_erase_events (addr : Z) :
  Forall (fun e => is_erase_event e = true) (page_cmds addr).
Proof. repeat constructor. Qed.

Lemma pages_erase_events (bs : Z) (polls : list (list event)) (addr : Z) :
  Forall (Forall (fun e => is_poll_event e = true)) polls ->
  Forall (fun e => is_erase_event e = true) (pages bs addr polls).
Proof.
  intros Hpolls. revert addr.
  induction Hpolls as [|p polls Hp _ IH]; intros addr; cbn [pages].
  - constructor.
  - repeat (apply Forall_app; split).
    + apply page_cmds_erase_events.
    + eapply Forall_impl; [|exact Hp]. exact poll_event_erase_event.
    + apply IH.
Qed.

(** X2.  Whatever the device, the arguments and the fuel,
    [efm32_flash_erase] makes no call but these: the write of 1 to
    [WRITECTRL], writes to [ADDRB], the commands [LADDRIM] and [ERASEPAGE]
    to [WRITECMD], reads of [STATUS] and link checks.  It never writes the
    mass-erase lock, never issues the mass-erase command, never runs a
    stub, registers or prints anything. *)
Theorem efm32_flash_erase_calls (L : Type) (DL : DebugLink L) (size_bits : Z)
        (fuel : nat) (f : target_flash) (addr len : Z) (s : state L) :
  Forall (fun e => is_erase_event e = true
                   /\ (forall v, e <> MemWrite32 EFM32_MSC_MASSLOCK v)
                   /\ e <> MemWrite32 EFM32_MSC_WRITECMD EFM32_MSC_WRITECMD_ERASEMAIN0)
         (events (efm32_flash_erase size_bits fuel f addr len s)).
Proof.
  assert (Hall : Forall (fun e => is_erase_event e = true)
                        (events (efm32_flash_erase size_bits fuel f addr len s))).
  { destruct (efm32_flash_erase_events L DL size_bits fuel f addr len s) as [-> _].
    constructor; [reflexivity|].
    destruct (efm32_flash_erase_loop_spec size_bits f fuel addr len
                (set_lnk s (link_write32 (lnk s) EFM32_MSC_WRITECTRL 1)))
      as (polls & Hpolls & _ & Hspec).
    cbv zeta in Hspec.
    pose proof (pages_erase_events (f_blocksize f) polls addr Hpolls) as Hpages.
    destruct (efm32_flash_erase_loop size_bits fuel f addr len _)
      as [[r [a' l']] e1 s1|e1 s1]; cbn [events].
    - destruct Hspec as (_ & _ & [(_ & _ & ->)|(_ & _ & p & Hp & ->)]);
        [exact Hpages|].
      repeat (apply Forall_app; split); try assumption.
      + apply page_cmds_erase_events.
      + eapply Forall_impl; [|exact Hp]. exact poll_event_erase_event.
      + repeat constructor.
    - destruct Hspec as (_ & [->|(p & Hp & ->)]); [exact Hpages|].
      repeat (apply Forall_app; split); try assumption.
      + apply page_cmds_erase_events.
      + eapply Forall_impl; [|exact Hp]. exact poll_event_erase_event. }
  eapply Forall_impl; [|exact Hall].
  intros e He. split; [exact He|]. split.
  - intros v ->. vm_compute in He. discriminate He.
  - intros ->. vm_compute in He. discriminate He.
Qed.

Lemma msc_poll_busy_frame (L : Type) (DL : DebugLink L) (fuel : nat)
      (s : state L) :
  tgt (final (msc_poll_busy fuel s)) = tgt s /\
  variant_string (final (msc_poll_busy fuel s)) = variant_string s.
Proof.
  revert s. induction fuel as [|fuel IH]; intros s; [split; reflexivity|].
  rewrite msc_poll_busy_step. cbv zeta.
  destruct (msc_busy _); [|split; reflexivity].
  destruct (fst (link_check_error _)); [split; reflexivity|].
  match goal with
  | |- context [msc_poll_busy fuel ?s2] =>
      destruct (IH s2) as [Ht Hv]; destruct (msc_poll_busy fuel s2)
  end; cbn [final] in *; split; assumption.
Qed.

Lemma efm32_flash_erase_loop_frame (L : Type) (DL : DebugLink L) (size_bits : Z)
      (fuel : nat) (f : target_flash) (addr len : Z) (s : state L) :
  tgt (final (efm32_flash_erase_loop size_bits fuel f addr len s)) = tgt s /\
  variant_string (final (efm32_flash_erase_loop size_bits fuel f addr len s))
  = variant_string s.
Proof.
  revert addr len s. induction fuel as [|fuel IH]; intros addr len s.
  - cbn [efm32_flash_erase_loop]. destruct (len =? 0); split; reflexivity.
  - destruct (Z.eq_dec len 0) as [->|Hlen].
    + rewrite efm32_flash_erase_loop_done. split; reflexivity.
    + rewrite efm32_flash_erase_loop_step by exact Hlen.
      destruct (msc_poll_busy_frame L DL fuel (erase_page_start s addr))
        as [Ht Hv].
      destruct (msc_poll_busy fuel _) as [[|] evs s'|evs s'];
        cbn [final erase_page_start tgt variant_string set_lnk] in *;
        try (split; assumption).
      destruct (IH (wrap32 (addr + f_blocksize f))
                   (wrap size_bits (len - f_blocksize f)) s') as [Ht' Hv'].
      destruct (efm32_flash_erase_loop size_bits fuel f _ _ s');
        cbn [final] in *; split; congruence.
Qed.

(** X3.  Erasing, mass erasing, writing and reading the unique number only
    act on the device: whatever the device and the fuel, and whether they
    return or not, they leave the [target] structure (identification code,
    options, driver name pointer) and the display string untouched. *)
Theorem efm32_flash_ops_frame (L : Type) (DL : DebugLink L) (size_bits : Z)
        (stub : list Z) (fuel : nat) (f : target_flash) (addr len : Z)
        (src : list Z) (s : state L) :
  (tgt (final (efm32_flash_erase size_bits fuel f addr len s)) = tgt s /\
   variant_string (final (efm32_flash_erase size_bits fuel f addr len s))
   = variant_string s) /\
  (tgt (final (efm32_cmd_erase_all fuel s)) = tgt s /\
   variant_string (final (efm32_cmd_erase_all fuel s)) = variant_string s) /\
  (tgt (final (efm32_flash_write stub f addr src len s)) = tgt s /\
   variant_string (final (efm32_flash_write stub f addr src len s))
   = variant_string s) /\
  (tgt (final (efm32_cmd_serial s)) = tgt s /\
   variant_string (final (efm32_cmd_serial s)) = variant_string s).
Proof.
  split; [|split; [|split]].
  - destruct (efm32_flash_erase_events L DL size_bits fuel f addr len s) as [_ ->].
    apply (efm32_flash_erase_loop_frame L DL size_bits fuel f addr len
             (set_lnk s (link_write32 (lnk s) EFM32_MSC_WRITECTRL 1))).
  - rewrite efm32_cmd_erase_all_step.
    destruct (msc_poll_busy_frame L DL fuel (erase_all_start s)) as [Ht Hv].
    destruct (msc_poll_busy fuel _) as [[|] evs s'|evs s'];
      cbn [final erase_all_start tgt variant_string set_lnk] in *;
      split; assumption.
  - unfold efm32_flash_write, bind, target_mem_write, cortexm_run_stub.
    cbn [lnk set_lnk app].
    destruct (link_run_stub _ _ _ _ _ _); split; reflexivity.
  - unfold efm32_cmd_serial, efm32_read_eui, bind, target_mem_read32, tc_printf,
      ret.
    destruct (link_read32 (lnk s) EFM32_DI_EUI64_1) as [h l1].
    cbn [lnk set_lnk fst snd app].
    destruct (link_read32 l1 EFM32_DI_EUI64_0) as [l l2].
    split; reflexivity.
Qed.

(* ------------------------------------------------------------------------ *)
(** ** A length that is not a multiple of the block size *)
(* ------------------------------------------------------------------------ *)

(** The remaining length keeps its remainder by the block size when the
    block size divides the range of [size_t]. *)
Lemma len_after_mod (size_bits bs : Z) (n : nat) (len : Z) :
  0 < bs -> (bs | 2 ^ size_bits) ->
  len_after size_bits bs n len mod bs = len mod bs.
Proof.
  intros Hbs Hdiv. revert len. induction n as [|n IH]; intros len;
    cbn [len_after]; [reflexivity|].
  rewrite IH. unfold wrap.
  rewrite Z.mod_mod_divide by exact Hdiv.
  replace (len - bs) with (len + (-1) * bs) by lia.
  apply Z.mod_add. lia.
Qed.

(** X4.  When the block size divides the range of [size_t] (a power of
    two does) and the length is not a multiple of the block size,
    [efm32_flash_erase] never returns 0, for no device and no fuel: [len]
    wraps around below zero and never becomes zero, so the only way out of
    the loop is a link fault. *)
Theorem efm32_flash_erase_unaligned_length (L : Type) (DL : DebugLink L)
        (size_bits : Z) (f : target_flash) (addr len : Z) :
  0 < f_blocksize f -> (f_blocksize f | 2 ^ size_bits) ->
  len mod f_blocksize f <> 0 ->
  forall fuel (s : state L) r evs s',
    efm32_flash_erase size_bits fuel f addr len s = Ret r evs s' ->
    r = -1 /\ In (CheckError true) evs.
Proof.
  intros Hbs Hdiv Hmod fuel s r evs s' Hrun.
  rewrite efm32_flash_erase_of_job, efm32_flash_erase_job_step in Hrun.
  destruct (efm32_flash_erase_loop_spec size_bits f fuel addr len
              (set_lnk s (link_write32 (lnk s) EFM32_MSC_WRITECTRL 1)))
    as (polls & _ & _ & Hspec).
  cbv zeta in Hspec.
  destruct (efm32_flash_erase_loop size_bits fuel f addr len _)
    as [[r0 [a' l']] e1 s1|]; [|discriminate Hrun].
  injection Hrun as <- <- <-. cbn [fst].
  destruct Hspec as (_ & _ & [(_ & Hz & _)|(-> & _ & p & _ & ->)]).
  - exfalso. apply Hmod.
    rewrite <- (len_after_mod size_bits (f_blocksize f) (List.length polls))
      by assumption.
    rewrite Hz. reflexivity.
  - split; [reflexivity|]. right.
    repeat (apply in_or_app; right). left. reflexivity.
Qed.

(** A flash region of 1023 KiB with blocks of 2048 bytes, as
    [efm32_probe] registers it for an EFM32GG whose flash size register
    reads 1023, erased as a whole on a link that faults. *)
Lemma efm32_flash_erase_unaligned_length_witness :
  let f := mk_flash 0 (1023 * 1024) 2048 Fn_efm32_flash_erase
                    Fn_target_flash_write_buffered Fn_target_flash_done_buffered
                    Fn_efm32_flash_write 2048 in
  let o := efm32_flash_erase 32 10 f 0 (1023 * 1024) (gg_state gg_sim_faulty) in
  o = Ret (-1) (events o) (final o) /\ In (CheckError true) (events o).
Proof.
  intros f o.
  assert (Hrun : o = Ret (-1) (events o) (final o)) by (vm_compute; reflexivity).
  split; [exact Hrun|].
  refine (proj2 (efm32_flash_erase_unaligned_length sim sim_link 32 f 0
                   (1023 * 1024) _ _ _ 10%nat (gg_state gg_sim_faulty)
                   (-1) (events o) (final o) Hrun)).
  - vm_compute. reflexivity.
  - exists (2 ^ 21). vm_compute. reflexivity.
  - vm_compute. discriminate.
Defined.

Section SoundDeviceRuns.

Context {L : Type} {DL : DebugLink L}.
Variable Inv : L -> Prop.
Variable left : L -> nat.
Hypothesis Hsound : sound_device Inv left.

(** On a sound device a poll never ends in a fault. *)
Lemma msc_poll_busy_sound (fuel : nat) (s : state L) :
  Inv (lnk s) ->
  match msc_poll_busy fuel s with
  | Ret fault _ s' => fault = false /\ Inv (lnk s')
  | OutOfFuel _ _ => True
  end.
Proof.
  revert s. induction fuel as [|fuel IH]; intros s HI; [exact I|].
  rewrite msc_poll_busy_step. cbv zeta.
  destruct Hsound as [_ Hread]. specialize (Hread (lnk s) HI).
  cbv zeta in Hread. destruct Hread as [HI1 Hbusy].
  destruct (msc_busy _) eqn:E; [|split; [reflexivity|exact HI1]].
  destruct (Hbusy eq_refl) as (Hno & HI2 & _).
  cbn [lnk set_lnk]. rewrite Hno.
  match goal with
  | |- context [msc_poll_busy fuel ?s2] =>
      specialize (IH s2 HI2); destruct (msc_poll_busy fuel s2)
  end; [exact IH|exact I].
Qed.

(** On a sound device the erase loop never returns -1, and it leaves the
    device sound. *)
Lemma efm32_flash_erase_loop_sound (size_bits : Z) (f : target_flash)
      (fuel : nat) (addr len : Z) (s : state L) :
  Inv (lnk s) ->
  match efm32_flash_erase_loop size_bits fuel f addr len s with
  | Ret r _ s' => fst r = 0 /\ Inv (lnk s')
  | OutOfFuel _ _ => True
  end.
Proof.
  revert addr len s. induction fuel as [|fuel IH]; intros addr len s HI.
  - cbn [efm32_flash_erase_loop].
    destruct (len =? 0); [split; [reflexivity|exact HI]|exact I].
  - destruct (Z.eq_dec len 0) as [->|Hlen].
    + rewrite efm32_flash_erase_loop_done. split; [reflexivity|exact HI].
    + rewrite efm32_flash_erase_loop_step by exact Hlen.
      pose proof (msc_poll_busy_sound fuel (erase_page_start s addr)
                    (erase_page_start_inv Inv left Hsound s addr HI)) as Hp.
      destruct (msc_poll_busy fuel _) as [fault evs s'|evs s']; [|exact I].
      destruct Hp as [-> HI'].
      specialize (IH (wrap32 (addr + f_blocksize f))
                     (wrap size_bits (len - f_blocksize f)) s' HI').
      destruct (efm32_flash_erase_loop size_bits fuel f _ _ s');
        [exact IH|exact I].
Qed.

(** As long as [len] never becomes zero, more fuel erases more pages. *)
Lemma efm32_flash_erase_loop_goes_on (size_bits : Z) (f : target_flash)
      (n : nat) (addr len : Z) (s : state L) :
  (forall i, len_after size_bits (f_blocksize f) i len <> 0) ->
  Inv (lnk s) ->
  exists fuel0, forall fuel, (fuel0 <= fuel)%nat ->
    (n <= List.length
            (page_erases
               (events (efm32_flash_erase_loop size_bits fuel f addr len s))))%nat.
Proof.
  revert addr len s. induction n as [|n IH]; intros addr len s Hnz HI.
  - exists 0%nat. intros fuel _. lia.
  - destruct (msc_poll_busy_clears Inv left Hsound
                (S (left (lnk (erase_page_start s addr))))
                (erase_page_start s addr))
      as (evs & s4 & Hpoll & HI4);
      [exact (erase_page_start_inv Inv left Hsound s addr HI)|lia|].
    destruct (IH (wrap32 (addr + f_blocksize f))
                 (wrap size_bits (len - f_blocksize f)) s4) as [fuel0 Hrest];
      [intros i; exact (Hnz (S i))|exact HI4|].
    exists (S (Nat.max (S (left (lnk (erase_page_start s addr)))) fuel0)).
    intros [|fuel] Hfuel; [lia|].
    assert (Hle1 : (S (left (lnk (erase_page_start s addr))) <= fuel)%nat) by lia.
    assert (Hle2 : (fuel0 <= fuel)%nat) by lia.
    rewrite efm32_flash_erase_loop_step by exact (Hnz 0%nat).
    rewrite (msc_poll_busy_mono _ fuel _ _ _ _ Hle1 Hpoll).
    specialize (Hrest fuel Hle2).
    destruct (efm32_flash_erase_loop size_bits fuel f _ _ s4);
      cbn [events] in *;
      rewrite !page_erases_app, !length_app;
      destruct (page_cmds_quiet addr) as (_ & _ & -> & _); lia.
Qed.

End SoundDeviceRuns.

(** X5.  On a sound device, with a block size that divides the range of
    [size_t] and a length that is not a multiple of it,
    [efm32_flash_erase] does not return, however much fuel it gets, and
    the number of pages it erases grows beyond every bound: it goes on
    erasing past the end of the requested range. *)
Theorem efm32_flash_erase_unaligned_runs_on (L : Type) (DL : DebugLink L)
        (Inv : L -> Prop) (left : L -> nat) (size_bits : Z) (f : target_flash)
        (addr len : Z) (s : state L) :
  sound_device Inv left -> Inv (lnk s) ->
  0 < f_blocksize f -> (f_blocksize f | 2 ^ size_bits) ->
  len mod f_blocksize f <> 0 ->
  (forall fuel r evs s',
      efm32_flash_erase size_bits fuel f addr len s <> Ret r evs s') /\
  (forall n, exists fuel0, forall fuel, (fuel0 <= fuel)%nat ->
      (n <= List.length
              (page_erases
                 (events (efm32_flash_erase size_bits fuel f addr len s))))%nat).
Proof.
  intros Hsound HI Hbs Hdiv Hmod.
  assert (HI1 : Inv (lnk (set_lnk s (link_write32 (lnk s) EFM32_MSC_WRITECTRL 1))))
    by (destruct Hsound as [Hwrite _]; cbn [lnk set_lnk]; auto).
  assert (Hnz : forall i, len_after size_bits (f_blocksize f) i len <> 0).
  { intros i Hz. apply Hmod.
    rewrite <- (len_after_mod size_bits (f_blocksize f) i) by assumption.
    rewrite Hz. reflexivity. }
  split.
  - intros fuel r evs s' Hrun.
    rewrite efm32_flash_erase_of_job, efm32_flash_erase_job_step in Hrun.
    pose proof (efm32_flash_erase_loop_sound Inv left Hsound size_bits f fuel
                  addr len _ HI1) as Hok.
    destruct (efm32_flash_erase_loop_spec size_bits f fuel addr len
                (set_lnk s (link_write32 (lnk s) EFM32_MSC_WRITECTRL 1)))
      as (polls & _ & _ & Hspec).
    cbv zeta in Hspec.
    destruct (efm32_flash_erase_loop size_bits fuel f addr len _)
      as [[r0 [a' l']] e1 s1|]; [|discriminate Hrun].
    destruct Hok as [Hok _]. cbn [fst] in Hok. subst r0.
    destruct Hspec as (_ & _ & [(_ & Hz & _)|(Hr & _)]); [|discriminate Hr].
    exact (Hnz _ Hz).
  - intros n.
    destruct (efm32_flash_erase_loop_goes_on Inv left Hsound size_bits f n
                addr len _ Hnz HI1) as [fuel0 Hgo].
    exists fuel0. intros fuel Hfuel. specialize (Hgo fuel Hfuel).
    destruct (efm32_flash_erase_events L DL size_bits fuel f addr len s)
      as [-> _].
    exact Hgo.
Qed.

(** The region of 1023 KiB with blocks of 2048 bytes on the sound
    simulated device: 512 pages would cover it, fuel 600 erases 598. *)
Lemma efm32_flash_erase_unaligned_runs_on_witness :
  let f := mk_flash 0 (1023 * 1024) 2048 Fn_efm32_flash_erase
                    Fn_target_flash_write_buffered Fn_target_flash_done_buffered
                    Fn_efm32_flash_write 2048 in
  (forall fuel r evs s',
      efm32_flash_erase 32 fuel f 0 (1023 * 1024) (gg_state gg_sim)
      <> Ret r evs s') /\
  (forall n, exists fuel0, forall fuel, (fuel0 <= fuel)%nat ->
      (n <= List.length
              (page_erases
                 (events (efm32_flash_erase 32 fuel f 0 (1023 * 1024)
                                            (gg_state gg_sim)))))%nat) /\
  List.length
    (page_erases
       (events (efm32_flash_erase 32 600 f 0 (1023 * 1024) (gg_state gg_sim))))
  = 598%nat.
Proof.
  intros f.
  assert (Hbs : 0 < f_blocksize f) by (vm_compute; reflexivity).
  assert (Hdiv : (f_blocksize f | 2 ^ 32))
    by (exists (2 ^ 21); vm_compute; reflexivity).
  assert (Hmod : (1023 * 1024) mod f_blocksize f <> 0)
    by (vm_compute; discriminate).
  destruct (efm32_flash_erase_unaligned_runs_on sim sim_link
              (fun l => sim_fault_in l = None) sim_busy 32 f 0 (1023 * 1024)
              (gg_state gg_sim) sim_sound eq_refl Hbs Hdiv Hmod) as [H1 H2].
  split; [exact H1|]. split; [exact H2|].
  vm_compute. reflexivity.
Defined.

(* ------------------------------------------------------------------------ *)
(** ** Runs cut short, and what lies between two pages *)
(* ------------------------------------------------------------------------ *)

Lemma latched_after_wren (evs : list event) :
  latched (MemWrite32 EFM32_MSC_WRITECTRL 1 :: evs) = latched evs /\
  page_erases (MemWrite32 EFM32_MSC_WRITECTRL 1 :: evs) = page_erases evs.
Proof. split; reflexivity. Qed.

(** Events that are no write leave the latch and the erase count alone. *)
Lemma no_write_quiet (p : list event) :
  Forall (fun e => is_target_write e = false) p ->
  latched p = [] /\ page_erases p = [].
Proof.
  induction 1 as [|e p He _ [IH1 IH2]]; [split; reflexivity|].
  destruct e; try discriminate He; cbn [latched page_erases filter];
    split; assumption.
Qed.

Lemma poll_events_no_write (p : list event) :
  Forall (fun e => is_poll_event e = true) p ->
  Forall (fun e => is_target_write e = false) p.
Proof.
  apply Forall_impl. intros e He.
  destruct e; try discriminate He; reflexivity.
Qed.

Lemma no_write_firstn (n : nat) (p : list event) :
  Forall (fun e => is_target_write e = false) p ->
  Forall (fun e => is_target_write e = false) (firstn n p).
Proof.
  intros Hp. revert n.
  induction Hp as [|e p He _ IH]; intros [|n]; cbn [firstn]; constructor;
    [exact He|apply IH].
Qed.

Lemma pages_app (bs : Z) (l1 l2 : list (list event)) (addr : Z) :
  pages bs addr (l1 ++ l2)
  = pages bs addr l1 ++ pages bs (addr_after bs (List.length l1) addr) l2.
Proof.
  revert addr. induction l1 as [|p l1 IH]; intros addr; [reflexivity|].
  cbn [app pages List.length addr_after]. rewrite IH, !app_assoc. reflexivity.
Qed.

(** Any initial piece of a sequence of rounds: the pages latched are the
    first [m], and the erase commands number [m], or [m - 1] when the
    piece ends between the latch of a page and its erase command. *)
Lemma pages_prefix (bs : Z) (qs : list (list event)) :
  Forall (Forall (fun e => is_target_write e = false)) qs ->
  forall (addr : Z) (j : nat),
  exists m,
    (m <= List.length qs)%nat /\
    latched (firstn j (pages bs addr qs))
    = map (fun i => addr_after bs i addr) (seq 0 m) /\
    (List.length (page_erases (firstn j (pages bs addr qs))) = m \/
     (S (List.length (page_erases (firstn j (pages bs addr qs)))) = m /\
      exists pre e,
        firstn j (pages bs addr qs) = pre ++ [e] /\
        ((exists a, e = MemWrite32 EFM32_MSC_ADDRB a) \/
         e = MemWrite32 EFM32_MSC_WRITECMD EFM32_MSC_WRITECMD_LADDRIM))).
Proof.
  induction 1 as [|q qs Hq _ IH]; intros addr j.
  - exists 0%nat. cbn [pages]. rewrite firstn_nil.
    split; [apply Nat.le_refl|]. split; [reflexivity|]. left. reflexivity.
  - cbn [pages List.length].
    destruct j as [|[|[|j]]].
    + exists 0%nat. split; [lia|]. split; [reflexivity|]. left. reflexivity.
    + exists 1%nat. split; [lia|]. split; [reflexivity|]. right.
      split; [reflexivity|].
      exists [], (MemWrite32 EFM32_MSC_ADDRB addr).
      split; [reflexivity|]. left. exists addr. reflexivity.
    + exists 1%nat. split; [lia|]. split; [reflexivity|]. right.
      split; [reflexivity|].
      exists [MemWrite32 EFM32_MSC_ADDRB addr],
             (MemWrite32 EFM32_MSC_WRITECMD EFM32_MSC_WRITECMD_LADDRIM).
      split; [reflexivity|]. right. reflexivity.
    + change (firstn (S (S (S j)))
                (page_cmds addr ++ q ++ pages bs (wrap32 (addr + bs)) qs))
        with (page_cmds addr
                ++ firstn j (q ++ pages bs (wrap32 (addr + bs)) qs)).
      rewrite firstn_app.
      destruct (no_write_quiet (firstn j q) (no_write_firstn j q Hq))
        as [Hq1 Hq2].
      destruct (IH (wrap32 (addr + bs)) (j - List.length q)%nat)
        as (m & Hm & Hlat & Hcount).
      exists (S m). split; [lia|].
      rewrite !latched_app, !page_erases_app, !length_app, Hq1, Hq2, Hlat.
      rewrite addr_seq_S.
      destruct (page_cmds_quiet addr) as (_ & -> & -> & _).
      split; [reflexivity|].
      cbn [List.length app Nat.add].
      destruct Hcount as [Hc|(Hc & pre & e & Hpre & He)].
      * left. rewrite Hc. reflexivity.
      * right. split; [rewrite Hc; reflexivity|].
        exists (page_cmds addr ++ firstn j q ++ pre), e.
        split; [|exact He].
        rewrite Hpre, <- !app_assoc. reflexivity.
Qed.

(** The events of the erase loop over [k] blocks are those of at most [k]
    rounds, each the three writes of a page and then events that write
    nothing. *)
Lemma efm32_flash_erase_loop_rounds (L : Type) (DL : DebugLink L)
      (size_bits : Z) (f : target_flash) (addr : Z) (k : nat)
      (fuel : nat) (s : state L) :
  0 < f_blocksize f ->
  Z.of_nat k * f_blocksize f < 2 ^ size_bits ->
  exists qs,
    (List.length qs <= k)%nat /\
    Forall (Forall (fun e => is_target_write e = false)) qs /\
    events (efm32_flash_erase_loop size_bits fuel f addr
                                   (Z.of_nat k * f_blocksize f) s)
    = pages (f_blocksize f) addr qs.
Proof.
  intros Hbs Hfit.
  destruct (efm32_flash_erase_loop_spec size_bits f fuel addr
              (Z.of_nat k * f_blocksize f) s)
    as (polls & Hpolls & Hnz & Hspec).
  cbv zeta in Hspec.
  assert (Hn : (List.length polls <= k)%nat).
  { destruct (Nat.le_gt_cases (List.length polls) k) as [H|H]; [exact H|].
    exfalso. apply (Hnz k H).
    rewrite len_after_exact by (try lia; assumption).
    rewrite Nat.sub_diag. reflexivity. }
  assert (Hlt : len_after size_bits (f_blocksize f) (List.length polls)
                          (Z.of_nat k * f_blocksize f) <> 0 ->
                (S (List.length polls) <= k)%nat).
  { intros Hz. destruct (Nat.eq_dec (List.length polls) k) as [E|E]; [|lia].
    exfalso. apply Hz. rewrite E.
    rewrite len_after_exact by (try lia; assumption).
    rewrite Nat.sub_diag. reflexivity. }
  assert (Hquiet : Forall (Forall (fun e => is_target_write e = false)) polls).
  { revert Hpolls. apply Forall_impl. exact poll_events_no_write. }
  assert (Hmore : forall p,
            Forall (fun e => is_target_write e = false) p ->
            len_after size_bits (f_blocksize f) (List.length polls)
                      (Z.of_nat k * f_blocksize f) <> 0 ->
            exists qs,
              (List.length qs <= k)%nat /\
              Forall (Forall (fun e => is_target_write e = false)) qs /\
              pages (f_blocksize f) addr polls
                ++ page_cmds (addr_after (f_blocksize f) (List.length polls) addr)
                ++ p
              = pages (f_blocksize f) addr qs).
  { intros p Hp Hz. exists (polls ++ [p]).
    split; [rewrite length_app; cbn [List.length]; specialize (Hlt Hz); lia|].
    split; [apply Forall_app; split; [exact Hquiet|repeat constructor; exact Hp]|].
    rewrite pages_app. cbn [pages]. rewrite app_nil_r. reflexivity. }
  destruct (efm32_flash_erase_loop size_bits fuel f addr _ _)
    as [[r [a' l']] e1 s1|e1 s1]; cbn [events].
  - destruct Hspec as (_ & _ & [(_ & _ & ->)|(_ & Hz & p & Hp & ->)]).
    + exists polls. auto.
    + replace (page_cmds (addr_after (f_blocksize f) (List.length polls) addr)
                 ++ p ++ [CheckError true])
        with (page_cmds (addr_after (f_blocksize f) (List.length polls) addr)
                ++ (p ++ [CheckError true])) by reflexivity.
      apply Hmore; [|exact Hz].
      apply Forall_app. split; [exact (poll_events_no_write p Hp)|].
      repeat constructor.
  - destruct Hspec as (Hz & [->|(p & Hp & ->)]).
    + exists polls. auto.
    + apply Hmore; [exact (poll_events_no_write p Hp)|exact Hz].
Qed.

(** The whole of a run, cut short or not: every page latched is erased. *)
Lemma efm32_flash_erase_whole_run (L : Type) (DL : DebugLink L) (size_bits : Z)
      (f : target_flash) (addr : Z) (k : nat) :
  0 < f_blocksize f ->
  0 <= addr < 2 ^ 32 ->
  addr + Z.of_nat k * f_blocksize f <= 2 ^ 32 ->
  Z.of_nat k * f_blocksize f < 2 ^ size_bits ->
  forall fuel (s : state L),
  exists m,
    (m <= k)%nat /\
    latched (events (efm32_flash_erase size_bits fuel f addr
                                       (Z.of_nat k * f_blocksize f) s))
    = map (fun i => addr + Z.of_nat i * f_blocksize f) (seq 0 m) /\
    List.length
      (page_erases (events (efm32_flash_erase size_bits fuel f addr
                                              (Z.of_nat k * f_blocksize f) s)))
    = m /\
    Forall (fun a => addr <= a /\
                     a + f_blocksize f <= addr + Z.of_nat k * f_blocksize f)
           (latched (events (efm32_flash_erase size_bits fuel f addr
                                               (Z.of_nat k * f_blocksize f) s))).
Proof.
  intros Hbs Haddr Hend Hfit fuel s.
  destruct (efm32_flash_erase_events L DL size_bits fuel f addr
              (Z.of_nat k * f_blocksize f) s) as [-> _].
  destruct (latched_after_wren
              (events (efm32_flash_erase_loop size_bits fuel f addr
                         (Z.of_nat k * f_blocksize f)
                         (set_lnk s (link_write32 (lnk s) EFM32_MSC_WRITECTRL 1)))))
    as [-> ->].
  destruct (efm32_flash_erase_loop_spec size_bits f fuel addr
              (Z.of_nat k * f_blocksize f)
              (set_lnk s (link_write32 (lnk s) EFM32_MSC_WRITECTRL 1)))
    as (polls & Hpolls & Hnz & Hspec).
  cbv zeta in Hspec.
  destruct (pages_content (f_blocksize f) polls addr Hpolls)
    as (_ & Hl & He & _).
  assert (Hn : (List.length polls <= k)%nat).
  { destruct (Nat.le_gt_cases (List.length polls) k) as [H|H]; [exact H|].
    exfalso. apply (Hnz k H).
    rewrite len_after_exact by (try lia; assumption).
    rewrite Nat.sub_diag. reflexivity. }
  assert (Hlt : len_after size_bits (f_blocksize f) (List.length polls)
                          (Z.of_nat k * f_blocksize f) <> 0 ->
                (S (List.length polls) <= k)%nat).
  { intros Hz. destruct (Nat.eq_dec (List.length polls) k) as [E|E]; [|lia].
    exfalso. apply Hz. rewrite E.
    rewrite len_after_exact by (try lia; assumption).
    rewrite Nat.sub_diag. reflexivity. }
  assert (Hshape : exists m, (m <= k)%nat /\
            latched (events (efm32_flash_erase_loop size_bits fuel f addr
                               (Z.of_nat k * f_blocksize f)
                               (set_lnk s (link_write32 (lnk s)
                                             EFM32_MSC_WRITECTRL 1))))
            = map (fun i => addr_after (f_blocksize f) i addr) (seq 0 m) /\
            List.length
              (page_erases
                 (events (efm32_flash_erase_loop size_bits fuel f addr
                            (Z.of_nat k * f_blocksize f)
                            (set_lnk s (link_write32 (lnk s)
                                          EFM32_MSC_WRITECTRL 1)))))
            = m).
  { assert (Hcut : forall p, Forall (fun e => is_poll_event e = true) p ->
              latched (pages (f_blocksize f) addr polls
                         ++ page_cmds (addr_after (f_blocksize f)
                                                  (List.length polls) addr) ++ p)
              = map (fun i => addr_after (f_blocksize f) i addr)
                    (seq 0 (S (List.length polls))) /\
              List.length
                (page_erases
                   (pages (f_blocksize f) addr polls
                      ++ page_cmds (addr_after (f_blocksize f)
                                               (List.length polls) addr) ++ p))
              = S (List.length polls)).
    { intros p Hp. destruct (poll_events_quiet p Hp) as (_ & Hp2 & Hp3 & _).
      rewrite !latched_app, !page_erases_app, !length_app, Hl, He, Hp2, Hp3.
      rewrite seq_S, map_app.
      destruct (page_cmds_quiet (addr_after (f_blocksize f) (List.length polls)
                                            addr)) as (_ & -> & -> & _).
      split; [cbn [app map Nat.add]; reflexivity|cbn [List.length]; lia]. }
    destruct (efm32_flash_erase_loop size_bits fuel f addr _ _)
      as [[r [a' l']] e1 s1|e1 s1]; cbn [events].
    - destruct Hspec as (_ & _ & [(_ & _ & ->)|(_ & Hz & p & Hp & ->)]).
      + exists (List.length polls). auto.
      + exists (S (List.length polls)). split; [exact (Hlt Hz)|].
        destruct (Hcut p Hp) as [H1 H2].
        rewrite !latched_app, !page_erases_app, !length_app in *.
        cbn [latched page_erases filter List.length] in *.
        rewrite !app_nil_r, !Nat.add_0_r. auto.
    - destruct Hspec as (Hz & [->|(p & Hp & ->)]).
      + exists (List.length polls). auto.
      + exists (S (List.length polls)). split; [exact (Hlt Hz)|].
        exact (Hcut p Hp). }
  destruct Hshape as (m & Hm & Hlat & Hcount).
  assert (Haddrs : map (fun i => addr_after (f_blocksize f) i addr) (seq 0 m)
                   = map (fun i => addr + Z.of_nat i * f_blocksize f) (seq 0 m)).
  { apply map_ext_in. intros i Hi. apply in_seq in Hi.
    apply addr_after_exact; nia. }
  exists m. rewrite Hlat, Haddrs. repeat split; try assumption.
  apply Forall_forall. intros a Ha. apply in_map_iff in Ha.
  destruct Ha as (i & <- & Hi). apply in_seq in Hi. nia.
Qed.

(** X6.  Take a block size [bs > 0], a start address and [k] blocks inside
    the 32-bit address space.  Whatever the device and the fuel, and
    whether the erase returns 0, returns -1 or is still running, stop the
    run after any number [j] of its calls, also between the three writes of
    a page.  The pages latched so far are the first [m] pages of the range,
    in order, for some [m <= k], and nothing outside the range is latched.
    The page-erase commands issued so far number [m], or [m - 1] when the
    last call made was the [ADDRB] write or the [LADDRIM] command of the
    page latched last, which is then not erased yet.  For the run as a
    whole they number [m]: each page latched has been erased once. *)
Theorem efm32_flash_erase_prefix (L : Type) (DL : DebugLink L) (size_bits : Z)
        (f : target_flash) (addr : Z) (k : nat) :
  0 < f_blocksize f ->
  0 <= addr < 2 ^ 32 ->
  addr + Z.of_nat k * f_blocksize f <= 2 ^ 32 ->
  Z.of_nat k * f_blocksize f < 2 ^ size_bits ->
  forall fuel (s : state L),
  let run := events (efm32_flash_erase size_bits fuel f addr
                                       (Z.of_nat k * f_blocksize f) s) in
  (forall j : nat,
   exists m,
     (m <= k)%nat /\
     latched (firstn j run)
     = map (fun i => addr + Z.of_nat i * f_blocksize f) (seq 0 m) /\
     Forall (fun a => addr <= a /\
                      a + f_blocksize f <= addr + Z.of_nat k * f_blocksize f)
            (latched (firstn j run)) /\
     (List.length (page_erases (firstn j run)) = m \/
      (S (List.length (page_erases (firstn j run))) = m /\
       exists pre e,
         firstn j run = pre ++ [e] /\
         ((exists a, e = MemWrite32 EFM32_MSC_ADDRB a) \/
          e = MemWrite32 EFM32_MSC_WRITECMD EFM32_MSC_WRITECMD_LADDRIM)))) /\
  (exists m,
     (m <= k)%nat /\
     latched run
     = map (fun i => addr + Z.of_nat i * f_blocksize f) (seq 0 m) /\
     List.length (page_erases run) = m /\
     Forall (fun a => addr <= a /\
                      a + f_blocksize f <= addr + Z.of_nat k * f_blocksize f)
            (latched run)).
Proof.
  intros Hbs Haddr Hend Hfit fuel s run.
  split; [|exact (efm32_flash_erase_whole_run L DL size_bits f addr k
                    Hbs Haddr Hend Hfit fuel s)].
  intros j. subst run.
  destruct (efm32_flash_erase_events L DL size_bits fuel f addr
              (Z.of_nat k * f_blocksize f) s) as [-> _].
  destruct (efm32_flash_erase_loop_rounds L DL size_bits f addr k fuel
              (set_lnk s (link_write32 (lnk s) EFM32_MSC_WRITECTRL 1))
              Hbs Hfit) as (qs & Hlen & Hqs & ->).
  assert (Hrange : forall m, (m <= k)%nat ->
            map (fun i => addr_after (f_blocksize f) i addr) (seq 0 m)
            = map (fun i => addr + Z.of_nat i * f_blocksize f) (seq 0 m) /\
            Forall (fun a => addr <= a /\
                             a + f_blocksize f
                             <= addr + Z.of_nat k * f_blocksize f)
                   (map (fun i => addr + Z.of_nat i * f_blocksize f) (seq 0 m))).
  { intros m Hm. split.
    - apply map_ext_in. intros i Hi. apply in_seq in Hi.
      apply addr_after_exact; nia.
    - apply Forall_forall. intros a Ha. apply in_map_iff in Ha.
      destruct Ha as (i & <- & Hi). apply in_seq in Hi. nia. }
  destruct j as [|j].
  - exists 0%nat. cbn [firstn latched page_erases filter List.length seq map].
    split; [lia|]. split; [reflexivity|]. split; [constructor|].
    left. reflexivity.
  - cbn [firstn].
    destruct (latched_after_wren
                (firstn j (pages (f_blocksize f) addr qs))) as [-> ->].
    destruct (pages_prefix (f_blocksize f) qs Hqs addr j)
      as (m & Hm & Hlat & Hcount).
    assert (Hmk : (m <= k)%nat) by lia.
    destruct (Hrange m Hmk) as [Hmap Hin].
    exists m. rewrite Hlat, Hmap.
    split; [exact Hmk|]. split; [reflexivity|]. split; [exact Hin|].
    destruct Hcount as [Hc|(Hc & pre & e & Hpre & He)]; [left; exact Hc|].
    right. split; [exact Hc|].
    exists (MemWrite32 EFM32_MSC_WRITECTRL 1 :: pre), e.
    split; [rewrite Hpre; reflexivity|exact He].
Qed.

(** Three pages on the faulty link.  After two calls the page at 0x800 is
    latched and not erased yet; the run as a whole latches and erases two
    pages, 0x800 and 0x1000. *)
Lemma efm32_flash_erase_prefix_witness :
  (latched (firstn 2 (events (efm32_flash_erase 32 10 gg_flash 0x800
                                (Z.of_nat 3 * f_blocksize gg_flash)
                                (gg_state gg_sim_faulty))))
   = [0x800] /\
   page_erases (firstn 2 (events (efm32_flash_erase 32 10 gg_flash 0x800
                                    (Z.of_nat 3 * f_blocksize gg_flash)
                                    (gg_state gg_sim_faulty))))
   = []) /\
  (exists m,
     (m <= 3)%nat /\
     latched (firstn 2 (events (efm32_flash_erase 32 10 gg_flash 0x800
                                  (Z.of_nat 3 * f_blocksize gg_flash)
                                  (gg_state gg_sim_faulty))))
     = map (fun i => 0x800 + Z.of_nat i * f_blocksize gg_flash) (seq 0 m) /\
     Forall (fun a => 0x800 <= a /\
                      a + f_blocksize gg_flash
                      <= 0x800 + Z.of_nat 3 * f_blocksize gg_flash)
            (latched (firstn 2 (events (efm32_flash_erase 32 10 gg_flash 0x800
                                          (Z.of_nat 3 * f_blocksize gg_flash)
                                          (gg_state gg_sim_faulty))))) /\
     (List.length
        (page_erases (firstn 2 (events (efm32_flash_erase 32 10 gg_flash 0x800
                                          (Z.of_nat 3 * f_blocksize gg_flash)
                                          (gg_state gg_sim_faulty)))))
      = m \/
      (S (List.length
            (page_erases (firstn 2 (events (efm32_flash_erase 32 10 gg_flash 0x800
                                              (Z.of_nat 3 * f_blocksize gg_flash)
                                              (gg_state gg_sim_faulty))))))
       = m /\
       exists pre e,
         firstn 2 (events (efm32_flash_erase 32 10 gg_flash 0x800
                             (Z.of_nat 3 * f_blocksize gg_flash)
                             (gg_state gg_sim_faulty)))
         = pre ++ [e] /\
         ((exists a, e = MemWrite32 EFM32_MSC_ADDRB a) \/
          e = MemWrite32 EFM32_MSC_WRITECMD EFM32_MSC_WRITECMD_LADDRIM)))) /\
  (exists m,
     (m <= 3)%nat /\
     latched (events (efm32_flash_erase 32 10 gg_flash 0x800
                        (Z.of_nat 3 * f_blocksize gg_flash)
                        (gg_state gg_sim_faulty)))
     = map (fun i => 0x800 + Z.of_nat i * f_blocksize gg_flash) (seq 0 m) /\
     List.length
       (page_erases (events (efm32_flash_erase 32 10 gg_flash 0x800
                               (Z.of_nat 3 * f_blocksize gg_flash)
                               (gg_state gg_sim_faulty))))
     = m /\
     Forall (fun a => 0x800 <= a /\
                      a + f_blocksize gg_flash
                      <= 0x800 + Z.of_nat 3 * f_blocksize gg_flash)
            (latched (events (efm32_flash_erase 32 10 gg_flash 0x800
                                (Z.of_nat 3 * f_blocksize gg_flash)
                                (gg_state gg_sim_faulty))))).
Proof.
  assert (Hbs : 0 < f_blocksize gg_flash) by (vm_compute; reflexivity).
  assert (Haddr : 0 <= 0x800 < 2 ^ 32) by lia.
  assert (Hend : 0x800 + Z.of_nat 3 * f_blocksize gg_flash <= 2 ^ 32)
    by (vm_compute; discriminate).
  assert (Hfit : Z.of_nat 3 * f_blocksize gg_flash < 2 ^ 32)
    by (vm_compute; reflexivity).
  split; [split; vm_compute; reflexivity|].
  split.
  - exact (proj1 (efm32_flash_erase_prefix sim sim_link 32 gg_flash 0x800 3
                    Hbs Haddr Hend Hfit 10%nat (gg_state gg_sim_faulty)) 2%nat).
  - exact (proj2 (efm32_flash_erase_prefix sim sim_link 32 gg_flash 0x800 3
                    Hbs Haddr Hend Hfit 10%nat (gg_state gg_sim_faulty))).
Defined.

Lemma efm32_flash_erase_loop_polled (L : Type) (DL : DebugLink L) (size_bits : Z)
      (f : target_flash) (fuel : nat) (addr len : Z) (s : state L)
      (r : Z * (Z * Z)) (evs : list event) (s' : state L) :
  efm32_flash_erase_loop size_bits fuel f addr len s = Ret r evs s' ->
  fst r = 0 ->
  exists polls,
    evs = polled_pages (f_blocksize f) addr polls /\
    Forall (fun p => Forall (fun v => msc_busy v = true) (fst p)
                     /\ msc_busy (snd p) = false) polls /\
    len_after size_bits (f_blocksize f) (List.length polls) len = 0.
Proof.
  revert addr len s r evs s'.
  induction fuel as [|fuel IH]; intros addr len s r evs s' Hrun Hr.
  - cbn [efm32_flash_erase_loop] in Hrun.
    destruct (len =? 0) eqn:E; [|discriminate Hrun].
    apply Z.eqb_eq in E. injection Hrun as <- <- <-.
    exists []. repeat split; [constructor|exact E].
  - destruct (Z.eq_dec len 0) as [->|Hlen].
    + rewrite efm32_flash_erase_loop_done in Hrun. injection Hrun as <- <- <-.
      exists []. repeat split. constructor.
    + rewrite efm32_flash_erase_loop_step in Hrun by exact Hlen.
      destruct (msc_poll_busy_spec fuel (erase_page_start s addr))
        as (vs & Hvs & Hpoll).
      destruct (msc_poll_busy fuel _) as [[|] e1 s1|e1 s1];
        [injection Hrun as <- <- <-; discriminate Hr| |discriminate Hrun].
      destruct Hpoll as (_ & _ & v & Hv & ->).
      destruct (efm32_flash_erase_loop size_bits fuel f _ _ s1)
        as [r2 e2 s2|] eqn:Hrest; [|discriminate Hrun].
      injection Hrun as <- <- <-.
      destruct (IH _ _ _ _ _ _ Hrest Hr) as (polls & -> & Hpolls & Hz).
      exists ((vs, v) :: polls). repeat split.
      * cbn [polled_pages]. rewrite <- !app_assoc. reflexivity.
      * constructor; [split; assumption|exact Hpolls].
      * exact Hz.
Qed.

(** X7.  Whatever the device and the arguments, a run of
    [efm32_flash_erase] that returns 0 consists of the write-enable and
    then, page after page, the three writes of the page, status reads that
    answer busy, each followed by a link check without fault, and one
    status read that answers idle.  So nothing is written for the next
    page before the controller was seen idle, the status is read at least
    once per page, and the run ends with the length at zero. *)
Theorem efm32_flash_erase_polls_each_page (L : Type) (DL : DebugLink L)
        (size_bits : Z) (fuel : nat) (f : target_flash) (addr len : Z)
        (s : state L) (evs : list event) (s' : state L) :
  efm32_flash_erase size_bits fuel f addr len s = Ret 0 evs s' ->
  exists polls,
    evs = MemWrite32 EFM32_MSC_WRITECTRL 1
            :: polled_pages (f_blocksize f) addr polls /\
    Forall (fun p => Forall (fun v => msc_busy v = true) (fst p)
                     /\ msc_busy (snd p) = false) polls /\
    len_after size_bits (f_blocksize f) (List.length polls) len = 0.
Proof.
  intros Hrun.
  rewrite efm32_flash_erase_of_job, efm32_flash_erase_job_step in Hrun.
  destruct (efm32_flash_erase_loop size_bits fuel f addr len _)
    as [r e1 s1|] eqn:Hloop; [|discriminate Hrun].
  injection Hrun as Hr <- <-.
  destruct (efm32_flash_erase_loop_polled L DL size_bits f fuel addr len _
              r e1 s1 Hloop Hr) as (polls & -> & Hpolls & Hz).
  exists polls. repeat split; assumption.
Qed.

(** Two pages on the sound simulated device: two busy polls and an idle
    one for each. *)
Lemma efm32_flash_erase_polls_each_page_witness :
  let o := efm32_flash_erase 32 10 gg_flash 0x800 0x1000 (gg_state gg_sim) in
  o = Ret 0 (events o) (final o) /\
  events o = MemWrite32 EFM32_MSC_WRITECTRL 1
               :: polled_pages 2048 0x800 [([1; 1], 0); ([1; 1], 0)] /\
  exists polls,
    events o = MemWrite32 EFM32_MSC_WRITECTRL 1
                 :: polled_pages (f_blocksize gg_flash) 0x800 polls /\
    Forall (fun p => Forall (fun v => msc_busy v = true) (fst p)
                     /\ msc_busy (snd p) = false) polls /\
    len_after 32 (f_blocksize gg_flash) (List.length polls) 0x1000 = 0.
Proof.
  intros o.
  assert (Hrun : o = Ret 0 (events o) (final o)) by (vm_compute; reflexivity).
  split; [exact Hrun|]. split; [vm_compute; reflexivity|].
  exact (efm32_flash_erase_polls_each_page sim sim_link 32 10 gg_flash 0x800
           0x1000 (gg_state gg_sim) (events o) (final o) Hrun).
Defined.

(* ------------------------------------------------------------------------ *)
(** ** Further properties of identification *)
(* ------------------------------------------------------------------------ *)

Lemma string_app_nil_r (x : string) : (x ++ "")%string = x.
Proof. induction x as [|c x IH]; cbn; [reflexivity|]. rewrite IH. reflexivity. Qed.

(** Everything a successful identification does: [radio] holds the radio
    part number if the device has a radio and is empty otherwise. *)
Lemma efm32_probe_device_success (L : Type) (DL : DebugLink L) (inhibit : Z)
      (s : state L) (evs : list event) (s' : state L) :
  efm32_probe_device inhibit s = Ret true evs s' ->
  exists dev pn fam fs rs radio,
    efm32_device_lookup efm32_devices fam = Some dev /\
    0 <= pn < 2 ^ 16 /\ 0 <= fam < 2 ^ 8 /\ 0 <= fs < 2 ^ 16 /\
    0 <= rs < 2 ^ 16 /\
    Forall (fun rn => 0 <= rn < 2 ^ 16) radio /\
    List.length radio = (if has_radio dev then 1%nat else 0%nat) /\
    evs = [ MemRead16 EFM32_DI_PART_NUMBER pn;
            MemRead8 EFM32_DI_PART_FAMILY fam;
            DebugMsg ("efm32_probe - part_number: " ++ fmt_d pn
                      ++ " part_family: " ++ fmt_d fam ++ nl) ]
          ++ map (MemRead16 EFM32_DI_RADIO_OPN) radio
          ++ [ MemRead16 EFM32_DI_MEM_INFO_FLASH fs;
               MemRead16 EFM32_DI_MEM_INFO_RAM rs;
               TcPrintf ("flash size " ++ fmt_d (as_int (fs * 1024))
                         ++ " page size " ++ fmt_d (as_int (flash_page_size dev))
                         ++ nl);
               AddRam SRAM_BASE (rs * 1024);
               AddFlash (mk_flash 0 (fs * 1024) (flash_page_size dev)
                                  Fn_efm32_flash_erase
                                  Fn_target_flash_write_buffered
                                  Fn_target_flash_done_buffered
                                  Fn_efm32_flash_write (flash_page_size dev));
               AddCommands efm32_cmd_list "EFM32" ] /\
    variant_string s'
    = (name dev
         ++ concat "" (map (fun rn => " (radio: " ++ fmt_d rn ++ ")") radio))%string /\
    tgt s' = mk_target (idcode (tgt s))
                       (Z.lor (target_options (tgt s)) inhibit)
                       Ptr_variant_string.
Proof.
  probe_unfold. probe_reads; intros H; try discriminate H;
    injection H as <- <-; rewrite !wrap32_kib.
  - match goal with
    | E : efm32_device_lookup _ (wrap8 ?f) = Some ?d,
      Epn : link_read16 _ EFM32_DI_PART_NUMBER = (?pn, _),
      Ern : link_read16 _ EFM32_DI_RADIO_OPN = (?rn, _),
      Efs : link_read16 _ EFM32_DI_MEM_INFO_FLASH = (?fs, _),
      Ers : link_read16 _ EFM32_DI_MEM_INFO_RAM = (?rs, _) |- _ =>
        exists d, (wrap16 pn), (wrap8 f), (wrap16 fs), (wrap16 rs), [wrap16 rn]
    end.
    match goal with E : has_radio _ = _ |- _ => rewrite E end.
    repeat split; try apply wrap16_range; try (apply wrap_range; lia);
      try assumption; try reflexivity.
    repeat constructor; apply wrap16_range.
  - match goal with
    | E : efm32_device_lookup _ (wrap8 ?f) = Some ?d,
      Epn : link_read16 _ EFM32_DI_PART_NUMBER = (?pn, _),
      Efs : link_read16 _ EFM32_DI_MEM_INFO_FLASH = (?fs, _),
      Ers : link_read16 _ EFM32_DI_MEM_INFO_RAM = (?rs, _) |- _ =>
        exists d, (wrap16 pn), (wrap8 f), (wrap16 fs), (wrap16 rs), []
    end.
    match goal with E : has_radio _ = _ |- _ => rewrite E end.
    repeat split; try apply wrap16_range; try (apply wrap_range; lia);
      try assumption; try reflexivity.
    + constructor.
    + cbn [map concat]. symmetry. apply string_app_nil_r.
Qed.

(** A return of [true] comes from an accepted identification code. *)
Lemma efm32_probe_true (L : Type) (DL : DebugLink L) (inhibit : Z)
      (s : state L) (evs : list event) (s' : state L) :
  efm32_probe inhibit s = Ret true evs s' ->
  (idcode (tgt s) = 0x2BA01477 \/ idcode (tgt s) = 0x0BC11477) /\
  efm32_probe_device inhibit s = Ret true evs s'.
Proof.
  unfold efm32_probe. intros H.
  destruct (idcode (tgt s) =? 0x2BA01477) eqn:E1;
    [apply Z.eqb_eq in E1; auto|].
  destruct (idcode (tgt s) =? 0x0BC11477) eqn:E2;
    [apply Z.eqb_eq in E2; auto|].
  discriminate H.
Qed.

Lemma efm32_probe_device_true_iff (L : Type) (DL : DebugLink L) (inhibit : Z)
      (s : state L) :
  (exists evs s', efm32_probe_device inhibit s = Ret true evs s') <->
  efm32_device_lookup efm32_devices
    (wrap8 (fst (link_read8 (snd (link_read16 (lnk s) EFM32_DI_PART_NUMBER))
                            EFM32_DI_PART_FAMILY))) <> None.
Proof.
  probe_unfold. probe_reads; split.
  all: try (intros _; discriminate).
  all: try (intros _; do 2 eexists; reflexivity).
  all: try (intros (evs & s' & H); discriminate H).
  all: intros H; exfalso; apply H; reflexivity.
Qed.

(** X8.  [efm32_probe] answers [true] exactly when the identification code
    is 0x2BA01477 or 0x0BC11477 and the byte it reads at [PART_FAMILY],
    after the part number, is the family of some catalog entry. *)
Theorem efm32_probe_accepts_iff (L : Type) (DL : DebugLink L) (inhibit : Z)
        (s : state L) :
  (exists evs s', efm32_probe inhibit s = Ret true evs s') <->
  (idcode (tgt s) = 0x2BA01477 \/ idcode (tgt s) = 0x0BC11477) /\
  exists d, In d efm32_devices /\
            family d
            = wrap8 (fst (link_read8
                            (snd (link_read16 (lnk s) EFM32_DI_PART_NUMBER))
                            EFM32_DI_PART_FAMILY)).
Proof.
  assert (Hcat : forall fam,
             efm32_device_lookup efm32_devices fam <> None <->
             exists d, In d efm32_devices /\ family d = fam).
  { intros fam. split.
    - intros H. destruct (efm32_device_lookup efm32_devices fam) as [d|] eqn:E;
        [|contradiction].
      destruct (efm32_device_lookup_first _ _ _ E) as (pre & post & Hd & Hf & _).
      exists d. split; [|exact Hf].
      rewrite Hd. apply in_or_app. right. left. reflexivity.
    - intros (d & Hd & Hf) E. rewrite efm32_device_lookup_none in E.
      exact (E d Hd Hf). }
  rewrite <- Hcat, <- efm32_probe_device_true_iff.
  unfold efm32_probe. split.
  - intros (evs & s' & H).
    destruct (idcode (tgt s) =? 0x2BA01477) eqn:E1;
      [apply Z.eqb_eq in E1; eauto|].
    destruct (idcode (tgt s) =? 0x0BC11477) eqn:E2;
      [apply Z.eqb_eq in E2; eauto|].
    discriminate H.
  - intros [[E|E] H]; rewrite E; cbn [Z.eqb Pos.eqb]; exact H.
Qed.

(** X9.  A successful identification leaves the identification code of
    the target as it is, makes the driver name point to the display string
    and sets the reset-inhibit option; every option bit is afterwards what
    it was before or-ed with the bit of [CORTEXM_TOPT_INHIBIT_SRST], so no
    option is ever cleared. *)
Theorem efm32_probe_target_setup (L : Type) (DL : DebugLink L) (inhibit : Z)
        (s : state L) (evs : list event) (s' : state L) :
  efm32_probe inhibit s = Ret true evs s' ->
  idcode (tgt s') = idcode (tgt s) /\
  driver (tgt s') = Ptr_variant_string /\
  target_options (tgt s') = Z.lor (target_options (tgt s)) inhibit /\
  (forall n, Z.testbit (target_options (tgt s')) n
             = Z.testbit (target_options (tgt s)) n || Z.testbit inhibit n).
Proof.
  intros H. destruct (efm32_probe_true _ _ _ _ _ _ H) as [_ Hdev].
  destruct (efm32_probe_device_success _ _ _ _ _ _ Hdev)
    as (dev & pn & fam & fs & rs & radio & _ & _ & _ & _ & _ & _ & _ & _ & _ & Ht).
  rewrite Ht. cbn [idcode driver target_options].
  repeat split. intros n. apply Z.lor_spec.
Qed.

(** The simulated EFM32GG, with option bit 0 set before and the inhibit
    flag at bit 2. *)
Lemma efm32_probe_target_setup_witness :
  let s := mk_state gg_sim (mk_target 0x2BA01477 1 Ptr_null) EmptyString in
  let o := efm32_probe 4 s in
  o = Ret true (events o) (final o) /\
  target_options (tgt (final o)) = 5 /\
  driver (tgt (final o)) = Ptr_variant_string.
Proof.
  intros s o.
  assert (Hrun : o = Ret true (events o) (final o)) by (vm_compute; reflexivity).
  split; [exact Hrun|].
  destruct (efm32_probe_target_setup sim sim_link 4 s (events o) (final o) Hrun)
    as (_ & Hd & Ho & _).
  split; [rewrite Ho; reflexivity|exact Hd].
Defined.

(** X10.  After a successful identification the display string is the
    catalog name of the entry found for the family byte, followed for a
    device with a radio by [" (radio: N)"], [N] being the 16-bit word read
    at [RADIO_OPN] in decimal.  The radio word is read exactly when the
    entry says the device has a radio, once, between the family byte and
    the flash size. *)
Theorem efm32_probe_display_string (L : Type) (DL : DebugLink L) (inhibit : Z)
        (s : state L) (evs : list event) (s' : state L) :
  efm32_probe inhibit s = Ret true evs s' ->
  exists dev fam,
    In (MemRead8 EFM32_DI_PART_FAMILY fam) evs /\
    efm32_device_lookup efm32_devices fam = Some dev /\
    if has_radio dev then
      exists pre post rn,
        evs = pre ++ MemRead16 EFM32_DI_RADIO_OPN rn :: post /\
        0 <= rn < 2 ^ 16 /\
        (forall v, ~ In (MemRead16 EFM32_DI_RADIO_OPN v) (pre ++ post)) /\
        In (MemRead8 EFM32_DI_PART_FAMILY fam) pre /\
        (exists fs, In (MemRead16 EFM32_DI_MEM_INFO_FLASH fs) post) /\
        variant_string s' = (name dev ++ " (radio: " ++ fmt_d rn ++ ")")%string
    else
      (forall v, ~ In (MemRead16 EFM32_DI_RADIO_OPN v) evs) /\
      variant_string s' = name dev.
Proof.
  intros H. destruct (efm32_probe_true _ _ _ _ _ _ H) as [_ Hdev].
  destruct (efm32_probe_device_success _ _ _ _ _ _ Hdev)
    as (dev & pn & fam & fs & rs & radio & Hlk & _ & _ & _ & _ & Hrn & Hlen
        & -> & Hvs & _).
  exists dev, fam. split; [right; left; reflexivity|]. split; [exact Hlk|].
  destruct (has_radio dev).
  - destruct radio as [|rn [|? ?]]; try discriminate Hlen.
    exists [ MemRead16 EFM32_DI_PART_NUMBER pn;
             MemRead8 EFM32_DI_PART_FAMILY fam;
             DebugMsg ("efm32_probe - part_number: " ++ fmt_d pn
                       ++ " part_family: " ++ fmt_d fam ++ nl) ].
    eexists. exists rn. split; [reflexivity|].
    split; [inversion Hrn; assumption|]. split.
    + intros v Hin. cbn [app In] in Hin.
      repeat (destruct Hin as [Hin|Hin]; try discriminate Hin;
              try (injection Hin as Ha _; vm_compute in Ha; discriminate Ha)).
      exact Hin.
    + split; [right; left; reflexivity|]. split; [exists fs; left; reflexivity|].
      rewrite Hvs. reflexivity.
  - destruct radio as [|? ?]; [|discriminate Hlen]. split.
    + intros v Hin. cbn [app map In] in Hin.
      repeat (destruct Hin as [Hin|Hin]; try discriminate Hin;
              try (injection Hin as Ha _; vm_compute in Ha; discriminate Ha)).
      exact Hin.
    + rewrite Hvs. apply string_app_nil_r.
Qed.

(** A simulated EFR32MG1P whose radio word reads 4460. *)
Lemma efm32_probe_display_string_witness :
  let o := efm32_probe 4 (gg_state (mk_sim mg_regs 0 2 None 0)) in
  o = Ret true (events o) (final o) /\
  variant_string (final o) = "EFR32MG1P (radio: 4460)"%string /\
  exists dev fam,
    In (MemRead8 EFM32_DI_PART_FAMILY fam) (events o) /\
    efm32_device_lookup efm32_devices fam = Some dev /\
    if has_radio dev then
      exists pre post rn,
        events o = pre ++ MemRead16 EFM32_DI_RADIO_OPN rn :: post /\
        0 <= rn < 2 ^ 16 /\
        (forall v, ~ In (MemRead16 EFM32_DI_RADIO_OPN v) (pre ++ post)) /\
        In (MemRead8 EFM32_DI_PART_FAMILY fam) pre /\
        (exists fs, In (MemRead16 EFM32_DI_MEM_INFO_FLASH fs) post) /\
        variant_string (final o)
        = (name dev ++ " (radio: " ++ fmt_d rn ++ ")")%string
    else
      (forall v, ~ In (MemRead16 EFM32_DI_RADIO_OPN v) (events o)) /\
      variant_string (final o) = name dev.
Proof.
  intros o.
  assert (Hrun : o = Ret true (events o) (final o)) by (vm_compute; reflexivity).
  split; [exact Hrun|]. split; [vm_compute; reflexivity|].
  exact (efm32_probe_display_string sim sim_link 4
           (gg_state (mk_sim mg_regs 0 2 None 0)) (events o) (final o) Hrun).
Defined.

(** X11.  Whatever the device and the outcome, [efm32_probe] reads device
    memory at most five times, and only inside the device information
    page, between [RADIO_OPN] (offset 0x1AE) and [PART_FAMILY] (offset
    0x1FE); it touches no controller register. *)
Theorem efm32_probe_reads_info_page (L : Type) (DL : DebugLink L) (inhibit : Z)
        (s : state L) :
  Forall (fun e => forall a, event_addr e = Some a ->
                             EFM32_DI + 0x1AE <= a <= EFM32_DI + 0x1FE)
         (events (efm32_probe inhibit s)) /\
  (List.length (filter is_target_read (events (efm32_probe inhibit s))) <= 5)%nat.
Proof.
  assert (Hdev : Forall (fun e => forall a, event_addr e = Some a ->
                                            EFM32_DI + 0x1AE <= a <= EFM32_DI + 0x1FE)
                        (events (efm32_probe_device inhibit s)) /\
                 (List.length (filter is_target_read
                                      (events (efm32_probe_device inhibit s)))
                  <= 5)%nat).
  { probe_unfold. probe_reads; cbn [events]; split;
      try (cbn [filter is_target_read List.length]; lia);
      repeat (apply Forall_cons;
              [let a := fresh "a" in let Ha := fresh "Ha" in
               intros a Ha; cbn [event_addr] in Ha;
               first [discriminate Ha
                     |injection Ha as <-; vm_compute; split; discriminate]|]);
      apply Forall_nil. }
  unfold efm32_probe.
  destruct (idcode (tgt s) =? 0x2BA01477); [exact Hdev|].
  destruct (idcode (tgt s) =? 0x0BC11477); [exact Hdev|].
  cbn [ret events filter List.length]. split; [constructor|lia].
Qed.

(** What the catalog holds: page sizes of 512, 1024 or 2048 bytes, names
    of at most ten characters, families that fit a byte, and one of two
    controller bases. *)
Lemma efm32_devices_entries (d : efm32_device_t) :
  In d efm32_devices ->
  In (flash_page_size d) [512; 1024; 2048] /\
  (String.length (name d) <= 10)%nat /\
  0 <= family d < 256 /\
  (msc_offset d = 0x400c0000 \/ msc_offset d = 0x400e0000).
Proof.
  intros Hd. unfold efm32_devices in Hd. cbn [In] in Hd.
  repeat (destruct Hd as [<-|Hd];
          [cbn [flash_page_size name family msc_offset String.length In];
           repeat split; try lia; auto 6|]).
  contradiction.
Qed.

Lemma efm32_device_lookup_in (fam : Z) (d : efm32_device_t) :
  efm32_device_lookup efm32_devices fam = Some d -> In d efm32_devices.
Proof.
  intros E. destruct (efm32_device_lookup_first _ _ _ E) as (pre & post & Hd & _).
  rewrite Hd. apply in_or_app. right. left. reflexivity.
Qed.

(** X12.  The regions of a successful identification: the flash region
    starts at 0, is at most 65535 KiB long and a whole number of KiB, has a
    block size of 512, 1024 or 2048 bytes and a buffer of one block; its
    length is a multiple of 512, and a multiple of the block size unless
    the block size is 2048 and the flash size register is odd.  The RAM
    region starts at [SRAM_BASE], is a whole number of KiB and ends inside
    the 32-bit address space. *)
Theorem efm32_probe_region_bounds (L : Type) (DL : DebugLink L) (inhibit : Z)
        (s : state L) (evs : list event) (s' : state L) :
  efm32_probe inhibit s = Ret true evs s' ->
  (forall f, In (AddFlash f) evs ->
     f_start f = 0 /\
     0 <= f_length f <= 65535 * 1024 /\
     f_length f mod 1024 = 0 /\
     In (f_blocksize f) [512; 1024; 2048] /\
     f_buf_size f = f_blocksize f /\
     f_length f mod 512 = 0 /\
     (f_length f mod f_blocksize f = 0 <->
      (f_blocksize f = 2048 -> Z.even (f_length f / 1024) = true))) /\
  (forall a l, In (AddRam a l) evs ->
     a = SRAM_BASE /\ 0 <= l <= 65535 * 1024 /\ l mod 1024 = 0 /\
     SRAM_BASE + l < 2 ^ 32).
Proof.
  intros H. destruct (efm32_probe_true _ _ _ _ _ _ H) as [_ Hdev].
  destruct (efm32_probe_device_success _ _ _ _ _ _ Hdev)
    as (dev & pn & fam & fs & rs & radio & Hlk & _ & _ & Hfs & Hrs & _ & _
        & -> & _ & _).
  destruct (efm32_devices_entries dev (efm32_device_lookup_in _ _ Hlk))
    as (Hps & _).
  assert (Hradio : forall e, In e (map (MemRead16 EFM32_DI_RADIO_OPN) radio) ->
                             exists v, e = MemRead16 EFM32_DI_RADIO_OPN v).
  { intros e He. apply in_map_iff in He. destruct He as (v & <- & _). eauto. }
  split.
  - intros f Hin. apply in_app_or in Hin. destruct Hin as [Hin|Hin];
      [destruct Hin as [Hin|[Hin|[Hin|[]]]]; discriminate Hin|].
    apply in_app_or in Hin. destruct Hin as [Hin|Hin];
      [destruct (Hradio _ Hin) as (v & Hv); discriminate Hv|].
    destruct Hin as [Hin|[Hin|[Hin|[Hin|[Hin|[Hin|[]]]]]]];
      try discriminate Hin.
    injection Hin as <-.
    cbn [f_start f_length f_blocksize f_buf_size].
    rewrite Z.div_mul by lia.
    repeat split; try lia; try assumption.
    + apply Z.mod_mul. lia.
    + replace (fs * 1024) with (fs * 2 * 512) by lia. apply Z.mod_mul. lia.
    + intros Hmod Hbs. rewrite Hbs in Hmod.
      apply Z.even_spec. exists (fs * 1024 / 2048).
      pose proof (Z.div_mod (fs * 1024) 2048 ltac:(lia)). lia.
    + intros Heven. cbn [In] in Hps.
      destruct Hps as [E|[E|[E|[]]]]; rewrite <- E in *.
      * replace (fs * 1024) with (fs * 2 * 512) by lia. apply Z.mod_mul. lia.
      * apply Z.mod_mul. lia.
      * specialize (Heven eq_refl). apply Z.even_spec in Heven.
        destruct Heven as [m ->].
        replace (2 * m * 1024) with (m * 2048) by lia. apply Z.mod_mul. lia.
  - intros a l Hin. apply in_app_or in Hin. destruct Hin as [Hin|Hin];
      [destruct Hin as [Hin|[Hin|[Hin|[]]]]; discriminate Hin|].
    apply in_app_or in Hin. destruct Hin as [Hin|Hin];
      [destruct (Hradio _ Hin) as (v & Hv); discriminate Hv|].
    destruct Hin as [Hin|[Hin|[Hin|[Hin|[Hin|[Hin|[]]]]]]];
      try discriminate Hin.
    injection Hin as <- <-. unfold SRAM_BASE.
    repeat split; try lia. apply Z.mod_mul. lia.
Qed.

(** The simulated EFM32GG with the odd flash size register: 1023 KiB in
    blocks of 2048 bytes, not a whole number of blocks. *)
Lemma efm32_probe_region_bounds_witness :
  let o := efm32_probe 4 (gg_state (mk_sim gg_odd_regs 0 2 None 0)) in
  let f := mk_flash 0 (1023 * 1024) 2048 Fn_efm32_flash_erase
                    Fn_target_flash_write_buffered Fn_target_flash_done_buffered
                    Fn_efm32_flash_write 2048 in
  o = Ret true (events o) (final o) /\
  In (AddFlash f) (events o) /\
  f_length f mod 512 = 0 /\
  ~ f_length f mod f_blocksize f = 0.
Proof.
  intros o f.
  assert (Hrun : o = Ret true (events o) (final o)) by (vm_compute; reflexivity).
  assert (Hin : In (AddFlash f) (events o))
    by (vm_compute; do 7 right; left; reflexivity).
  split; [exact Hrun|]. split; [exact Hin|].
  destruct (efm32_probe_region_bounds sim sim_link 4
              (gg_state (mk_sim gg_odd_regs 0 2 None 0)) (events o) (final o)
              Hrun) as [Hflash _].
  destruct (Hflash f Hin) as (_ & _ & _ & _ & _ & H512 & Hiff).
  split; [exact H512|].
  intros Hmod. apply Hiff in Hmod; [|reflexivity]. vm_compute in Hmod.
  discriminate Hmod.
Defined.

Lemma string_length_app (a b : string) :
  String.length (a ++ b) = (String.length a + String.length b)%nat.
Proof. induction a as [|c a IH]; cbn; [reflexivity|]. rewrite IH. reflexivity. Qed.

(** [%d] of a 16-bit value takes at most five characters: checked on each
    of the 65536 values, taken as 256 times a high byte plus a low byte. *)
Lemma fmt_d_u16_length (v : Z) :
  0 <= v < 2 ^ 16 -> (String.length (fmt_d v) <= 5)%nat.
Proof.
  intros Hv.
  assert (Hall : forallb (fun hi =>
                   forallb (fun lo =>
                              Nat.leb (String.length
                                         (fmt_d (256 * Z.of_nat hi + Z.of_nat lo)))
                                      5)
                           (seq 0 256))
                         (seq 0 256) = true)
    by (vm_compute; reflexivity).
  rewrite forallb_forall in Hall.
  specialize (Hall (Z.to_nat (v / 256))).
  rewrite forallb_forall in Hall.
  pose proof (Z.div_mod v 256 ltac:(lia)) as Hdm.
  pose proof (Z.mod_pos_bound v 256 ltac:(lia)) as Hlo.
  assert (Hhi : 0 <= v / 256 < 256)
    by (split; [apply Z.div_pos; lia|apply Z.div_lt_upper_bound; lia]).
  specialize (Hall ltac:(apply in_seq; lia) (Z.to_nat (v mod 256))
                   ltac:(apply in_seq; lia)).
  rewrite !Z2Nat.id in Hall by lia.
  rewrite <- Hdm in Hall. apply Nat.leb_le. exact Hall.
Qed.

(** X13.  The display string of a successful identification has at most
    25 characters, whatever the device answers: with its terminator it
    fits the 40 bytes of [variant_string], so the [sprintf] of
    [efm32_probe] cannot write past the buffer. *)
Theorem efm32_probe_display_fits (L : Type) (DL : DebugLink L) (inhibit : Z)
        (s : state L) (evs : list event) (s' : state L) :
  efm32_probe inhibit s = Ret true evs s' ->
  (String.length (variant_string s') <= 25)%nat /\
  (String.length (variant_string s') + 1 <= 40)%nat.
Proof.
  intros H. destruct (efm32_probe_true _ _ _ _ _ _ H) as [_ Hdev].
  destruct (efm32_probe_device_success _ _ _ _ _ _ Hdev)
    as (dev & pn & fam & fs & rs & radio & Hlk & _ & _ & _ & _ & Hrn & Hlen
        & _ & -> & _).
  destruct (efm32_devices_entries dev (efm32_device_lookup_in _ _ Hlk))
    as (_ & Hname & _).
  assert (Hle : (String.length
                   (name dev
                      ++ concat "" (map (fun rn => " (radio: " ++ fmt_d rn ++ ")")
                                        radio))%string
                 <= 25)%nat).
  { destruct radio as [|rn [|? ?]].
    - cbn [map concat]. rewrite string_app_nil_r. lia.
    - cbn [map concat]. inversion Hrn as [|? ? Hr _]; subst.
      pose proof (fmt_d_u16_length rn Hr).
      rewrite !string_length_app. cbn [String.length]. lia.
    - destruct (has_radio dev); discriminate Hlen. }
  split; lia.
Qed.

(** A radio part number of five digits on the longest catalog name. *)
Lemma efm32_probe_display_fits_witness :
  let regs := fun a => if a =? EFM32_DI_PART_FAMILY then 28
                       else if a =? EFM32_DI_RADIO_OPN then 65535 else 0 in
  let o := efm32_probe 4 (gg_state (mk_sim regs 0 2 None 0)) in
  o = Ret true (events o) (final o) /\
  variant_string (final o) = "EFR32MG12P (radio: 65535)"%string /\
  (String.length (variant_string (final o)) <= 25)%nat /\
  (String.length (variant_string (final o)) + 1 <= 40)%nat.
Proof.
  intros regs o.
  assert (Hrun : o = Ret true (events o) (final o)) by (vm_compute; reflexivity).
  split; [exact Hrun|]. split; [vm_compute; reflexivity|].
  exact (efm32_probe_display_fits sim sim_link 4
           (gg_state (mk_sim regs 0 2 None 0)) (events o) (final o) Hrun).
Defined.

(* ------------------------------------------------------------------------ *)
(** ** The [serial] command *)
(* ------------------------------------------------------------------------ *)

Lemma hex_val_digit (d : Z) : 0 <= d < 16 -> hex_val (hex_digit d) = d.
Proof.
  intros Hd.
  assert (Hcases : d = 0 \/ d = 1 \/ d = 2 \/ d = 3 \/ d = 4 \/ d = 5 \/ d = 6
                   \/ d = 7 \/ d = 8 \/ d = 9 \/ d = 10 \/ d = 11 \/ d = 12
                   \/ d = 13 \/ d = 14 \/ d = 15) by lia.
  repeat (destruct Hcases as [->|Hcases]; [reflexivity|]).
  subst d. reflexivity.
Qed.

Lemma hex_value_from_app (acc : Z) (a b : string) :
  hex_value_from acc (a ++ b) = hex_value_from (hex_value_from acc a) b.
Proof.
  revert acc. induction a as [|c a IH]; intros acc; cbn; [reflexivity|].
  apply IH.
Qed.

(** Reading back the [n] digits written for [x] gives [x] modulo [16^n]. *)
Lemma hex_value_fmt_hex (n : nat) (acc x : Z) :
  0 <= x ->
  hex_value_from acc (fmt_hex n x) = acc * 16 ^ Z.of_nat n + x mod 16 ^ Z.of_nat n /\
  String.length (fmt_hex n x) = n.
Proof.
  revert acc x. induction n as [|n IH]; intros acc x Hx.
  - cbn [fmt_hex hex_value_from String.length Z.of_nat].
    rewrite Z.pow_0_r, Z.mod_1_r. split; [lia|reflexivity].
  - cbn [fmt_hex]. rewrite hex_value_from_app, string_length_app.
    destruct (IH acc (x / 16) ltac:(apply Z.div_pos; lia)) as [-> ->].
    cbn [hex_value_from String.length].
    rewrite hex_val_digit by (apply Z.mod_pos_bound; lia).
    split; [|lia].
    rewrite Nat2Z.inj_succ, Z.pow_succ_r by lia.
    rewrite (Z.rem_mul_r x 16 (16 ^ Z.of_nat n)) by
        (try lia; apply Z.pow_pos_nonneg; lia).
    lia.
Qed.

(** X14.  The [serial] command always returns [true] after two reads, of
    [EUI64_1] and then [EUI64_0], and one line of output: the text
    ["Unique Number: 0x"], sixteen hexadecimal digits and a newline.  Read
    back as a number the sixteen digits are the first word read times 2^32
    plus the second: all 64 bits are printed, the high word first. *)
Theorem efm32_cmd_serial_prints_eui (L : Type) (DL : DebugLink L) (s : state L) :
  exists hi lo digits s',
    efm32_cmd_serial s
    = Ret true
          [ MemRead32 EFM32_DI_EUI64_1 hi;
            MemRead32 EFM32_DI_EUI64_0 lo;
            TcPrintf ("Unique Number: 0x" ++ digits ++ nl) ] s' /\
    hi = wrap32 (fst (link_read32 (lnk s) EFM32_DI_EUI64_1)) /\
    lo = wrap32 (fst (link_read32 (snd (link_read32 (lnk s) EFM32_DI_EUI64_1))
                                  EFM32_DI_EUI64_0)) /\
    String.length digits = 16%nat /\
    hex_value digits = hi * 2 ^ 32 + lo.
Proof.
  unfold efm32_cmd_serial, efm32_read_eui, bind, target_mem_read32, tc_printf, ret.
  destruct (link_read32 (lnk s) EFM32_DI_EUI64_1) as [h l1] eqn:E1.
  cbn [lnk set_lnk fst snd app].
  destruct (link_read32 l1 EFM32_DI_EUI64_0) as [l l2] eqn:E2.
  cbn [lnk set_lnk fst snd app].
  pose proof (wrap32_range h) as Hh. pose proof (wrap32_range l) as Hl.
  rewrite lor_shiftl_32 by assumption.
  exists (wrap32 h), (wrap32 l), (fmt_016llx (wrap32 h * 2 ^ 32 + wrap32 l)).
  eexists. split; [reflexivity|]. split; [reflexivity|]. split; [reflexivity|].
  unfold fmt_016llx, hex_value, wrap64.
  rewrite wrap_small by lia.
  destruct (hex_value_fmt_hex 16 0 (wrap32 h * 2 ^ 32 + wrap32 l) ltac:(lia))
    as [-> ->].
  split; [reflexivity|].
  change (16 ^ Z.of_nat 16) with (2 ^ 64). rewrite Z.mod_small by lia. lia.
Qed.

(* ------------------------------------------------------------------------ *)
(** ** Identification followed by the erase of the whole flash region *)
(* ------------------------------------------------------------------------ *)

(** On a sound device the erase of [k] blocks that lie inside the address
    space returns 0, given enough fuel, having latched the [k] pages. *)
Lemma efm32_flash_erase_sound_run (L : Type) (DL : DebugLink L)
      (Inv : L -> Prop) (left : L -> nat) (size_bits : Z) (f : target_flash)
      (addr : Z) (k : nat) (s : state L) :
  sound_device Inv left -> Inv (lnk s) ->
  0 < f_blocksize f ->
  0 <= addr < 2 ^ 32 ->
  addr + Z.of_nat k * f_blocksize f <= 2 ^ 32 ->
  Z.of_nat k * f_blocksize f < 2 ^ size_bits ->
  exists fuel0, forall fuel, (fuel0 <= fuel)%nat ->
    exists evs s',
      efm32_flash_erase size_bits fuel f addr (Z.of_nat k * f_blocksize f) s
      = Ret 0 evs s' /\
      latched evs = map (fun i => addr + Z.of_nat i * f_blocksize f) (seq 0 k) /\
      List.length (page_erases evs) = k.
Proof.
  intros Hsound HI Hbs Haddr Hend Hfit.
  destruct (efm32_flash_erase_loop_returns Inv left Hsound size_bits f k addr
              (set_lnk s (link_write32 (lnk s) EFM32_MSC_WRITECTRL 1)) Hbs Hfit)
    as [fuel0 Hret].
  { destruct Hsound as [Hwrite _]. cbn [lnk set_lnk]. auto. }
  exists fuel0. intros fuel Hfuel.
  destruct (Hret fuel Hfuel) as (r & evs & s' & Hloop & Hquiet).
  rewrite efm32_flash_erase_of_job, efm32_flash_erase_job_step, Hloop.
  destruct (efm32_flash_erase_loop_spec size_bits f fuel addr
              (Z.of_nat k * f_blocksize f)
              (set_lnk s (link_write32 (lnk s) EFM32_MSC_WRITECTRL 1)))
    as (polls & Hpolls & Hnz & Hspec).
  cbv zeta in Hspec. rewrite Hloop in Hspec. destruct r as [r [a' l']].
  destruct Hspec as (_ & _ & [(-> & Hz & ->)|(_ & _ & p & _ & ->)]).
  2: { exfalso. apply (no_fault_not_in _ Hquiet).
       repeat (apply in_or_app; right). left. reflexivity. }
  assert (Hn : List.length polls = k)
    by (apply (erase_rounds_exact size_bits (f_blocksize f)); assumption).
  destruct (pages_content (f_blocksize f) polls addr Hpolls) as (_ & Hl & He & _).
  rewrite Hn in *.
  exists (MemWrite32 EFM32_MSC_WRITECTRL 1 :: pages (f_blocksize f) addr polls), s'.
  split; [reflexivity|].
  destruct (latched_after_wren (pages (f_blocksize f) addr polls)) as [-> ->].
  split; [|exact He]. rewrite Hl.
  apply map_ext_in. intros i Hi. apply in_seq in Hi.
  apply addr_after_exact; nia.
Qed.

(** The flash region of a successful identification. *)
Lemma efm32_probe_flash_region (L : Type) (DL : DebugLink L) (inhibit : Z)
      (s : state L) (evs : list event) (s' : state L) (f : target_flash) :
  efm32_probe inhibit s = Ret true evs s' ->
  In (AddFlash f) evs ->
  exists dev fs,
    In dev efm32_devices /\ 0 <= fs < 2 ^ 16 /\
    f = mk_flash 0 (fs * 1024) (flash_page_size dev)
                 Fn_efm32_flash_erase Fn_target_flash_write_buffered
                 Fn_target_flash_done_buffered Fn_efm32_flash_write
                 (flash_page_size dev).
Proof.
  intros H Hin. destruct (efm32_probe_true _ _ _ _ _ _ H) as [_ Hdev].
  destruct (efm32_probe_device_success _ _ _ _ _ _ Hdev)
    as (dev & pn & fam & fs & rs & radio & Hlk & _ & _ & Hfs & _ & _ & _
        & -> & _ & _).
  exists dev, fs. split; [exact (efm32_device_lookup_in _ _ Hlk)|].
  split; [exact Hfs|].
  apply in_app_or in Hin. destruct Hin as [Hin|Hin];
    [destruct Hin as [Hin|[Hin|[Hin|[]]]]; discriminate Hin|].
  apply in_app_or in Hin. destruct Hin as [Hin|Hin].
  - apply in_map_iff in Hin. destruct Hin as (v & Hv & _). discriminate Hv.
  - destruct Hin as [Hin|[Hin|[Hin|[Hin|[Hin|[Hin|[]]]]]]];
      try discriminate Hin.
    injection Hin as <-. reflexivity.
Qed.

(** X15.  Let identification succeed and register the flash region [f],
    let the length of [f] be a multiple of its block size, and let
    [size_t] have at least 26 bits.  On a sound device the erase of the
    whole region, from [f->start] over [f->length] bytes, returns 0 given
    enough fuel, after erasing each of the [length / blocksize] pages once,
    in ascending order from address 0, every page inside the region. *)
Theorem efm32_probe_then_erase_region (L : Type) (DL : DebugLink L)
        (inhibit size_bits : Z) (Inv : L -> Prop) (left : L -> nat)
        (s : state L) (evs : list event) (s' : state L) (f : target_flash)
        (s2 : state L) :
  efm32_probe inhibit s = Ret true evs s' ->
  In (AddFlash f) evs ->
  f_length f mod f_blocksize f = 0 ->
  26 <= size_bits ->
  sound_device Inv left -> Inv (lnk s2) ->
  exists fuel0, forall fuel, (fuel0 <= fuel)%nat ->
    exists evs2 s3,
      efm32_flash_erase size_bits fuel f (f_start f) (f_length f) s2
      = Ret 0 evs2 s3 /\
      latched evs2
      = map (fun i => Z.of_nat i * f_blocksize f)
            (seq 0 (Z.to_nat (f_length f / f_blocksize f))) /\
      List.length (page_erases evs2) = Z.to_nat (f_length f / f_blocksize f) /\
      Forall (fun a => 0 <= a /\ a + f_blocksize f <= f_length f) (latched evs2).
Proof.
  intros Hprobe Hin Hmod Hsb Hsound HI.
  destruct (efm32_probe_flash_region _ _ _ _ _ _ _ Hprobe Hin)
    as (dev & fs & Hdev & Hfs & ->).
  destruct (efm32_devices_entries dev Hdev) as (Hps & _).
  cbn [f_start f_length f_blocksize] in *.
  set (ps := flash_page_size dev) in *.
  assert (Hpos : 0 < ps) by (cbn [In] in Hps; lia).
  set (k := Z.to_nat (fs * 1024 / ps)).
  assert (Hk : Z.of_nat k * ps = fs * 1024).
  { unfold k. rewrite Z2Nat.id by (apply Z.div_pos; lia).
    pose proof (Z.div_mod (fs * 1024) ps ltac:(lia)). lia. }
  assert (Hpow : 2 ^ 26 <= 2 ^ size_bits) by (apply Z.pow_le_mono_r; lia).
  destruct (efm32_flash_erase_sound_run L DL Inv left size_bits
              (mk_flash 0 (fs * 1024) ps Fn_efm32_flash_erase
                        Fn_target_flash_write_buffered
                        Fn_target_flash_done_buffered Fn_efm32_flash_write ps)
              0 k s2 Hsound HI)
    as [fuel0 Hrun]; cbn [f_blocksize]; try lia.
  exists fuel0. intros fuel Hfuel.
  destruct (Hrun fuel Hfuel) as (evs2 & s3 & Herase & Hlat & Hcount).
  cbn [f_blocksize] in *. rewrite Hk in Herase.
  exists evs2, s3. split; [exact Herase|].
  assert (Hlat' : latched evs2 = map (fun i => Z.of_nat i * ps) (seq 0 k)).
  { rewrite Hlat. apply map_ext. intros i. lia. }
  split; [exact Hlat'|]. split; [exact Hcount|].
  rewrite Hlat'. apply Forall_forall. intros a Ha. apply in_map_iff in Ha.
  destruct Ha as (i & <- & Hi). apply in_seq in Hi. nia.
Qed.

(** The simulated EFM32GG: 1024 KiB in 512 pages of 2048 bytes. *)
Lemma efm32_probe_then_erase_region_witness :
  let o := efm32_probe 4 (gg_state gg_sim) in
  o = Ret true (events o) (final o) /\
  In (AddFlash gg_flash) (events o) /\
  f_length gg_flash / f_blocksize gg_flash = 512 /\
  exists fuel0, forall fuel, (fuel0 <= fuel)%nat ->
    exists evs2 s3,
      efm32_flash_erase 32 fuel gg_flash (f_start gg_flash) (f_length gg_flash)
                        (final o)
      = Ret 0 evs2 s3 /\
      latched evs2
      = map (fun i => Z.of_nat i * f_blocksize gg_flash)
            (seq 0 (Z.to_nat (f_length gg_flash / f_blocksize gg_flash))) /\
      List.length (page_erases evs2)
      = Z.to_nat (f_length gg_flash / f_blocksize gg_flash) /\
      Forall (fun a => 0 <= a /\ a + f_blocksize gg_flash <= f_length gg_flash)
             (latched evs2).
Proof.
  intros o.
  assert (Hrun : o = Ret true (events o) (final o)) by (vm_compute; reflexivity).
  assert (Hin : In (AddFlash gg_flash) (events o))
    by (vm_compute; do 7 right; left; reflexivity).
  split; [exact Hrun|]. split; [exact Hin|]. split; [vm_compute; reflexivity|].
  apply (efm32_probe_then_erase_region sim sim_link 4 32
           (fun l => sim_fault_in l = None) sim_busy (gg_state gg_sim)
           (events o) (final o) gg_flash (final o) Hrun Hin).
  - vm_compute. reflexivity.
  - lia.
  - exact sim_sound.
  - vm_compute. reflexivity.
Defined.

(* ------------------------------------------------------------------------ *)
(** ** The pages of a completed erase, in general *)
(* ------------------------------------------------------------------------ *)

(** The pages latched by an erase of [k] blocks that returned 0, without
    any assumption on where the range lies. *)
Lemma efm32_flash_erase_return_latched (L : Type) (DL : DebugLink L)
      (size_bits : Z) (fuel : nat) (f : target_flash) (addr : Z) (k : nat)
      (s : state L) (evs : list event) (s' : state L) :
  0 < f_blocksize f -> 0 <= addr < 2 ^ 32 ->
  Z.of_nat k * f_blocksize f < 2 ^ size_bits ->
  efm32_flash_erase size_bits fuel f addr (Z.of_nat k * f_blocksize f) s
  = Ret 0 evs s' ->
  latched evs
  = map (fun i => wrap32 (addr + Z.of_nat i * f_blocksize f)) (seq 0 k) /\
  List.length (page_erases evs) = k.
Proof.
  intros Hbs Haddr Hfit Hrun.
  rewrite efm32_flash_erase_of_job, efm32_flash_erase_job_step in Hrun.
  destruct (efm32_flash_erase_loop_spec size_bits f fuel addr
              (Z.of_nat k * f_blocksize f)
              (set_lnk s (link_write32 (lnk s) EFM32_MSC_WRITECTRL 1)))
    as (polls & Hpolls & Hnz & Hspec).
  cbv zeta in Hspec.
  destruct (efm32_flash_erase_loop size_bits fuel f addr _ _)
    as [[r [a' l']] e1 s1|]; [|discriminate Hrun].
  injection Hrun as Hr <- <-. cbn [fst] in Hr. subst r.
  destruct Hspec as (_ & _ & [(_ & Hz & ->)|(Hr & _)]); [|discriminate Hr].
  assert (Hn : List.length polls = k)
    by (apply (erase_rounds_exact size_bits (f_blocksize f)); assumption).
  destruct (pages_content (f_blocksize f) polls addr Hpolls) as (_ & Hl & He & _).
  destruct (latched_after_wren (pages (f_blocksize f) addr polls)) as [-> ->].
  rewrite Hn in *. split; [|exact He]. rewrite Hl.
  apply map_ext. intros i. apply addr_after_wrap. exact Haddr.
Qed.

Lemma map_seq_offset (A : Type) (g : nat -> A) (k1 k2 : nat) :
  map g (seq k1 k2) = map (fun i => g (k1 + i)%nat) (seq 0 k2).
Proof.
  revert k1. induction k2 as [|n IH]; intros k1; [reflexivity|].
  cbn [seq map]. rewrite Nat.add_0_r. f_equal.
  rewrite IH, <- seq_shift, map_map.
  apply map_ext. intros i. f_equal. lia.
Qed.

(** X16.  Erasing a range in two calls erases the same pages in the same
    order as erasing it in one: if the erase of [k1] blocks at [addr], the
    erase of [k2] blocks at [addr + k1 * bs] and the erase of [k1 + k2]
    blocks at [addr] all return 0, whatever the state of the device each
    starts in, the pages latched by the third are those latched by the
    first followed by those latched by the second. *)
Theorem efm32_flash_erase_in_two_calls (L : Type) (DL : DebugLink L)
        (size_bits : Z) (f : target_flash) (addr : Z) (k1 k2 : nat)
        (fuel1 fuel2 fuel : nat) (sa sb sc : state L)
        (evs1 evs2 evs : list event) (sa' sb' sc' : state L) :
  0 < f_blocksize f ->
  0 <= addr < 2 ^ 32 ->
  addr + Z.of_nat (k1 + k2) * f_blocksize f <= 2 ^ 32 ->
  Z.of_nat (k1 + k2) * f_blocksize f < 2 ^ size_bits ->
  efm32_flash_erase size_bits fuel1 f addr (Z.of_nat k1 * f_blocksize f) sa
  = Ret 0 evs1 sa' ->
  efm32_flash_erase size_bits fuel2 f (addr + Z.of_nat k1 * f_blocksize f)
                    (Z.of_nat k2 * f_blocksize f) sb
  = Ret 0 evs2 sb' ->
  efm32_flash_erase size_bits fuel f addr (Z.of_nat (k1 + k2) * f_blocksize f) sc
  = Ret 0 evs sc' ->
  latched evs = latched evs1 ++ latched evs2 /\
  List.length (page_erases evs)
  = (List.length (page_erases evs1) + List.length (page_erases evs2))%nat.
Proof.
  intros Hbs Haddr Hend Hfit H1 H2 H3.
  assert (Hfit1 : Z.of_nat k1 * f_blocksize f < 2 ^ size_bits) by nia.
  assert (Hfit2 : Z.of_nat k2 * f_blocksize f < 2 ^ size_bits) by nia.
  assert (Haddr2 : 0 <= addr + Z.of_nat k1 * f_blocksize f < 2 ^ 32
                   \/ k2 = 0%nat) by nia.
  destruct (efm32_flash_erase_return_latched _ _ _ _ _ _ _ _ _ _ Hbs Haddr
              Hfit1 H1) as [-> ->].
  destruct (efm32_flash_erase_return_latched _ _ _ _ _ _ _ _ _ _ Hbs Haddr
              Hfit H3) as [-> ->].
  destruct Haddr2 as [Haddr2| ->].
  - destruct (efm32_flash_erase_return_latched _ _ _ _ _ _ _ _ _ _ Hbs Haddr2
                Hfit2 H2) as [-> ->].
    split; [|reflexivity].
    rewrite seq_app, map_app. f_equal. cbn [Nat.add].
    rewrite map_seq_offset. apply map_ext. intros i. f_equal. lia.
  - cbn [Z.of_nat Z.mul] in H2.
    rewrite efm32_flash_erase_of_job, efm32_flash_erase_job_step,
      efm32_flash_erase_loop_done in H2.
    injection H2 as <- _. rewrite Nat.add_0_r, app_nil_r.
    split; [reflexivity|].
    change (page_erases [MemWrite32 EFM32_MSC_WRITECTRL 1]) with (@nil event).
    cbn [List.length]. lia.
Qed.

(** Four pages from 0x800, as two and two and as four, on the simulated
    device. *)
Lemma efm32_flash_erase_in_two_calls_witness :
  let o1 := efm32_flash_erase 32 10 gg_flash 0x800 0x1000 (gg_state gg_sim) in
  let o2 := efm32_flash_erase 32 10 gg_flash 0x1800 0x1000 (final o1) in
  let o := efm32_flash_erase 32 10 gg_flash 0x800 0x2000 (gg_state gg_sim) in
  latched (events o) = [0x800; 0x1000; 0x1800; 0x2000] /\
  latched (events o) = latched (events o1) ++ latched (events o2) /\
  List.length (page_erases (events o))
  = (List.length (page_erases (events o1))
     + List.length (page_erases (events o2)))%nat.
Proof.
  intros o1 o2 o. split; [vm_compute; reflexivity|].
  apply (efm32_flash_erase_in_two_calls sim sim_link 32 gg_flash 0x800 2 2
           10 10 10 (gg_state gg_sim) (final o1) (gg_state gg_sim)
           (events o1) (events o2) (events o) (final o1) (final o2) (final o)).
  - vm_compute. reflexivity.
  - lia.
  - vm_compute. discriminate.
  - vm_compute. reflexivity.
  - vm_compute. reflexivity.
  - vm_compute. reflexivity.
  - vm_compute. reflexivity.
Defined.

(** X17.  The address is a 32-bit number and the loop adds the block size
    to it without any check: for a start address in range and [k] blocks,
    wherever the range ends, an erase that returns 0 has latched
    [(addr + i * bs) mod 2^32] for [i < k], in this order.  A range that
    runs past the top of the address space is continued at the bottom. *)
Theorem efm32_flash_erase_wraps (L : Type) (DL : DebugLink L) (size_bits : Z)
        (fuel : nat) (f : target_flash) (addr : Z) (k : nat) (s : state L)
        (evs : list event) (s' : state L) :
  0 < f_blocksize f -> 0 <= addr < 2 ^ 32 ->
  Z.of_nat k * f_blocksize f < 2 ^ size_bits ->
  efm32_flash_erase size_bits fuel f addr (Z.of_nat k * f_blocksize f) s
  = Ret 0 evs s' ->
  latched evs
  = map (fun i => (addr + Z.of_nat i * f_blocksize f) mod 2 ^ 32) (seq 0 k) /\
  List.length (page_erases evs) = k.
Proof.
  intros Hbs Haddr Hfit Hrun.
  exact (efm32_flash_erase_return_latched _ _ _ _ _ _ _ _ _ _ Hbs Haddr
           Hfit Hrun).
Qed.

(** Two pages from the last page of the address space: the second one is
    the page at address 0. *)
Lemma efm32_flash_erase_wraps_witness :
  let o := efm32_flash_erase 32 10 gg_flash 0xFFFFF800
                             (Z.of_nat 2 * f_blocksize gg_flash)
                             (gg_state gg_sim) in
  o = Ret 0 (events o) (final o) /\
  latched (events o) = [0xFFFFF800; 0] /\
  latched (events o)
  = map (fun i => (0xFFFFF800 + Z.of_nat i * f_blocksize gg_flash) mod 2 ^ 32)
        (seq 0 2) /\
  List.length (page_erases (events o)) = 2%nat.
Proof.
  intros o.
  assert (Hrun : o = Ret 0 (events o) (final o)) by (vm_compute; reflexivity).
  split; [exact Hrun|]. split; [vm_compute; reflexivity|].
  apply (efm32_flash_erase_wraps sim sim_link 32 10 gg_flash 0xFFFFF800 2
           (gg_state gg_sim) (events o) (final o)).
  - vm_compute. reflexivity.
  - lia.
  - vm_compute. reflexivity.
  - exact Hrun.
Defined.
